(** * realm-users-migration: export of App Services users

    A shallow embedding of [src/atlas.ts] and [src/index.ts].  The script
    validates its configuration, logs in, pages through two REST
    resources, normalises the records and either writes an export file or
    prints a summary.

    Layout: models of the runtime (Node's POSIX [path], the date-only
    part of [Date.parse]); the data model; the effects, as a state and
    writer monad over an abstract host that records every console line,
    request, file system call and exit; the functions of [atlas.ts];
    [main] of [index.ts]; two concrete hosts; the vocabulary of the
    statements; the theorems.

    Loops take fuel, one unit per iteration, and a run that has used it
    up is [Pending].  Response bodies have the shape the code reads:
    arrays of records with an [_id], and [data.email] and
    [creation_date] for users, [login_ids] for pending users. *)

From Stdlib Require Import ZArith QArith Lia Ascii String.
From stdpp Require Import base tactics option list strings gmap pretty.

Local Open Scope string_scope.
Local Open Scope list_scope.
Local Open Scope Z_scope.

(** ** Node's [path] module, POSIX flavour

    [index.ts] calls [path.basename], [path.join] and [path.dirname].
    They are modelled on segments: a path is cut at every ['/']. *)
Module Path.

Definition slash : ascii := "/"%char.

(** Cut a string at every ['/']: [a//b] gives [a], the empty string
    and [b]. *)
Fixpoint split_aux (cur : string) (s : string) : list string :=
  match s with
  | EmptyString => [String.rev cur]
  | String c rest =>
      if Ascii.eqb c slash then String.rev cur :: split_aux EmptyString rest
      else split_aux (String c cur) rest
  end.

Definition split (s : string) : list string := split_aux EmptyString s.

Definition nonempty (s : string) : bool := negb (String.eqb s EmptyString).

(** [path.basename(p)]: trailing separators are skipped, then the
    component after the last remaining separator is returned; the empty
    string when the path holds separators only. *)
Definition basename (p : string) : string :=
  List.last (List.filter nonempty (split p)) EmptyString.

(** [normalizeString]: ["."] and empty segments are dropped, [".."]
    removes the segment before it unless there is none or it is itself
    [".."]; then it is kept when [allowAboveRoot] and dropped otherwise.
    [acc] is the stack of resolved segments, innermost first. *)
Fixpoint normalize_segments (allowAboveRoot : bool) (acc : list string)
    (segs : list string) : list string :=
  match segs with
  | [] => List.rev acc
  | seg :: rest =>
      if String.eqb seg EmptyString || String.eqb seg "." then
        normalize_segments allowAboveRoot acc rest
      else if String.eqb seg ".." then
        match acc with
        | top :: acc' =>
            if String.eqb top ".." then
              normalize_segments allowAboveRoot
                (if allowAboveRoot then ".." :: acc else acc) rest
            else normalize_segments allowAboveRoot acc' rest
        | [] =>
            normalize_segments allowAboveRoot
              (if allowAboveRoot then [".."] else []) rest
        end
      else normalize_segments allowAboveRoot (seg :: acc) rest
  end.

Definition starts_with_slash (p : string) : bool :=
  match p with
  | String c _ => Ascii.eqb c slash
  | EmptyString => false
  end.

Definition ends_with_slash (p : string) : bool :=
  starts_with_slash (String.rev p).

(** [path.normalize(p)]. *)
Definition normalize (p : string) : string :=
  if String.eqb p EmptyString then "."
  else
    let isAbsolute := starts_with_slash p in
    let trailingSeparator := ends_with_slash p in
    let body :=
      String.concat "/" (normalize_segments (negb isAbsolute) [] (split p)) in
    if String.eqb body EmptyString then
      if isAbsolute then "/" else if trailingSeparator then "./" else "."
    else
      let body' := if trailingSeparator then body +:+ "/" else body in
      if isAbsolute then "/" +:+ body' else body'.

(** [path.join(...args)]: the non-empty arguments are glued with ['/']
    and the result is normalised; ["."] when nothing is left. *)
Definition join (args : list string) : string :=
  match List.filter nonempty args with
  | [] => "."
  | parts => normalize (String.concat "/" parts)
  end.

Fixpoint drop_while (f : ascii -> bool) (l : list ascii) : list ascii :=
  match l with
  | [] => []
  | c :: rest => if f c then drop_while f rest else l
  end.

(** [path.dirname(p)]: scanning from the right and never looking at the
    first character, trailing separators are skipped, then the last
    component; what is left of the separator before it is returned. *)
Definition dirname (p : string) : string :=
  match list_ascii_of_string p with
  | [] => "."
  | c0 :: cs =>
      let hasRoot := Ascii.eqb c0 slash in
      let r1 := drop_while (fun c => Ascii.eqb c slash) (List.rev cs) in
      let r2 := drop_while (fun c => negb (Ascii.eqb c slash)) r1 in
      match r2 with
      | [] => if hasRoot then "/" else "."
      | _ :: before =>
          if hasRoot && Nat.eqb (List.length before) 0 then "//"
          else string_of_list_ascii (c0 :: List.rev before)
      end
  end.

Fixpoint has_slash (s : string) : bool :=
match s with
| EmptyString => false
| String c rest => Ascii.eqb c slash || has_slash rest
end.

(** A segment that climbs to the parent directory. *)
Definition has_parent_segment (p : string) : bool :=
  List.existsb (String.eqb "..") (split p).

(** [p] names an entry strictly below directory [dir]: it reads
    [dir/name] for one non-empty component [name] other than ["."] and
    [".."]. *)
Definition directly_inside (dir p : string) : bool :=
  match split p with
  | [d; name] =>
      String.eqb d dir && nonempty name
      && negb (String.eqb name ".") && negb (String.eqb name "..")
  | _ => false
  end.

End Path.

(** ** JavaScript numbers and the date-only part of [Date.parse]

    Numbers are the rationals and [NaN]; the values that occur here are
    integers far below 2^53 and their quotients by 1000. *)
Inductive Number : Type :=
  | NaN
  | Fin (q : Q).

Definition num (z : Z) : Number := Fin (inject_Z z).

(** [x / d] on numbers, kept in lowest terms. *)
Definition Number_div (x : Number) (d : Z) : Number :=
  match x with
  | NaN => NaN
  | Fin q => Fin (Qred (q / inject_Z d))
  end.

Module JsDate.

Definition digit_of (c : ascii) : option Z :=
  let n := Z.of_nat (nat_of_ascii c) in
  if (48 <=? n) && (n <=? 57) then Some (n - 48) else None.

Definition is_digit (c : ascii) : bool :=
  match digit_of c with Some _ => true | None => false end.

Definition is_dash (c : ascii) : bool := Ascii.eqb c "-"%char.

Fixpoint number_of_digits (acc : Z) (l : list ascii) : option Z :=
  match l with
  | [] => Some acc
  | c :: rest =>
      match digit_of c with
      | Some d => number_of_digits (10 * acc + d) rest
      | None => None
      end
  end.

(** The fields of a string of the shape [dddd-dd-dd]. *)
Definition parse_ymd (s : string) : option (Z * Z * Z) :=
  match list_ascii_of_string s with
  | [y1; y2; y3; y4; s1; m1; m2; s2; d1; d2] =>
      if is_dash s1 && is_dash s2 then
        match number_of_digits 0 [y1; y2; y3; y4],
              number_of_digits 0 [m1; m2],
              number_of_digits 0 [d1; d2] with
        | Some y, Some m, Some d => Some (y, m, d)
        | _, _, _ => None
        end
      else None
  | _ => None
  end.

Definition is_leap (y : Z) : bool :=
  (y mod 4 =? 0) && (negb (y mod 100 =? 0) || (y mod 400 =? 0)).

Definition DaysInMonth (y m : Z) : Z :=
  if m =? 2 then (if is_leap y then 29 else 28)
  else if (m =? 4) || (m =? 6) || (m =? 9) || (m =? 11) then 30
  else 31.

(** A day of the proleptic Gregorian calendar. *)
Definition valid_date (y m d : Z) : bool :=
  (0 <=? y) && (1 <=? m) && (m <=? 12) && (1 <=? d) && (d <=? DaysInMonth y m).

(** ECMAScript's [DayFromYear]: the day number of 1 January of [y],
    counted from 1 January 1970. *)
Definition DayFromYear (y : Z) : Z :=
  365 * (y - 1970) + (y - 1969) / 4 - (y - 1901) / 100 + (y - 1601) / 400.

(** Day within the year on which month [m] (1 to 12) starts, as in the
    table of [MonthFromTime]. *)
Definition month_start (leap : bool) (m : Z) : Z :=
  let L := if leap then 1 else 0 in
  if m =? 1 then 0 else if m =? 2 then 31
  else if m =? 3 then 59 + L else if m =? 4 then 90 + L
  else if m =? 5 then 120 + L else if m =? 6 then 151 + L
  else if m =? 7 then 181 + L else if m =? 8 then 212 + L
  else if m =? 9 then 243 + L else if m =? 10 then 273 + L
  else if m =? 11 then 304 + L else 334 + L.

(** [MakeDay(y, m - 1, d)] for a valid date. *)
Definition MakeDay (y m d : Z) : Z :=
  DayFromYear y + month_start (is_leap y) m + (d - 1).

Definition msPerDay : Z := 86400000.

(** [MakeDate(day, 0)]: the time value of UTC midnight. *)
Definition MakeDate (day : Z) : Z := day * msPerDay.

(** [new Date(s).getTime()].  A string [YYYY-MM-DD] that names a day of
    the calendar is a date-only ISO form and is read as UTC midnight.
    Everything else is left to [impl]: other formats are
    implementation-defined, and engines disagree on days such as
    [2021-02-30]. *)
Definition getTime (impl : string -> Number) (s : string) : Number :=
  match parse_ymd s with
  | Some (y, m, d) =>
      if valid_date y m d then num (MakeDate (MakeDay y m d)) else impl s
  | None => impl s
  end.

(** *** The calendar, by counting

    An independent account of "seconds from 1970-01-01T00:00:00Z to
    UTC midnight of a date": whole years are added one by one, then
    whole months, then days. *)
Definition year_length (y : Z) : Z := if is_leap y then 366 else 365.

Fixpoint days_before_year (y : nat) : Z :=
  match y with
  | O => 0
  | S k => days_before_year k + year_length (Z.of_nat k)
  end.

Fixpoint days_before_month (y : Z) (m : nat) : Z :=
  match m with
  | O => 0
  | S k =>
      match k with
      | O => 0
      | S _ => days_before_month y k + DaysInMonth y (Z.of_nat k)
      end
  end.

Definition epoch_day (y m d : Z) : Z :=
  days_before_year (Z.to_nat y) - days_before_year 1970
  + days_before_month y (Z.to_nat m) + (d - 1).

Definition utc_midnight_epoch_seconds (y m d : Z) : Z :=
  epoch_day y m d * 86400.

End JsDate.

(** ** Data model *)

(** A record identifier.  The functions declare [lastId] a number, the
    service sends strings; both are kept.  Numbers are integers, printed
    in decimal: so JavaScript prints every integer of magnitude below
    10^21.  From 10^21 on it prints an exponent form, which is not
    modelled; statements about the text of a numeric cursor are made
    below that bound. *)
Inductive Id : Type :=
  | IdNum (n : Z)
  | IdStr (s : string).

(** [`${id}`] *)
Definition Id_to_string (i : Id) : string :=
  match i with
  | IdNum n => pretty n
  | IdStr s => s
  end.

(** [id === 0] *)
Definition Id_is_zero (i : Id) : bool :=
  match i with
  | IdNum n => n =? 0
  | IdStr _ => false
  end.

Module RawUser.
Record data_t : Type := { email : string }.
Record t : Type := { _id : Id; data : data_t; creation_date : Number }.
End RawUser.

Module PendingUser.
Record login_id_t : Type := { id_type : string; id : string }.
Record t : Type := { _id : Id; login_ids : list login_id_t }.
End PendingUser.

Inductive Status : Type := active | pending.

Module NormalizedUser.
Record t : Type :=
  { id : Id; email : string; createdAt : Number; status : Status }.
End NormalizedUser.

Module UserData.
Record metadata_t : Type :=
  { exportDate : string;
    groupId : string;
    appId : string;
    totalUsers : nat;
    totalPendingUsers : nat;
    pendingUserDate : string }.
Record t : Type :=
  { metadata : metadata_t;
    users : list NormalizedUser.t;
    pendingUsers : list NormalizedUser.t }.
End UserData.

(** ** Errors, requests and observable events *)

Record ErrorResponse : Type :=
  { status : Z; statusText : string; response_data : string }.

Inductive JsError : Type :=
  | Error (message : string)
  | TypeError (message : string)
  | AxiosError (response : option ErrorResponse)
  | SystemError (code : string).

Inductive Method : Type := GET | POST.

Record Request : Type :=
  { method : Method;
    url : string;
    headers : list (string * string);
    body : list (string * string) }.

Inductive Level : Type := Linfo | Lsuccess | Lwarning | Lerror | Ldebug.

(** One argument of a [console.log] call. *)
Inductive Printed : Type :=
  | PText (s : string)
  | PNum (n : Z)
  | PJson (u : NormalizedUser.t)
  | PError (e : JsError).

(** What a run does to the outside, in order.  [ok] records whether the
    call returned or threw.  The content of a written file is the value
    handed to [JSON.stringify]. *)
Inductive Event : Type :=
  | Console (lvl : Level) (line : list Printed)
  | Http (req : Request) (ok : bool)
  | Mkdir (dir : string) (ok : bool)
  | WriteFile (file : string) (content : UserData.t) (ok : bool)
  | Exit (code : Z).

Definition is_ok {E A : Type} (r : E + A) : bool :=
  match r with inl _ => false | inr _ => true end.

(** The HTTP requests of a trace. *)
Fixpoint requests (tr : list Event) : list Request :=
  match tr with
  | [] => []
  | Http req _ :: rest => req :: requests rest
  | _ :: rest => requests rest
  end.

(** The files written by a trace: the [writeFile] calls that returned. *)
Fixpoint files_written (tr : list Event) : list (string * UserData.t) :=
  match tr with
  | [] => []
  | WriteFile f c true :: rest => (f, c) :: files_written rest
  | _ :: rest => files_written rest
  end.

(** The file system calls of a trace, failed ones included. *)
Fixpoint fs_calls (tr : list Event) : list Event :=
  match tr with
  | [] => []
  | Mkdir d b :: rest => Mkdir d b :: fs_calls rest
  | WriteFile f c b :: rest => WriteFile f c b :: fs_calls rest
  | _ :: rest => fs_calls rest
  end.

(** The paths handed to the file system, in order. *)
Fixpoint fs_paths (tr : list Event) : list string :=
  match tr with
  | [] => []
  | Mkdir d _ :: rest => d :: fs_paths rest
  | WriteFile f _ _ :: rest => f :: fs_paths rest
  | _ :: rest => fs_paths rest
  end.

(** The exit status of the process: that of the first [process.exit],
    and 0 when the script runs to its end. *)
Fixpoint exit_code (tr : list Event) : Z :=
  match tr with
  | [] => 0
  | Exit c :: _ => c
  | _ :: rest => exit_code rest
  end.

(** A call that threw. *)
Definition failed (e : Event) : bool :=
  match e with
  | Http _ ok | Mkdir _ ok | WriteFile _ _ ok => negb ok
  | Console _ _ | Exit _ => false
  end.

(** Console output. *)
Definition console (e : Event) : bool :=
  match e with
  | Console _ _ => true
  | _ => false
  end.

(** Console output or the exit itself: no request, no file system call. *)
Definition silent (e : Event) : bool :=
  match e with
  | Console _ _ | Exit _ => true
  | _ => false
  end.

(** ** The host: network, file system, clock and engine

    [S] is the state of the outside world.  Each oracle answers a call
    with a value or a thrown error and the next state.  The three HTTP
    oracles carry the response body of their endpoint. *)
Record Host (S : Type) : Type :=
  { post_login : S -> Request -> (JsError + string) * S;
    get_users : S -> Request -> (JsError + list RawUser.t) * S;
    get_pending_users : S -> Request -> (JsError + list PendingUser.t) * S;
    fs_mkdir : S -> string -> (JsError + unit) * S;
    fs_writeFile : S -> string -> UserData.t -> (JsError + unit) * S;
    now_iso : S -> string;
    date_impl : string -> Number }.

Arguments post_login {S}.
Arguments get_users {S}.
Arguments get_pending_users {S}.
Arguments fs_mkdir {S}.
Arguments fs_writeFile {S}.
Arguments now_iso {S}.
Arguments date_impl {S}.

(** How an asynchronous computation ends: a value, a thrown error, or
    not within the steps allowed. *)
Inductive Outcome (A : Type) : Type :=
  | Ret (a : A)
  | Throw (e : JsError)
  | Pending.

Arguments Ret {A}.
Arguments Throw {A}.
Arguments Pending {A}.

(** What running a computation from a host state gives: how it ended,
    the host state it left, and the events it caused, oldest first. *)
Record Run (S A : Type) : Type :=
  { outcome : Outcome A; final : S; trace : list Event }.
Arguments outcome {S A}.
Arguments final {S A}.
Arguments trace {S A}.

Definition M (S A : Type) : Type := S -> Run S A.

Definition ret {S A} (a : A) : M S A :=
  fun s => {| outcome := Ret a; final := s; trace := [] |}.

Definition throw {S A} (e : JsError) : M S A :=
  fun s => {| outcome := Throw e; final := s; trace := [] |}.

(** A loop that is still running when the step budget is spent. *)
Definition still_running {S A} : M S A :=
  fun s => {| outcome := Pending; final := s; trace := [] |}.

(** [k] after [m]: the events of [k] follow those of [m]. *)
Definition after {S A B} (r : Run S A) (k : M S B) : Run S B :=
  let r' := k (final r) in
  {| outcome := outcome r'; final := final r'; trace := trace r ++ trace r' |}.

Definition bind {S A B} (m : M S A) (k : A -> M S B) : M S B :=
  fun s =>
    let r := m s in
    match outcome r with
    | Ret a => after r (k a)
    | Throw e => {| outcome := Throw e; final := final r; trace := trace r |}
    | Pending => {| outcome := Pending; final := final r; trace := trace r |}
    end.

(** [try { m } catch (error) { h error }] *)
Definition try_catch {S A} (m : M S A) (h : JsError -> M S A) : M S A :=
  fun s =>
    let r := m s in
    match outcome r with
    | Throw e => after r (h e)
    | _ => r
    end.

Definition emit {S} (e : Event) : M S unit :=
  fun s => {| outcome := Ret tt; final := s; trace := [e] |}.

Declare Scope js_scope.
Delimit Scope js_scope with js.
Notation "x <- m ;; k" := (bind m (fun x => k))
  (at level 100, m at next level, right associativity) : js_scope.
Notation "m ;; k" := (bind m (fun _ => k))
  (at level 100, right associativity) : js_scope.
Local Open Scope js_scope.

(** [utils.ts]: the logger. *)
Module log.
Definition info {S} (line : list Printed) : M S unit := emit (Console Linfo line).
Definition success {S} (line : list Printed) : M S unit := emit (Console Lsuccess line).
Definition warning {S} (line : list Printed) : M S unit := emit (Console Lwarning line).
Definition error {S} (line : list Printed) : M S unit := emit (Console Lerror line).
Definition debug {S} (verbose : bool) (line : list Printed) : M S unit :=
  if verbose then emit (Console Ldebug line) else ret tt.
End log.

(** ** [atlas.ts] *)
Section Atlas.

Context {S : Type} (host : Host S).

(** A call to the outside: the oracle is asked, the event is recorded
    with its outcome, and an error answer is thrown. *)
Definition call {A} (oracle : S -> (JsError + A) * S) (ev : bool -> Event)
    : M S A :=
  fun s =>
    let (r, s') := oracle s in
    {| outcome := match r with inl e => Throw e | inr a => Ret a end;
       final := s';
       trace := [ev (is_ok r)] |}.

Definition axios_post_login (req : Request) : M S string :=
  call (fun s => post_login host s req) (Http req).

Definition axios_get_users (req : Request) : M S (list RawUser.t) :=
  call (fun s => get_users host s req) (Http req).

Definition axios_get_pending_users (req : Request)
    : M S (list PendingUser.t) :=
  call (fun s => get_pending_users host s req) (Http req).

Definition api : string :=
  "https://services.cloud.mongodb.com/api/admin/v3.0".

Definition login_request (username apiKey : string) : Request :=
  {| method := POST;
     url := api +:+ "/auth/providers/mongodb-cloud/login";
     headers := [("Content-Type", "application/json");
                 ("Accept", "application/json")];
     body := [("username", username); ("apiKey", apiKey)] |}.

(** The [catch] blocks of the three fetching functions: the status of
    an HTTP error response is logged, anything else is logged whole. *)
Definition report (verbose : bool) (onResponse onOther : string)
    (err : JsError) : M S unit :=
  match err with
  | AxiosError (Some r) =>
      log.error [PText onResponse; PNum (status r); PText (statusText r)];;
      log.debug verbose [PText "Error details:"; PText (response_data r)]
  | _ => log.error [PText onOther; PError err]
  end.

Definition getAPIToken (username apiKey : string) (verbose : bool)
    : M S string :=
  try_catch
    (log.debug verbose [PText "Authenticating with MongoDB Atlas..."];;
     access_token <- axios_post_login (login_request username apiKey);;
     log.debug verbose [PText "Authentication successful"];;
     ret access_token)
    (fun err =>
       report verbose "Authentication failed:" "Error getting API token:" err;;
       throw err).

(** [lastId === 0 ? '' : `?after=${lastId}`] *)
Definition userQuery (lastId : Id) : string :=
  if Id_is_zero lastId then EmptyString
  else "?after=" +:+ Id_to_string lastId.

Definition users_request (accessToken groupID appID : string)
    (lastId : Id) : Request :=
  {| method := GET;
     url := api +:+ "/groups/" +:+ groupID +:+ "/apps/" +:+ appID
            +:+ "/users" +:+ userQuery lastId;
     headers := [("Authorization", "Bearer " +:+ accessToken);
                 ("Accept", "application/json")];
     body := [] |}.

(** [lastArg] is [None] when the caller leaves the parameter out; it
    then takes its default, 0. *)
Definition getUsersFromAppServices (accessToken groupID appID : string)
    (verbose : bool) (lastArg : option Id) : M S (list RawUser.t) :=
  let lastId := default (IdNum 0) lastArg in
  try_catch
    (let req := users_request accessToken groupID appID lastId in
     log.debug verbose [PText ("Fetching users from: " +:+ url req)];;
     data <- axios_get_users req;;
     log.debug verbose
       [PText ("Retrieved " +:+ pretty (length data) +:+ " users")];;
     ret data)
    (fun err =>
       report verbose "Error fetching users:" "Error fetching users:" err;;
       throw err).

(** The [while] loop of [getUsers]; one unit of [fuel] per iteration. *)
Fixpoint getUsers_loop (accessToken groupID appID : string)
    (verbose : bool) (fuel : nat) (users returnedUsers : list RawUser.t)
    : M S (list RawUser.t) :=
  match returnedUsers with
  | [] => ret users
  | first :: others =>
      match fuel with
      | O => still_running
      | Datatypes.S fuel' =>
          let lastUser := List.last others first in
          returned <- getUsersFromAppServices accessToken groupID appID
                        verbose (Some (RawUser._id lastUser));;
          getUsers_loop accessToken groupID appID verbose fuel'
            (users ++ returned) returned
      end
  end.

Definition active_record (user : RawUser.t) : NormalizedUser.t :=
  {| NormalizedUser.id := RawUser._id user;
     NormalizedUser.email := RawUser.email (RawUser.data user);
     NormalizedUser.createdAt := RawUser.creation_date user;
     NormalizedUser.status := active |}.

Definition getUsers (accessToken groupID appID : string) (verbose : bool)
    (fuel : nat) : M S (list NormalizedUser.t) :=
  try_catch
    (log.debug verbose [PText "Getting all users..."];;
     returnedUsers <- getUsersFromAppServices accessToken groupID appID
                        verbose None;;
     users <- getUsers_loop accessToken groupID appID verbose fuel
                ([] ++ returnedUsers) returnedUsers;;
     log.debug verbose
       [PText ("Total users retrieved: " +:+ pretty (length users))];;
     ret (List.map active_record users))
    (fun err =>
       log.error [PText "Error getting all users:"; PError err];;
       throw err).

Definition pending_users_request (accessToken groupID appID : string)
    (lastId : Id) : Request :=
  {| method := GET;
     url := api +:+ "/groups/" +:+ groupID +:+ "/apps/" +:+ appID
            +:+ "/user_registrations/pending_users" +:+ userQuery lastId;
     headers := [("Authorization", "Bearer " +:+ accessToken)];
     body := [] |}.

Definition getPendingUsersFromAppServices
    (accessToken groupID appID : string) (verbose : bool)
    (lastArg : option Id) : M S (list PendingUser.t) :=
  let lastId := default (IdNum 0) lastArg in
  try_catch
    (let req := pending_users_request accessToken groupID appID lastId in
     log.debug verbose [PText ("Fetching pending users from: " +:+ url req)];;
     data <- axios_get_pending_users req;;
     log.debug verbose
       [PText ("Retrieved " +:+ pretty (length data) +:+ " pending users")];;
     ret data)
    (fun err =>
       report verbose "Error fetching pending users:"
         "Error fetching pending users:" err;;
       throw err).

Fixpoint getPendingUsers_loop (accessToken groupID appID : string)
    (verbose : bool) (fuel : nat)
    (pendingUsers returnedPendingUsers : list PendingUser.t)
    : M S (list PendingUser.t) :=
  match returnedPendingUsers with
  | [] => ret pendingUsers
  | first :: others =>
      match fuel with
      | O => still_running
      | Datatypes.S fuel' =>
          let lastUser := List.last others first in
          log.debug verbose
            [PText ("Fetching next batch of pending users after ID: "
                    +:+ Id_to_string (PendingUser._id lastUser))];;
          returned <- getPendingUsersFromAppServices accessToken groupID
                        appID verbose (Some (PendingUser._id lastUser));;
          getPendingUsers_loop accessToken groupID appID verbose fuel'
            (pendingUsers ++ returned) returned
      end
  end.

(** The arrow function mapped over the pending users.  [login_ids[0]]
    of an empty list is [undefined], and reading [.id] of it throws. *)
Definition pending_record (createdAtTimestamp : Number)
    (user : PendingUser.t) : JsError + NormalizedUser.t :=
  match PendingUser.login_ids user with
  | [] => inl (TypeError "Cannot read properties of undefined (reading 'id')")
  | first_login :: _ =>
      inr {| NormalizedUser.id := PendingUser._id user;
             NormalizedUser.email := PendingUser.id first_login;
             NormalizedUser.status := pending;
             NormalizedUser.createdAt := createdAtTimestamp |}
  end.

(** [array.map(f)] for an [f] that may throw: the first throw ends it. *)
Fixpoint map_throwing {A B} (f : A -> JsError + B) (l : list A)
    : JsError + list B :=
  match l with
  | [] => inr []
  | a :: rest =>
      match f a with
      | inl e => inl e
      | inr b =>
          match map_throwing f rest with
          | inl e => inl e
          | inr bs => inr (b :: bs)
          end
      end
  end.

Definition lift {A} (r : JsError + A) : M S A :=
  match r with
  | inl e => throw e
  | inr a => ret a
  end.

(** [new Date(pendingUserDate).getTime() / 1000] *)
Definition createdAtTimestamp (pendingUserDate : string) : Number :=
  Number_div (JsDate.getTime (date_impl host) pendingUserDate) 1000.

(** Lines 237 to 247: the pending-user transform. *)
Definition pendingUserData (pendingUserDate : string)
    (pendingUsers : list PendingUser.t) : JsError + list NormalizedUser.t :=
  map_throwing (pending_record (createdAtTimestamp pendingUserDate))
    pendingUsers.

Definition getPendingUsers (accessToken groupID appID : string)
    (pendingUserDate : string) (verbose : bool) (fuel : nat)
    : M S (list NormalizedUser.t) :=
  try_catch
    (log.debug verbose [PText "Getting all pending users..."];;
     returnedPendingUsers <- getPendingUsersFromAppServices accessToken
                               groupID appID verbose None;;
     pendingUsers <- getPendingUsers_loop accessToken groupID appID verbose
                       fuel ([] ++ returnedPendingUsers)
                       returnedPendingUsers;;
     log.debug verbose
       [PText ("Total pending users retrieved: "
               +:+ pretty (length pendingUsers))];;
     log.debug verbose
       [PText ("Using " +:+ pendingUserDate
               +:+ " as the creation date for pending users")];;
     lift (pendingUserData pendingUserDate pendingUsers))
    (fun err =>
       log.error [PText "Error getting all pending users:"; PError err];;
       throw err).

End Atlas.

(** ** [index.ts] *)

Module Argv.
(** The parsed command line, defaults filled in by yargs. *)
Record t : Type :=
  { dryRun : bool;
    verbose : bool;
    batchSize : Z;
    outputFile : option string;
    pendingUserDate : string }.
End Argv.

(** Truthiness of a string, and of a string that may be [undefined]. *)
Definition truthy_string (s : string) : bool := Path.nonempty s.

Definition truthy (o : option string) : bool :=
  match o with
  | Some s => truthy_string s
  | None => false
  end.

(** [/^\d{4}-\d{2}-\d{2}$/.test(s)] *)
Definition matches_date_pattern (s : string) : bool :=
  match list_ascii_of_string s with
  | [y1; y2; y3; y4; s1; m1; m2; s2; d1; d2] =>
      JsDate.is_digit y1 && JsDate.is_digit y2 && JsDate.is_digit y3
      && JsDate.is_digit y4 && JsDate.is_dash s1
      && JsDate.is_digit m1 && JsDate.is_digit m2 && JsDate.is_dash s2
      && JsDate.is_digit d1 && JsDate.is_digit d2
  | _ => false
  end.

(** [rawOutputFile ? path.join('output', path.basename(rawOutputFile))
    : undefined] *)
Definition resolve_outputFile (rawOutputFile : option string)
    : option string :=
  match rawOutputFile with
  | Some raw =>
      if truthy_string raw then Some (Path.join ["output"; Path.basename raw])
      else None
  | None => None
  end.

Section Index.

Context {S : Type} (host : Host S).

Definition fs_promises_mkdir (dir : string) : M S unit :=
  call (fun s => fs_mkdir host s dir) (Mkdir dir).

Definition fs_promises_writeFile (file : string) (content : UserData.t)
    : M S unit :=
  call (fun s => fs_writeFile host s file content) (WriteFile file content).

(** [new Date().toISOString()] *)
Definition now : M S string :=
  fun s => {| outcome := Ret (now_iso host s); final := s; trace := [] |}.

Definition process_exit (code : Z) : M S unit := emit (Exit code).

(** [if (!value) throw new Error(message)] *)
Definition required (value : option string) (message : string)
    : M S string :=
  match value with
  | Some s => if truthy_string s then ret s else throw (Error message)
  | None => throw (Error message)
  end.

Definition metadata_entries (md : UserData.metadata_t)
    : list (string * string) :=
  [("exportDate", UserData.exportDate md);
   ("groupId", UserData.groupId md);
   ("appId", UserData.appId md);
   ("totalUsers", pretty (UserData.totalUsers md));
   ("totalPendingUsers", pretty (UserData.totalPendingUsers md));
   ("pendingUserDate", UserData.pendingUserDate md)].

Fixpoint log_entries (entries : list (string * string)) : M S unit :=
  match entries with
  | [] => ret tt
  | (key, value) :: rest =>
      log.info [PText ("  " +:+ key +:+ ": " +:+ value)];;
      log_entries rest
  end.

(** The [else] branch of the export decision: the summary. *)
Definition log_summary (outputFile : option string) (userData : UserData.t)
    : M S unit :=
  log.info
    [PText "Dry run mode or no output file specified. Logging summary data:"];;
  log.info [PText "Metadata:"];;
  log_entries (metadata_entries (UserData.metadata userData));;
  match UserData.users userData with
  | first :: _ =>
      log.info [PText "Sample user data (first user):"];;
      log.info [PJson first]
  | [] => ret tt
  end;;
  match UserData.pendingUsers userData with
  | first :: _ =>
      log.info [PText "Sample pending user data (first pending user):"];;
      log.info [PJson first]
  | [] => ret tt
  end;;
  if negb (truthy outputFile) then
    log.warning
      [PText "No output file specified. Use --outputFile to save data to a file."]
  else
    log.warning [PText "Dry run mode enabled. Users not saved to file."].

(** The [then] branch: create the directory, write the file. *)
Definition save (outputFile : string) (userData : UserData.t) : M S unit :=
  log.info [PText ("Saving users to " +:+ outputFile +:+ "...")];;
  let outputDir := Path.dirname outputFile in
  fs_promises_mkdir outputDir;;
  fs_promises_writeFile outputFile userData;;
  log.success [PText ("Users saved to " +:+ outputFile)].

(** Lines 146 to 180: write the file when an output file is set and
    this is no dry run, print the summary otherwise. *)
Definition export_users (outputFile : option string) (dryRun : bool)
    (userData : UserData.t) : M S unit :=
  match outputFile with
  | Some file =>
      if truthy_string file && negb dryRun then save file userData
      else log_summary outputFile userData
  | None => log_summary outputFile userData
  end.

(** Lines 49 to 143 of the [try] block: validation, login, the two
    fetches, and the export envelope built from them. *)
Definition collect (env : gmap string string) (argv : Argv.t)
    (outputFile : option string) (dryRun : bool) (fuel : nat)
    : M S UserData.t :=
  log.info [PText "Realm users migration script started"];;
  let verbose := Argv.verbose argv in
  let batchSize := Argv.batchSize argv in
  let pendingUserDate := Argv.pendingUserDate argv in
  username <- required (env !! "USERNAME")
    "Username is required. Please set the USERNAME environment variable in your .env file.";;
  apiKey <- required (env !! "API_KEY")
    "API key is required. Please set the API_KEY environment variable in your .env file.";;
  groupId <- required (env !! "GROUP_ID")
    "Group ID is required. Please set the GROUP_ID environment variable in your .env file.";;
  appId <- required (env !! "APP_ID")
    "App ID is required. Please set the APP_ID environment variable in your .env file.";;
  (if truthy_string pendingUserDate
      && negb (matches_date_pattern pendingUserDate)
   then throw (Error "pendingUserDate must be in YYYY-MM-DD format")
   else ret tt);;
  log.debug verbose [PText "Configuration:"];;
  log.debug verbose [PText ("- Group ID: " +:+ groupId)];;
  log.debug verbose [PText ("- App ID: " +:+ appId)];;
  log.debug verbose [PText ("- Batch size: " +:+ pretty batchSize)];;
  log.debug verbose
    [PText ("- Output file: " +:+ default "Not specified" outputFile)];;
  log.debug verbose
    [PText ("- Dry run: " +:+ (if dryRun then "Yes" else "No")
            +:+ (if negb (truthy outputFile)
                 then " (no output file specified)" else EmptyString))];;
  log.debug verbose
    [PText ("- Verbose: " +:+ (if verbose then "Yes" else "No"))];;
  log.debug verbose [PText ("- Pending user date: " +:+ pendingUserDate)];;
  apiToken <- getAPIToken host username apiKey verbose;;
  log.success [PText "Authentication successful"];;
  log.info [PText "Fetching users..."];;
  users <- getUsers host apiToken groupId appId verbose fuel;;
  log.success [PText ("Total users: " +:+ pretty (length users))];;
  log.info [PText "Fetching pending users..."];;
  pendingUsers <- getPendingUsers host apiToken groupId appId
                    pendingUserDate verbose fuel;;
  log.success
    [PText ("Total pending users: " +:+ pretty (length pendingUsers))];;
  exportDate <- now;;
  ret {| UserData.metadata :=
           {| UserData.exportDate := exportDate;
              UserData.groupId := groupId;
              UserData.appId := appId;
              UserData.totalUsers := length users;
              UserData.totalPendingUsers := length pendingUsers;
              UserData.pendingUserDate := pendingUserDate |};
         UserData.users := users;
         UserData.pendingUsers := pendingUsers |}.

(** The body of the [try] block of [main]. *)
Definition main_try (env : gmap string string) (argv : Argv.t)
    (fuel : nat) : M S unit :=
  let outputFile := resolve_outputFile (Argv.outputFile argv) in
  let dryRun := Argv.dryRun argv || negb (truthy outputFile) in
  userData <- collect env argv outputFile dryRun fuel;;
  export_users outputFile dryRun userData;;
  log.success [PText "Migration script completed successfully"].

Definition main (env : gmap string string) (argv : Argv.t) (fuel : nat)
    : M S unit :=
  try_catch (main_try env argv fuel)
    (fun err =>
       log.error [PText "Error in migration script:"; PError err];;
       process_exit 1).

(** A whole run: the exit status and everything the process did, or
    [None] while a fetch loop is still going after [fuel] iterations.
    An error that escaped [main] would be an unhandled rejection, which
    ends the process with status 1. *)
Definition run (env : gmap string string) (argv : Argv.t) (fuel : nat)
    (s0 : S) : option (Z * list Event) :=
  let r := main env argv fuel s0 in
  match outcome r with
  | Ret _ => Some (exit_code (trace r), trace r)
  | Throw _ => Some (1, trace r)
  | Pending => None
  end.

End Index.

(** ** The rest of [atlas.ts] *)

(** [listApps] asks an endpoint that [main] never uses; its oracle is a
    parameter, and the records of the answer are left abstract. *)
Definition apps_request (accessToken groupID : string) : Request :=
{| method := GET;
   url := api +:+ "/groups/" +:+ groupID +:+ "/apps";
   headers := [("Authorization", "Bearer " +:+ accessToken)];
   body := [] |}.

Definition listApps {S App : Type}
    (get_apps : S -> Request -> (JsError + list App) * S)
    (accessToken groupID : string) (verbose : bool) : M S (list App) :=
try_catch
  (let req := apps_request accessToken groupID in
   log.debug verbose [PText ("Listing apps from: " +:+ url req)];;
   data <- call (fun s => get_apps s req) (Http req);;
   log.debug verbose
     [PText ("Retrieved " +:+ pretty (length data) +:+ " apps")];;
   ret data)
  (fun err =>
     report verbose "Error listing apps:" "Error listing apps:" err;;
     throw err).

(** ** A scripted host

    A host that answers from prepared lists: every call to an endpoint
    takes the next answer of that endpoint's script, whatever the
    request.  A finished page script answers with the empty page, a
    finished login script with a network error.  It serves the concrete
    runs below. *)
Module Scripted.

Record state : Type :=
  { logins : list (JsError + string);
    user_pages : list (JsError + list RawUser.t);
    pending_pages : list (JsError + list PendingUser.t);
    mkdir_answer : JsError + unit;
    writeFile_answer : JsError + unit }.

Definition next {A} (finished : JsError + A) (script : list (JsError + A))
    : (JsError + A) * list (JsError + A) :=
  match script with
  | [] => (finished, [])
  | answer :: rest => (answer, rest)
  end.

Definition host : Host state :=
  {| post_login s _ :=
       let (answer, rest) := next (inl (AxiosError None)) (logins s) in
       (answer,
        {| logins := rest; user_pages := user_pages s;
           pending_pages := pending_pages s;
           mkdir_answer := mkdir_answer s;
           writeFile_answer := writeFile_answer s |});
     get_users s _ :=
       let (answer, rest) := next (inr []) (user_pages s) in
       (answer,
        {| logins := logins s; user_pages := rest;
           pending_pages := pending_pages s;
           mkdir_answer := mkdir_answer s;
           writeFile_answer := writeFile_answer s |});
     get_pending_users s _ :=
       let (answer, rest) := next (inr []) (pending_pages s) in
       (answer,
        {| logins := logins s; user_pages := user_pages s;
           pending_pages := rest;
           mkdir_answer := mkdir_answer s;
           writeFile_answer := writeFile_answer s |});
     fs_mkdir s _ := (mkdir_answer s, s);
     fs_writeFile s _ _ := (writeFile_answer s, s);
     now_iso _ := "2025-03-30T12:15:00.000Z";
     date_impl _ := NaN |}.

Definition user (n : Z) (mail : string) (created : Z) : RawUser.t :=
  {| RawUser._id := IdNum n;
     RawUser.data := {| RawUser.email := mail |};
     RawUser.creation_date := num created |}.

Definition pending_user (n : Z) (logins : list string) : PendingUser.t :=
  {| PendingUser._id := IdNum n;
     PendingUser.login_ids :=
       List.map (fun l => {| PendingUser.id_type := "email";
                             PendingUser.id := l |}) logins |}.

Definition env : gmap string string :=
  <["USERNAME" := "alice"]>
    (<["API_KEY" := "key"]>
       (<["GROUP_ID" := "g1"]> (<["APP_ID" := "app1"]> ∅))).

Definition argv (out : option string) : Argv.t :=
  {| Argv.dryRun := false; Argv.verbose := false; Argv.batchSize := 100;
     Argv.outputFile := out; Argv.pendingUserDate := "2020-12-01" |}.

(** Two active users in one page and one pending user, as in the
    end-to-end example of the specification. *)
Definition example : state :=
  {| logins := [inr "token"];
     user_pages := [inr [user 1 "a@x.com" 1606857105;
                         user 2 "b@x.com" 1606857106]; inr []];
     pending_pages := [inr [pending_user 3 ["p@x.com"]]; inr []];
     mkdir_answer := inr tt;
     writeFile_answer := inr tt |}.

End Scripted.

(** ** A host that never runs out of users

    Every page request is answered with the same one-record page, every
    login succeeds. *)
Module Endless.

Definition page : list RawUser.t := [Scripted.user 7 "again@x.com" 0].

Definition pending_page : list PendingUser.t :=
  [Scripted.pending_user 8 ["again@x.com"]].

Definition host : Host unit :=
  {| post_login s _ := (inr "token", s);
     get_users s _ := (inr page, s);
     get_pending_users s _ := (inr pending_page, s);
     fs_mkdir s _ := (inr tt, s);
     fs_writeFile s _ _ := (inr tt, s);
     now_iso _ := "2025-03-30T12:15:00.000Z";
     date_impl _ := NaN |}.

End Endless.

(** * Vocabulary of the statements

    Predicates on runs, traces and hosts in which the theorems are
    stated. *)

(** Console output only. *)
Definition all_console (d : list Event) : Prop :=
  Forall (fun ev => console ev = true) d.

(** A handler that logs and throws again: the three [catch] blocks of
    [atlas.ts] have this shape. *)
Definition rethrows {S A} (h : JsError -> M S A) : Prop :=
  forall e s, outcome (h e s) = Throw e /\ final (h e s) = s
              /\ Forall (fun ev => console ev = true) (trace (h e s)).

(** A property of runs that holds of console-only runs and of single
    HTTP calls, and that survives sequencing and a logging [catch]. *)
Record Invariant {S : Type} (Phi : forall A, Run S A -> Prop) : Prop :=
  { inv_console : forall A (r : Run S A), all_console (trace r) -> Phi A r;
    inv_http : forall A (oracle : S -> (JsError + A) * S) req s,
        Phi A (call oracle (Http req) s);
    inv_bind : forall A B (m : M S A) (k : A -> M S B) s,
        Phi A (m s) -> (forall a s', Phi B (k a s')) -> Phi B (bind m k s);
    inv_try : forall A (m : M S A) (h : JsError -> M S A) s,
        Phi A (m s) -> rethrows h -> Phi A (try_catch m h s) }.

(** Calls succeed up to the point where the run throws, and once a
    call has failed only console output follows. *)
Definition tidy {S A} (r : Run S A) : Prop :=
  match outcome r with
  | Throw _ =>
      exists d1 d2,
        trace r = d1 ++ d2
        /\ Forall (fun e => failed e = false) d1
        /\ all_console (tail d2)
  | _ => Forall (fun e => failed e = false) (trace r)
  end.

(** After a failed call nothing follows but console output and the exit. *)
Definition stops_at_failure (tr : list Event) : Prop :=
forall pre ev post,
  tr = pre ++ ev :: post -> failed ev = true ->
  Forall (fun e => silent e = true) post.

(** No file system call. *)
Definition fs_free (e : Event) : Prop :=
match e with
| Mkdir _ _ | WriteFile _ _ _ => False
| _ => True
end.

(** No [process.exit]. *)
Definition exit_free (e : Event) : Prop :=
match e with
| Exit _ => False
| _ => True
end.

(** [Replies oracle s pages s']: from state [s] the endpoint answers its
    next calls with [pages], in this order and whatever is asked, and is
    left in state [s']. *)
Inductive Replies {S A : Type}
    (oracle : S -> Request -> (JsError + list A) * S)
    : S -> list (list A) -> S -> Prop :=
  | Replies_nil s : Replies oracle s [] s
  | Replies_cons s page s1 pages s' :
      (forall req, oracle s req = (inr page, s1)) ->
      Replies oracle s1 pages s' ->
      Replies oracle s (page :: pages) s'.


(** The same for pending users. *)
Definition follows_pending (tok g a : string) (page : list PendingUser.t)
    (req : Request) : Prop :=
  exists lastUser,
    last page = Some lastUser
    /\ req = pending_users_request tok g a (PendingUser._id lastUser).

(** A server whose pages are never empty. *)
Definition never_empty {S A}
    (oracle : S -> Request -> (JsError + list A) * S) : Prop :=
  forall s req, exists page s', page <> [] /\ oracle s req = (inr page, s').

(** The configurations that the validation turns down. *)
Definition invalid (env : gmap string string) (argv : Argv.t) : Prop :=
  truthy (env !! "USERNAME") = false
  \/ truthy (env !! "API_KEY") = false
  \/ truthy (env !! "GROUP_ID") = false
  \/ truthy (env !! "APP_ID") = false
  \/ (Argv.pendingUserDate argv <> EmptyString
      /\ matches_date_pattern (Argv.pendingUserDate argv) = false).

(** A debug line of the console. *)
Definition is_debug (e : Event) : bool :=
match e with
| Console Ldebug _ => true
| _ => false
end.

(** A trace without its debug lines. *)
Definition visible (tr : list Event) : list Event :=
List.filter (fun e => negb (is_debug e)) tr.

(** Same result, same host state, same events apart from debug lines. *)
Definition sim {S A} (m1 m2 : M S A) : Prop :=
forall s,
  outcome (m1 s) = outcome (m2 s)
  /\ final (m1 s) = final (m2 s)
  /\ visible (trace (m1 s)) = visible (trace (m2 s)).

(** The command line with another [--batchSize]. *)
Definition with_batchSize (b : Z) (argv : Argv.t) : Argv.t :=
{| Argv.dryRun := Argv.dryRun argv;
   Argv.verbose := Argv.verbose argv;
   Argv.batchSize := b;
   Argv.outputFile := Argv.outputFile argv;
   Argv.pendingUserDate := Argv.pendingUserDate argv |}.

(** The line printed for one metadata entry. *)
Definition entry_line (entry : string * string) : Event :=
Console Linfo [PText ("  " +:+ fst entry +:+ ": " +:+ snd entry)].

(** The lines of the summary: two headers, one line per metadata entry,
    the first record of each non-empty set, and the closing warning. *)
Definition summary_lines (outputFile : option string) (userData : UserData.t)
    : list Event :=
[Console Linfo
   [PText "Dry run mode or no output file specified. Logging summary data:"]]
++ [Console Linfo [PText "Metadata:"]]
++ List.map entry_line (metadata_entries (UserData.metadata userData))
++ match UserData.users userData with
   | first :: _ =>
       [Console Linfo [PText "Sample user data (first user):"]]
       ++ [Console Linfo [PJson first]]
   | [] => []
   end
++ match UserData.pendingUsers userData with
   | first :: _ =>
       [Console Linfo
          [PText "Sample pending user data (first pending user):"]]
       ++ [Console Linfo [PJson first]]
   | [] => []
   end
++ [Console Lwarning
      [PText (if negb (truthy outputFile)
              then "No output file specified. Use --outputFile to save data to a file."
              else "Dry run mode enabled. Users not saved to file.")]].

(** The last line of a successful run. *)
Definition completed : Event :=
Console Lsuccess [PText "Migration script completed successfully"].

(** The command line with another [--verbose]. *)
Definition with_verbose (v : bool) (argv : Argv.t) : Argv.t :=
{| Argv.dryRun := Argv.dryRun argv;
   Argv.verbose := v;
   Argv.batchSize := Argv.batchSize argv;
   Argv.outputFile := Argv.outputFile argv;
   Argv.pendingUserDate := Argv.pendingUserDate argv |}.

(** [Answers oracle s answers s']: as [Replies], for answers that may be
    errors. *)
Inductive Answers {S A : Type}
    (oracle : S -> Request -> (JsError + A) * S)
    : S -> list (JsError + A) -> S -> Prop :=
  | Answers_nil s : Answers oracle s [] s
  | Answers_cons s answer s1 answers s' :
      (forall req, oracle s req = (answer, s1)) ->
      Answers oracle s1 answers s' ->
      Answers oracle s (answer :: answers) s'.

(** A page request for active users, with some cursor. *)
Definition is_users_request (tok g a : string) (req : Request) : Prop :=
exists lastId, req = users_request tok g a lastId.

(** A page request for pending users, with some cursor. *)
Definition is_pending_users_request (tok g a : string) (req : Request)
    : Prop :=
exists lastId, req = pending_users_request tok g a lastId.

(** * Theorems *)

(** ** Traces *)

Lemma requests_app (a b : list Event) :
  requests (a ++ b) = requests a ++ requests b.
Proof.
  induction a as [|e a IH]; simpl; [reflexivity|].
  destruct e; simpl; rewrite ?IH; reflexivity.
Qed.

Lemma fs_calls_app (a b : list Event) :
  fs_calls (a ++ b) = fs_calls a ++ fs_calls b.
Proof.
  induction a as [|e a IH]; simpl; [reflexivity|].
  destruct e; simpl; rewrite ?IH; reflexivity.
Qed.

Lemma files_written_app (a b : list Event) :
  files_written (a ++ b) = files_written a ++ files_written b.
Proof.
  induction a as [|e a IH]; simpl; [reflexivity|].
  destruct e as [| | |f c [|]|]; simpl; rewrite ?IH; reflexivity.
Qed.

(** ** The monad *)
Section MonadFacts.

Context {S : Type}.

Lemma bind_Ret {A B} (m : M S A) (k : A -> M S B) s a :
  outcome (m s) = Ret a ->
  bind m k s = after (m s) (k a).
Proof. intros H. unfold bind. rewrite H. reflexivity. Qed.

Lemma bind_Throw {A B} (m : M S A) (k : A -> M S B) s e :
  outcome (m s) = Throw e ->
  bind m k s = {| outcome := Throw e; final := final (m s); trace := trace (m s) |}.
Proof. intros H. unfold bind. rewrite H. reflexivity. Qed.

Lemma bind_Pending {A B} (m : M S A) (k : A -> M S B) s :
  outcome (m s) = Pending ->
  bind m k s = {| outcome := Pending; final := final (m s); trace := trace (m s) |}.
Proof. intros H. unfold bind. rewrite H. reflexivity. Qed.

(** A [bind] that returns went through both halves. *)
Lemma bind_Ret_inv {A B} (m : M S A) (k : A -> M S B) s b :
  outcome (bind m k s) = Ret b ->
  exists a, outcome (m s) = Ret a /\ bind m k s = after (m s) (k a)
            /\ outcome (k a (final (m s))) = Ret b.
Proof.
  unfold bind. destruct (outcome (m s)) as [a| |] eqn:E; simpl; try discriminate.
  intros H. exists a. auto.
Qed.

Lemma try_catch_Throw {A} (m : M S A) (h : JsError -> M S A) s e :
  outcome (m s) = Throw e ->
  try_catch m h s = after (m s) (h e).
Proof. intros H. unfold try_catch. rewrite H. reflexivity. Qed.

Lemma try_catch_Ret {A} (m : M S A) (h : JsError -> M S A) s a :
  outcome (m s) = Ret a -> try_catch m h s = m s.
Proof. intros H. unfold try_catch. rewrite H. reflexivity. Qed.

Lemma try_catch_Pending {A} (m : M S A) (h : JsError -> M S A) s :
  outcome (m s) = Pending -> try_catch m h s = m s.
Proof. intros H. unfold try_catch. rewrite H. reflexivity. Qed.

Lemma try_rethrow_outcome {A} (m : M S A) (h : JsError -> M S A) s :
  rethrows h -> outcome (try_catch m h s) = outcome (m s).
Proof.
  intros Hh. unfold try_catch.
  destruct (outcome (m s)) as [a|e|] eqn:E; simpl; auto.
  apply Hh.
Qed.

Lemma try_rethrow_final {A} (m : M S A) (h : JsError -> M S A) s :
  rethrows h -> final (try_catch m h s) = final (m s).
Proof.
  intros Hh. unfold try_catch.
  destruct (outcome (m s)) as [a|e|] eqn:E; simpl; auto.
  apply Hh.
Qed.

Lemma debug_outcome (v : bool) line (s : S) :
  outcome (log.debug v line s) = Ret tt /\ final (log.debug v line s) = s
  /\ Forall (fun ev => console ev = true) (trace (log.debug v line s)).
Proof. destruct v; simpl; repeat split; repeat constructor. Qed.

End MonadFacts.

(** ** Invariants of runs

    A property of runs that holds of console-only runs and of single HTTP
    calls, and that survives sequencing and a logging [catch], holds of
    every function of [atlas.ts], on every host. *)
Section Invariants.

Context {S : Type} (host : Host S).

Lemma debug_console v line (s : S) : all_console (trace (log.debug v line s)).
Proof. apply debug_outcome. Qed.

Lemma report_run v t1 t2 err (s : S) :
  outcome (report v t1 t2 err s) = Ret tt
  /\ final (report v t1 t2 err s) = s
  /\ all_console (trace (report v t1 t2 err s)).
Proof.
  destruct err as [m|m|[r|]|c]; destruct v; simpl; repeat split;
    repeat constructor.
Qed.

Lemma report_rethrows {A} v t1 t2 :
  rethrows (fun err : JsError => report v t1 t2 err;; @throw S A err).
Proof.
  intros e s. destruct (report_run v t1 t2 e s) as (Ho & Hf & Ht).
  rewrite (bind_Ret _ _ _ _ Ho). unfold after. simpl.
  rewrite Hf, app_nil_r. auto.
Qed.

Lemma log_rethrows {A} line :
  rethrows (fun err : JsError => log.error (line err);; @throw S A err).
Proof.
  intros e s. simpl. repeat split. repeat constructor.
Qed.

Section Generic.

Variable Phi : forall A, Run S A -> Prop.
Hypothesis HPhi : Invariant Phi.

Ltac step :=
  first
    [ apply (inv_try Phi HPhi);
      [| first [apply report_rethrows | apply (log_rethrows (fun err => _))]]
    | apply (inv_bind Phi HPhi); [| intros ? ?]
    | apply (inv_http Phi HPhi)
    | apply (inv_console Phi HPhi);
      first [apply debug_console | repeat constructor] ].

Lemma getAPIToken_inv u k v s : Phi _ (getAPIToken host u k v s).
Proof. unfold getAPIToken, axios_post_login. repeat step. Qed.

Lemma getUsersFromAppServices_inv tok g a v arg s :
  Phi _ (getUsersFromAppServices host tok g a v arg s).
Proof. unfold getUsersFromAppServices, axios_get_users. repeat step. Qed.

Lemma getPendingUsersFromAppServices_inv tok g a v arg s :
  Phi _ (getPendingUsersFromAppServices host tok g a v arg s).
Proof.
  unfold getPendingUsersFromAppServices, axios_get_pending_users.
  repeat step.
Qed.

Lemma getUsers_loop_inv tok g a v fuel : forall users returned s,
  Phi _ (getUsers_loop host tok g a v fuel users returned s).
Proof.
  induction fuel as [|fuel IH]; intros users [|first others] s; simpl;
    try (apply (inv_console Phi HPhi); constructor).
  apply (inv_bind Phi HPhi); [apply getUsersFromAppServices_inv|].
  intros. apply IH.
Qed.

Lemma getPendingUsers_loop_inv tok g a v fuel : forall users returned s,
  Phi _ (getPendingUsers_loop host tok g a v fuel users returned s).
Proof.
  induction fuel as [|fuel IH]; intros users [|first others] s; simpl;
    try (apply (inv_console Phi HPhi); constructor).
  apply (inv_bind Phi HPhi);
    [apply (inv_console Phi HPhi), debug_console|intros ? ?].
  apply (inv_bind Phi HPhi); [apply getPendingUsersFromAppServices_inv|].
  intros. apply IH.
Qed.

Lemma getUsers_inv tok g a v fuel s :
  Phi _ (getUsers host tok g a v fuel s).
Proof.
  unfold getUsers.
  apply (inv_try Phi HPhi); [| apply (log_rethrows (fun err => _))].
  apply (inv_bind Phi HPhi);
    [apply (inv_console Phi HPhi), debug_console|intros ? ?].
  apply (inv_bind Phi HPhi); [apply getUsersFromAppServices_inv|intros ? ?].
  apply (inv_bind Phi HPhi); [apply getUsers_loop_inv|intros ? ?].
  repeat step.
Qed.

Lemma lift_console {A} (r : JsError + A) (s : S) :
  all_console (trace (lift r s)).
Proof. destruct r; constructor. Qed.

Lemma getPendingUsers_inv tok g a date v fuel s :
  Phi _ (getPendingUsers host tok g a date v fuel s).
Proof.
  unfold getPendingUsers.
  apply (inv_try Phi HPhi); [| apply (log_rethrows (fun err => _))].
  apply (inv_bind Phi HPhi);
    [apply (inv_console Phi HPhi), debug_console|intros ? ?].
  apply (inv_bind Phi HPhi);
    [apply getPendingUsersFromAppServices_inv|intros ? ?].
  apply (inv_bind Phi HPhi); [apply getPendingUsers_loop_inv|intros ? ?].
  apply (inv_bind Phi HPhi);
    [apply (inv_console Phi HPhi), debug_console|intros ? ?].
  apply (inv_bind Phi HPhi);
    [apply (inv_console Phi HPhi), debug_console|intros ? ?].
  apply (inv_console Phi HPhi), lift_console.
Qed.

Lemma required_console value message (s : S) :
  all_console (trace (required value message s)).
Proof.
  destruct value as [x|]; simpl; [destruct (truthy_string x)|];
    constructor.
Qed.

Lemma collect_inv env argv outputFile dryRun fuel s :
  Phi _ (collect host env argv outputFile dryRun fuel s).
Proof.
  unfold collect.
  repeat first
    [ apply getAPIToken_inv
    | apply getUsers_inv
    | apply getPendingUsers_inv
    | apply (inv_bind Phi HPhi); [| intros ? ?]
    | apply (inv_console Phi HPhi);
      first [ apply debug_console
            | apply required_console
            | match goal with
              | |- all_console (trace ((if ?c then _ else _) _)) =>
                  destruct c
              end; constructor
            | repeat constructor ] ].
Qed.

End Generic.

(** *** Two invariants *)

(** Every event of the run satisfies [P], a property of all console
    lines and all requests. *)
Lemma emits_Invariant (P : Event -> Prop) :
  (forall e, console e = true -> P e) ->
  (forall req ok, P (Http req ok)) ->
  Invariant (fun A (r : Run S A) => Forall P (trace r)).
Proof.
  intros Hc Hh. split.
  - intros A r H. eapply Forall_impl; [exact H|]. auto.
  - intros A oracle req s. unfold call.
    destruct (oracle s) as [answer s']. repeat constructor. apply Hh.
  - intros A B m k s Hm Hk. unfold bind.
    destruct (outcome (m s)); simpl; auto.
    apply Forall_app. auto.
  - intros A m h s Hm Hh'. unfold try_catch.
    destruct (outcome (m s)) as [a|e|]; simpl; auto.
    apply Forall_app. split; [exact Hm|].
    destruct (Hh' e (final (m s))) as (_ & _ & H).
    eapply Forall_impl; [exact H|]. auto.
Qed.

Lemma console_not_failed (d : list Event) :
  all_console d -> Forall (fun e => failed e = false) d.
Proof.
  intros H. eapply Forall_impl; [exact H|].
  intros [] Hc; simpl in *; congruence.
Qed.

Lemma tidy_console {A} (r : Run S A) : all_console (trace r) -> tidy r.
Proof.
  intros H. unfold tidy.
  destruct (outcome r); try (apply console_not_failed; exact H).
  exists (trace r), []. rewrite app_nil_r.
  split; [reflexivity|]. split; [apply console_not_failed; exact H|].
  constructor.
Qed.

Lemma tidy_call {A} (oracle : S -> (JsError + A) * S) (ev : bool -> Event) s :
  (forall ok, failed (ev ok) = negb ok) -> tidy (call oracle ev s).
Proof.
  intros Hev. unfold tidy, call.
  destruct (oracle s) as [[e|a] s']; simpl.
  - exists [], [ev false]. repeat split; constructor.
  - repeat constructor. apply Hev.
Qed.

Lemma tidy_bind {A B} (m : M S A) (k : A -> M S B) s :
  tidy (m s) -> (forall a s', tidy (k a s')) -> tidy (bind m k s).
Proof.
  intros Hm Hk. unfold bind, tidy in *.
  destruct (outcome (m s)) as [a|e|] eqn:E; simpl; auto.
  specialize (Hk a (final (m s))).
  destruct (outcome (k a (final (m s)))) as [b|e|].
  - apply Forall_app. auto.
  - destruct Hk as (d1 & d2 & -> & H1 & H2).
    exists (trace (m s) ++ d1), d2. rewrite app_assoc.
    split; [reflexivity|]. split; [apply Forall_app; auto|exact H2].
  - apply Forall_app. auto.
Qed.

Lemma tidy_try {A} (m : M S A) (h : JsError -> M S A) s :
  tidy (m s) -> rethrows h -> tidy (try_catch m h s).
Proof.
  intros Hm Hh. unfold try_catch, tidy in *.
  destruct (outcome (m s)) as [a|e|] eqn:E; simpl; rewrite ?E; auto.
  destruct (Hh e (final (m s))) as (-> & _ & Hc).
  destruct Hm as (d1 & d2 & -> & H1 & H2).
  exists d1, (d2 ++ trace (h e (final (m s)))). rewrite app_assoc.
  split; [reflexivity|]. split; [exact H1|].
  destruct d2 as [|x d2]; simpl.
  - destruct Hc; simpl; [constructor | assumption].
  - apply Forall_app. auto.
Qed.

Lemma tidy_Invariant : Invariant (fun A (r : Run S A) => tidy r).
Proof.
  split.
  - intros A r. apply tidy_console.
  - intros A oracle req s. apply tidy_call. reflexivity.
  - intros A B m k s. apply tidy_bind.
  - intros A m h s. apply tidy_try.
Qed.

End Invariants.

(** ** The calendar *)
Section Calendar.

Import JsDate.

Lemma div_step_4 (y : Z) :
  (y + 1 - 1969) / 4 = (y - 1969) / 4 + (if y mod 4 =? 0 then 1 else 0).
Proof.
  destruct (y mod 4 =? 0) eqn:E;
    [apply Z.eqb_eq in E | apply Z.eqb_neq in E];
    Z.div_mod_to_equations; lia.
Qed.

Lemma div_step_100 (y : Z) :
  (y + 1 - 1901) / 100
  = (y - 1901) / 100 + (if y mod 100 =? 0 then 1 else 0).
Proof.
  destruct (y mod 100 =? 0) eqn:E;
    [apply Z.eqb_eq in E | apply Z.eqb_neq in E];
    Z.div_mod_to_equations; lia.
Qed.

Lemma div_step_400 (y : Z) :
  (y + 1 - 1601) / 400
  = (y - 1601) / 400 + (if y mod 400 =? 0 then 1 else 0).
Proof.
  destruct (y mod 400 =? 0) eqn:E;
    [apply Z.eqb_eq in E | apply Z.eqb_neq in E];
    Z.div_mod_to_equations; lia.
Qed.

Lemma mod_4_of_100 (y : Z) : y mod 100 = 0 -> y mod 4 = 0.
Proof. intros H. Z.div_mod_to_equations. lia. Qed.

Lemma mod_100_of_400 (y : Z) : y mod 400 = 0 -> y mod 100 = 0.
Proof. intros H. Z.div_mod_to_equations. lia. Qed.

(** One more year adds its length to the day number of 1 January. *)
Lemma DayFromYear_succ (y : Z) :
  DayFromYear (y + 1) = DayFromYear y + year_length y.
Proof.
  unfold DayFromYear, year_length, is_leap.
  rewrite div_step_4, div_step_100, div_step_400.
  destruct (y mod 4 =? 0) eqn:E4; destruct (y mod 100 =? 0) eqn:E100;
    destruct (y mod 400 =? 0) eqn:E400; simpl;
    repeat match goal with
      | H : (_ =? _) = true |- _ => apply Z.eqb_eq in H
      | H : (_ =? _) = false |- _ => apply Z.eqb_neq in H
      end;
    pose proof (mod_4_of_100 y); pose proof (mod_100_of_400 y); lia.
Qed.

Lemma DayFromYear_from_zero (n : nat) :
  DayFromYear (Z.of_nat n) = DayFromYear 0 + days_before_year n.
Proof.
  induction n as [|n IH].
  - change (Z.of_nat 0) with 0. change (days_before_year 0) with 0.
    rewrite Z.add_0_r. reflexivity.
  - rewrite Nat2Z.inj_succ, <- Z.add_1_r, DayFromYear_succ, IH.
    cbn [days_before_year]. rewrite Z.add_assoc. reflexivity.
Qed.

(** The closed formula agrees with counting the years one by one. *)
Lemma DayFromYear_count (n : nat) :
  DayFromYear (Z.of_nat n) = days_before_year n - days_before_year 1970.
Proof.
  pose proof (DayFromYear_from_zero 1970) as H0.
  change (DayFromYear (Z.of_nat 1970)) with 0 in H0.
  rewrite DayFromYear_from_zero. lia.
Qed.

Lemma month_start_count (y m : Z) :
  1 <= m <= 12 ->
  month_start (is_leap y) m = days_before_month y (Z.to_nat m).
Proof.
  intros Hm.
  assert (Hc : m = 1 \/ m = 2 \/ m = 3 \/ m = 4 \/ m = 5 \/ m = 6 \/ m = 7
               \/ m = 8 \/ m = 9 \/ m = 10 \/ m = 11 \/ m = 12) by lia.
  unfold month_start.
  destruct Hc as [->|[->|[->|[->|[->|[->|[->|[->|[->|[->|[->| ->]]]]]]]]]]];
    cbv [Z.to_nat Pos.to_nat Pos.iter_op Init.Nat.add days_before_month];
    unfold DaysInMonth; cbn -[is_leap];
    destruct (is_leap y); reflexivity.
Qed.

Lemma MakeDay_epoch_day (y m d : Z) :
  valid_date y m d = true -> MakeDay y m d = epoch_day y m d.
Proof.
  unfold valid_date. rewrite !andb_true_iff, !Z.leb_le.
  intros [[[[Hy Hm1] Hm2] _] _].
  unfold MakeDay, epoch_day.
  rewrite month_start_count by lia.
  rewrite <- (Z2Nat.id y) at 1 by lia.
  rewrite DayFromYear_count. lia.
Qed.

Lemma Qred_inject_Z (z : Z) : Qred (inject_Z z) = inject_Z z.
Proof.
  unfold Qred, inject_Z.
  pose proof (Z.ggcd_gcd z 1) as Hg.
  pose proof (Z.ggcd_correct_divisors z 1) as Hd.
  destruct (Z.ggcd z 1) as [g [aa bb]]. simpl in *.
  rewrite Z.gcd_1_r in Hg. subst g. destruct Hd as [Ha Hb].
  assert (Haa : aa = z) by lia. assert (Hbb : bb = 1) by lia.
  rewrite Haa, Hbb. reflexivity.
Qed.

Lemma Number_div_1000 (x : Z) : Number_div (num (x * 1000)) 1000 = num x.
Proof.
  unfold Number_div, num. f_equal.
  rewrite <- (Qred_inject_Z x). apply Qred_complete.
  unfold Qeq, Qdiv, Qmult, Qinv, inject_Z. simpl. lia.
Qed.

(** The timestamp of a calendar day is its UTC midnight, in seconds. *)
Lemma createdAtTimestamp_calendar {S} (host : Host S) (date : string)
    (y m d : Z) :
  parse_ymd date = Some (y, m, d) ->
  valid_date y m d = true ->
  createdAtTimestamp host date = num (utc_midnight_epoch_seconds y m d).
Proof.
  intros Hp Hv. unfold createdAtTimestamp, getTime. rewrite Hp, Hv.
  unfold MakeDate, msPerDay. rewrite (MakeDay_epoch_day _ _ _ Hv).
  unfold utc_midnight_epoch_seconds.
  replace (epoch_day y m d * 86400000) with (epoch_day y m d * 86400 * 1000)
    by lia.
  apply Number_div_1000.
Qed.

(** The strings accepted by the pattern are those with three fields. *)
Lemma matches_date_pattern_parse (date : string) :
  matches_date_pattern date = true <-> is_Some (parse_ymd date).
Proof.
  unfold matches_date_pattern, parse_ymd.
  destruct (list_ascii_of_string date)
    as [|y1 [|y2 [|y3 [|y4 [|s1 [|m1 [|m2 [|s2 [|d1 [|d2 [|x l]]]]]]]]]]];
    try (split; [discriminate | intros [? ?]; discriminate]).
  unfold is_digit, number_of_digits.
  destruct (digit_of y1), (digit_of y2), (digit_of y3), (digit_of y4),
    (is_dash s1), (digit_of m1), (digit_of m2), (is_dash s2),
    (digit_of d1), (digit_of d2); simpl;
    (split; [first [discriminate | eauto] | first [intros [? ?]; discriminate | reflexivity]]).
Qed.

End Calendar.

(** ** One page *)
Section Fetch.

Context {S : Type} (host : Host S).

Lemma console_requests (d : list Event) : all_console d -> requests d = [].
Proof.
  induction 1 as [|e d He _ IH]; [reflexivity|].
  destruct e; try discriminate; exact IH.
Qed.

(** The shape shared by the two page fetchers: a request between two
    debug lines, inside a [catch] that reports and throws again. *)
Lemma guarded_call_run {A} (oracle : S -> (JsError + A) * S) req v
    (pre : list Printed) (post : A -> list Printed) (t1 t2 : string) s :
  let r :=
    try_catch
      (log.debug v pre;;
       data <- call oracle (Http req);;
       log.debug v (post data);;
       ret data)
      (fun err => report v t1 t2 err;; throw err) s in
  outcome r
  = match fst (oracle s) with inl e => Throw e | inr data => Ret data end
  /\ final r = snd (oracle s)
  /\ requests (trace r) = [req].
Proof.
  unfold try_catch, bind, call, after, log.debug, emit, ret.
  destruct v; simpl; destruct (oracle s) as [[[m|m|[r|]|c]|data] s'];
    simpl; repeat split; reflexivity.
Qed.

(** A page request is sent exactly once per call, whatever the answer,
    and the answer of the server is the result of the call. *)
Lemma getUsersFromAppServices_run tok g a v arg s :
  let r := getUsersFromAppServices host tok g a v arg s in
  let answer :=
    get_users host s (users_request tok g a (default (IdNum 0) arg)) in
  outcome r = match fst answer with inl e => Throw e | inr page => Ret page end
  /\ final r = snd answer
  /\ requests (trace r) = [users_request tok g a (default (IdNum 0) arg)].
Proof.
  exact (guarded_call_run
           (fun s0 => get_users host s0
                        (users_request tok g a (default (IdNum 0) arg)))
           _ v _ _ _ _ s).
Qed.

Lemma getPendingUsersFromAppServices_run tok g a v arg s :
  let r := getPendingUsersFromAppServices host tok g a v arg s in
  let answer :=
    get_pending_users host s
      (pending_users_request tok g a (default (IdNum 0) arg)) in
  outcome r = match fst answer with inl e => Throw e | inr page => Ret page end
  /\ final r = snd answer
  /\ requests (trace r)
     = [pending_users_request tok g a (default (IdNum 0) arg)].
Proof.
  exact (guarded_call_run
           (fun s0 => get_pending_users host s0
                        (pending_users_request tok g a
                           (default (IdNum 0) arg)))
           _ v _ _ _ _ s).
Qed.

End Fetch.

(** ** The pending-user transform *)
Section Transform.

Context {S : Type} (host : Host S).

Lemma map_throwing_inr {A B} (f : A -> JsError + B) (l : list A) out :
  map_throwing f l = inr out -> Forall2 (fun a b => f a = inr b) l out.
Proof.
  revert out. induction l as [|a l IH]; simpl; intros out H.
  - injection H as <-. constructor.
  - destruct (f a) as [e|b] eqn:Ea; [discriminate|].
    destruct (map_throwing f l) as [e|bs]; [discriminate|].
    injection H as <-. constructor; auto.
Qed.

Lemma map_throwing_total {A B} (f : A -> JsError + B) (l : list A) :
  Forall (fun a => exists b, f a = inr b) l ->
  exists out, map_throwing f l = inr out.
Proof.
  induction 1 as [|a l [b Hb] _ [out IH]]; simpl; [eauto|].
  rewrite Hb, IH. eauto.
Qed.

Lemma map_throwing_inl {A B} (f : A -> JsError + B) (l : list A)
    (P : JsError -> Prop) :
  (forall a e, f a = inl e -> P e) ->
  Exists (fun a => exists e, f a = inl e) l ->
  exists e, map_throwing f l = inl e /\ P e.
Proof.
  intros HP. induction 1 as [a l [e He]|a l _ [e [IH Pe]]]; simpl.
  - rewrite He. eauto.
  - destruct (f a) as [e'|b] eqn:Ea; [eauto|]. rewrite IH. eauto.
Qed.

(** The transform succeeds when every record has a login identifier. *)
Lemma pendingUserData_total date users :
  Forall (fun u => PendingUser.login_ids u <> []) users ->
  exists out, pendingUserData host date users = inr out.
Proof.
  intros H. apply map_throwing_total.
  eapply Forall_impl; [exact H|]. intros u Hu. simpl in Hu.
  unfold pending_record.
  destruct (PendingUser.login_ids u); [contradiction|eauto].
Qed.


(** What [getPendingUsers] returns went through the transform. *)
Lemma getPendingUsers_Ret tok g a date v fuel s out :
  outcome (getPendingUsers host tok g a date v fuel s) = Ret out ->
  exists users, pendingUserData host date users = inr out.
Proof.
  unfold getPendingUsers.
  rewrite try_rethrow_outcome by apply (log_rethrows (fun err => _)).
  intros H.
  apply bind_Ret_inv in H as (x1 & _ & _ & H).
  apply bind_Ret_inv in H as (first_page & _ & _ & H).
  apply bind_Ret_inv in H as (users & _ & _ & H).
  apply bind_Ret_inv in H as (unit2 & _ & _ & H).
  apply bind_Ret_inv in H as (unit3 & _ & _ & H).
  exists users. destruct (pendingUserData host date users); simpl in H;
    congruence.
Qed.

End Transform.

(** C2: every record produced by the pending-user transform has status
    [pending] and the one [createdAt] computed from [pendingUserDate],
    whatever the raw record holds.  For a [pendingUserDate] of the form
    YYYY-MM-DD that names a day of the calendar this value is the UTC
    midnight of that day in seconds since the epoch, and so it is in
    every record returned by [getPendingUsers]. *)
Theorem C2_pending_createdAt {S} (host : Host S) (date : string) :
  (forall users out,
      pendingUserData host date users = inr out ->
      Forall (fun u =>
                NormalizedUser.status u = pending
                /\ NormalizedUser.createdAt u = createdAtTimestamp host date)
        out)
  /\ forall y m d,
       JsDate.parse_ymd date = Some (y, m, d) ->
       JsDate.valid_date y m d = true ->
       createdAtTimestamp host date
       = num (JsDate.utc_midnight_epoch_seconds y m d)
       /\ forall tok g a v fuel s out,
            outcome (getPendingUsers host tok g a date v fuel s) = Ret out ->
            Forall (fun u =>
                      NormalizedUser.status u = pending
                      /\ NormalizedUser.createdAt u
                         = num (JsDate.utc_midnight_epoch_seconds y m d))
              out.
Proof.
  assert (Ht : forall users out,
             pendingUserData host date users = inr out ->
             Forall (fun u =>
                       NormalizedUser.status u = pending
                       /\ NormalizedUser.createdAt u
                          = createdAtTimestamp host date) out).
  { intros users out H. apply map_throwing_inr in H.
    induction H as [|u o us os Huo _ IH]; constructor; auto.
    unfold pending_record in Huo.
    destruct (PendingUser.login_ids u); [discriminate|].
    injection Huo as <-. split; reflexivity. }
  split; [exact Ht|].
  intros y m d Hp Hv.
  pose proof (createdAtTimestamp_calendar host date y m d Hp Hv) as Hc.
  split; [exact Hc|].
  intros tok g a v fuel s out H.
  apply getPendingUsers_Ret in H as [users H].
  rewrite <- Hc. eauto.
Qed.

(** The default date of the command line, 2020-12-01, gives 1606780800. *)
Lemma C2_pending_createdAt_witness :
  let out :=
    [{| NormalizedUser.id := IdNum 3;
        NormalizedUser.email := "p@x.com";
        NormalizedUser.createdAt := num 1606780800;
        NormalizedUser.status := pending |}] in
  JsDate.parse_ymd "2020-12-01" = Some (2020, 12, 1)
  /\ JsDate.utc_midnight_epoch_seconds 2020 12 1 = 1606780800
  /\ outcome (getPendingUsers Scripted.host "token" "g1" "app1"
                "2020-12-01" false 5 Scripted.example) = Ret out
  /\ Forall (fun u =>
               NormalizedUser.status u = pending
               /\ NormalizedUser.createdAt u
                  = num (JsDate.utc_midnight_epoch_seconds 2020 12 1)) out.
Proof.
  intros out.
  assert (Hrun : outcome (getPendingUsers Scripted.host "token" "g1" "app1"
                            "2020-12-01" false 5 Scripted.example) = Ret out)
    by (vm_compute; reflexivity).
  split; [vm_compute; reflexivity|]. split; [vm_compute; reflexivity|].
  split; [exact Hrun|].
  exact (proj2 (proj2 (C2_pending_createdAt Scripted.host "2020-12-01")
                  2020 12 1 eq_refl eq_refl)
           "token" "g1" "app1" false 5%nat Scripted.example out Hrun).
Defined.

(** C9: the transform takes [login_ids[0].id] as it is.  Whenever it
    produces output, each output record carries the id of the first
    login identifier of its raw record, and it does produce output when
    every record has a login identifier; as soon as one record has an empty
    [login_ids] list the transform throws a [TypeError] and produces
    nothing. *)
Theorem C9_first_login_id_unguarded {S} (host : Host S) (date : string) :
  (forall users out,
      pendingUserData host date users = inr out ->
      Forall2 (fun u o =>
                 exists first rest,
                   PendingUser.login_ids u = first :: rest
                   /\ NormalizedUser.email o = PendingUser.id first
                   /\ NormalizedUser.id o = PendingUser._id u) users out)
  /\ (forall users,
         Forall (fun u => PendingUser.login_ids u <> []) users ->
         exists out, pendingUserData host date users = inr out)
  /\ (forall users,
         Exists (fun u => PendingUser.login_ids u = []) users ->
         exists msg, pendingUserData host date users = inl (TypeError msg)).
Proof.
  split; [|split].
  - intros users out H. apply map_throwing_inr in H.
    induction H as [|u o us os Huo _ IH]; constructor; auto.
    unfold pending_record in Huo.
    destruct (PendingUser.login_ids u) as [|first rest]; [discriminate|].
    injection Huo as <-. exists first, rest. auto.
  - apply pendingUserData_total.
  - intros users H.
    destruct (map_throwing_inl
                (pending_record (createdAtTimestamp host date)) users
                (fun e => exists msg, e = TypeError msg)) as (e & He & msg & ->).
    + intros u e. unfold pending_record.
      destruct (PendingUser.login_ids u); [|discriminate].
      intros [= <-]. eauto.
    + eapply Exists_impl; [exact H|]. intros u Hu. simpl in Hu.
      unfold pending_record. rewrite Hu. eauto.
    + exists msg. exact He.
Qed.

(** A pending user with the login [p@x.com] is exported with that email;
    next to one without any login identifier nothing is exported, and the
    whole run ends with status 1. *)
Lemma C9_first_login_id_unguarded_witness :
  let good := Scripted.pending_user 3 ["p@x.com"] in
  let bad := Scripted.pending_user 4 [] in
  (exists out,
      pendingUserData Scripted.host "2020-12-01" [good] = inr out
      /\ List.map NormalizedUser.email out = ["p@x.com"])
  /\ (exists msg,
         pendingUserData Scripted.host "2020-12-01" [good; bad]
         = inl (TypeError msg))
  /\ fst <$> run Scripted.host Scripted.env (Scripted.argv (Some "out.json")) 5
               {| Scripted.logins := [inr "token"];
                  Scripted.user_pages := [];
                  Scripted.pending_pages := [inr [good; bad]];
                  Scripted.mkdir_answer := inr tt;
                  Scripted.writeFile_answer := inr tt |} = Some 1.
Proof.
  intros good bad.
  pose proof (C9_first_login_id_unguarded Scripted.host "2020-12-01")
    as (Hfirst & Htotal & Hthrow).
  split; [|split].
  - destruct (Htotal [good]) as [out Hout].
    { repeat constructor. discriminate. }
    exists out. split; [exact Hout|].
    vm_compute in Hout. injection Hout as <-. reflexivity.
  - apply Hthrow. right. left. reflexivity.
  - vm_compute. reflexivity.
Defined.

(** ** Pagination *)

Section Pagination.

Context {S : Type} (host : Host S).

Lemma List_last_cons {A} (x d : A) (l : list A) :
  List.last (x :: l) d = List.last l x.
Proof.
  revert x d. induction l as [|y l IH]; intros x d; [reflexivity|].
  change (List.last (x :: y :: l) d) with (List.last (y :: l) d).
  rewrite !IH. reflexivity.
Qed.

Lemma last_cons {A} (first : A) (others : list A) :
  last (first :: others) = Some (List.last others first).
Proof.
  revert first. induction others as [|x l IH]; intros first; [reflexivity|].
  change (last (first :: x :: l)) with (last (x :: l)).
  rewrite IH, List_last_cons. reflexivity.
Qed.

(** Sequencing after a debug line changes neither result nor requests. *)
Lemma debug_then {A} v line (m : M S A) s :
  outcome ((log.debug v line;; m) s) = outcome (m s)
  /\ final ((log.debug v line;; m) s) = final (m s)
  /\ requests (trace ((log.debug v line;; m) s)) = requests (trace (m s)).
Proof. destruct v; repeat split; reflexivity. Qed.

Lemma after_obs {A B} (r : Run S A) (k : M S B) :
  outcome (after r k) = outcome (k (final r))
  /\ final (after r k) = final (k (final r))
  /\ requests (trace (after r k))
     = requests (trace r) ++ requests (trace (k (final r))).
Proof. unfold after. simpl. rewrite requests_app. auto. Qed.


Lemma getPendingUsers_loop_pages tok g a v pages :
  forall returned rest users s s' fuel,
    returned :: rest = pages ++ [[]] ->
    Forall (fun page => page <> []) pages ->
    Replies (get_pending_users host) s rest s' ->
    (length pages <= fuel)%nat ->
    let r := getPendingUsers_loop host tok g a v fuel users returned s in
    outcome r = Ret (users ++ concat rest)
    /\ final r = s'
    /\ Forall2 (follows_pending tok g a) pages (requests (trace r)).
Proof.
  induction pages as [|page pages IH];
    intros returned rest users s s' fuel Heq Hne HR Hfuel r; subst r.
  - injection Heq as -> ->. inversion HR; subst.
    destruct fuel; simpl; rewrite app_nil_r; repeat split; constructor.
  - simpl in Heq. injection Heq as -> ->.
    apply Forall_cons in Hne as [Hpage Hne].
    destruct page as [|first others]; [contradiction|].
    destruct fuel as [|fuel]; [simpl in Hfuel; lia|].
    destruct (pages ++ [[]]) as [|next rest] eqn:E;
      [destruct pages; discriminate|].
    inversion HR as [|? ? s1 ? ? Hnext HR']; subst.
    cbn [getPendingUsers_loop].
    match goal with |- context [(log.debug v ?line;; ?m) s] =>
      destruct (debug_then v line m s) as (-> & -> & ->) end.
    destruct (getPendingUsersFromAppServices_run host tok g a v
                (Some (PendingUser._id (List.last others first))) s)
      as (Ho & Hf & Hq).
    rewrite Hnext in Ho, Hf. simpl in Ho, Hf.
    rewrite (bind_Ret _ _ _ _ Ho).
    match goal with |- context [after ?r ?k] =>
      destruct (after_obs r k) as (-> & -> & ->) end.
    rewrite Hf, Hq.
    destruct (IH next rest (users ++ next) s1 s' fuel eq_refl Hne HR')
      as (IHo & IHf & IHq); [simpl in Hfuel; lia|].
    rewrite IHo, IHf. simpl. rewrite <- app_assoc.
    repeat split; try reflexivity.
    constructor; [|exact IHq].
    exists (List.last others first). split; [apply last_cons|reflexivity].
Qed.

Lemma bind_obs {A B} (m : M S A) (k : A -> M S B) s a :
  outcome (m s) = Ret a ->
  outcome (bind m k s) = outcome (k a (final (m s)))
  /\ final (bind m k s) = final (k a (final (m s)))
  /\ requests (trace (bind m k s))
     = requests (trace (m s)) ++ requests (trace (k a (final (m s)))).
Proof. intros H. rewrite (bind_Ret _ _ _ _ H). apply after_obs. Qed.

Lemma try_rethrow_requests {A} (m : M S A) (h : JsError -> M S A) s :
  rethrows h ->
  requests (trace (try_catch m h s)) = requests (trace (m s)).
Proof.
  intros Hh. unfold try_catch.
  destruct (outcome (m s)) as [x|e|] eqn:E; simpl; auto.
  destruct (Hh e (final (m s))) as (_ & _ & Hsilent).
  rewrite requests_app, (console_requests _ Hsilent), app_nil_r.
  reflexivity.
Qed.



(** [getPendingUsers] over non-empty pages closed by an empty one: the
    transform is applied to the concatenation. *)
Lemma getPendingUsers_pages tok g a date v pages s s' fuel :
  Forall (fun page => page <> []) pages ->
  Replies (get_pending_users host) s (pages ++ [[]]) s' ->
  (length pages <= fuel)%nat ->
  let r := getPendingUsers host tok g a date v fuel s in
  outcome r = match pendingUserData host date (concat pages) with
              | inl e => Throw e
              | inr out => Ret out
              end
  /\ final r = s'
  /\ exists reqs,
       requests (trace r) = pending_users_request tok g a (IdNum 0) :: reqs
       /\ Forall2 (follows_pending tok g a) pages reqs.
Proof.
  intros Hne HR Hfuel r. subst r. unfold getPendingUsers.
  rewrite try_rethrow_outcome, try_rethrow_final, try_rethrow_requests
    by apply (log_rethrows (fun err => _)).
  match goal with |- context [(log.debug v ?line;; ?m) s] =>
    destruct (debug_then v line m s) as (-> & -> & ->) end.
  destruct (pages ++ [[]]) as [|first rest] eqn:E;
    [destruct pages; discriminate|].
  inversion HR as [|? ? s1 ? ? Hfirst HR']; subst.
  destruct (getPendingUsersFromAppServices_run host tok g a v None s)
    as (Ho & Hf & Hq).
  rewrite Hfirst in Ho, Hf. simpl in Ho, Hf.
  match goal with |- context [bind ?m ?k s] =>
    destruct (bind_obs m k s first Ho) as (-> & -> & ->) end.
  rewrite Hf, Hq.
  destruct (getPendingUsers_loop_pages tok g a v pages first rest
              ([] ++ first) s1 s' fuel (eq_sym E) Hne HR' Hfuel)
    as (Lo & Lf & Lq).
  match goal with |- context [bind ?m ?k s1] =>
    destruct (bind_obs m k s1 _ Lo) as (-> & -> & ->) end.
  rewrite Lf.
  match goal with |- context [(log.debug v ?line;; ?m) s'] =>
    destruct (debug_then v line m s') as (-> & -> & ->) end.
  match goal with |- context [(log.debug v ?line;; ?m) s'] =>
    destruct (debug_then v line m s') as (-> & -> & ->) end.
  assert (Hc : ([] ++ first) ++ concat rest = concat pages).
  { change (([] ++ first) ++ concat rest) with (concat (first :: rest)).
    rewrite <- E, concat_app. simpl. rewrite !app_nil_r. reflexivity. }
  rewrite Hc.
  destruct (pendingUserData host date (concat pages)); simpl;
    rewrite app_nil_r; repeat split; eauto.
Qed.

End Pagination.

Section Termination.

Context {S : Type} (host : Host S).

(** Once an empty page is among the answers to come, the loop ends. *)
Lemma getUsers_loop_terminates tok g a v rest :
  forall returned users s s' fuel,
    Replies (get_users host) s rest s' ->
    In [] (returned :: rest) ->
    (length rest <= fuel)%nat ->
    exists all,
      outcome (getUsers_loop host tok g a v fuel users returned s) = Ret all.
Proof.
  induction rest as [|next rest IH]; intros returned users s s' fuel HR Hin Hfuel.
  - destruct Hin as [->|[]]. destruct fuel; simpl; eauto.
  - destruct returned as [|first others]; [destruct fuel; simpl; eauto|].
    destruct Hin as [Hin|Hin]; [discriminate|].
    destruct fuel as [|fuel]; [simpl in Hfuel; lia|].
    inversion HR as [|? ? s1 ? ? Hnext HR']; subst.
    cbn [getUsers_loop].
    destruct (getUsersFromAppServices_run host tok g a v
                (Some (RawUser._id (List.last others first))) s)
      as (Ho & Hf & _).
    rewrite Hnext in Ho, Hf. simpl in Ho, Hf.
    match goal with |- context [bind ?m ?k s] =>
      destruct (bind_obs m k s next Ho) as (-> & _ & _) end.
    rewrite Hf. eapply IH; eauto. simpl in Hfuel. lia.
Qed.

Lemma getPendingUsers_loop_terminates tok g a v rest :
  forall returned users s s' fuel,
    Replies (get_pending_users host) s rest s' ->
    In [] (returned :: rest) ->
    (length rest <= fuel)%nat ->
    exists all,
      outcome (getPendingUsers_loop host tok g a v fuel users returned s)
      = Ret all.
Proof.
  induction rest as [|next rest IH]; intros returned users s s' fuel HR Hin Hfuel.
  - destruct Hin as [->|[]]. destruct fuel; simpl; eauto.
  - destruct returned as [|first others]; [destruct fuel; simpl; eauto|].
    destruct Hin as [Hin|Hin]; [discriminate|].
    destruct fuel as [|fuel]; [simpl in Hfuel; lia|].
    inversion HR as [|? ? s1 ? ? Hnext HR']; subst.
    cbn [getPendingUsers_loop].
    match goal with |- context [(log.debug v ?line;; ?m) s] =>
      destruct (debug_then v line m s) as (-> & _ & _) end.
    destruct (getPendingUsersFromAppServices_run host tok g a v
                (Some (PendingUser._id (List.last others first))) s)
      as (Ho & Hf & _).
    rewrite Hnext in Ho, Hf. simpl in Ho, Hf.
    match goal with |- context [bind ?m ?k s] =>
      destruct (bind_obs m k s next Ho) as (-> & _ & _) end.
    rewrite Hf. eapply IH; eauto. simpl in Hfuel. lia.
Qed.

Lemma getUsers_terminates tok g a v pages s s' fuel :
  Replies (get_users host) s (pages ++ [[]]) s' ->
  (length pages <= fuel)%nat ->
  exists out, outcome (getUsers host tok g a v fuel s) = Ret out.
Proof.
  intros HR Hfuel. unfold getUsers.
  rewrite try_rethrow_outcome by apply (log_rethrows (fun err => _)).
  match goal with |- context [(log.debug v ?line;; ?m) s] =>
    destruct (debug_then v line m s) as (-> & _ & _) end.
  assert (Hin : In [] (pages ++ [[]])) by (apply in_or_app; right; left; reflexivity).
  assert (Hlen : length (pages ++ [[]]) = Datatypes.S (length pages))
    by (rewrite length_app; simpl; lia).
  destruct (pages ++ [[]]) as [|first rest]; [destruct Hin|].
  inversion HR as [|? ? s1 ? ? Hfirst HR']; subst.
  destruct (getUsersFromAppServices_run host tok g a v None s)
    as (Ho & Hf & _).
  rewrite Hfirst in Ho, Hf. simpl in Ho, Hf.
  match goal with |- context [bind ?m ?k s] =>
    destruct (bind_obs m k s first Ho) as (-> & _ & _) end.
  rewrite Hf.
  destruct (getUsers_loop_terminates tok g a v rest first ([] ++ first)
              s1 s' fuel HR' Hin) as [all Hall];
    [simpl in Hlen; lia|].
  match goal with |- context [bind ?m ?k s1] =>
    destruct (bind_obs m k s1 all Hall) as (-> & _ & _) end.
  match goal with |- context [(log.debug v ?line;; ?m) ?s2] =>
    destruct (debug_then v line m s2) as (-> & _ & _) end.
  simpl. eauto.
Qed.

Lemma getPendingUsers_terminates tok g a date v pages s s' fuel :
  Replies (get_pending_users host) s (pages ++ [[]]) s' ->
  (length pages <= fuel)%nat ->
  outcome (getPendingUsers host tok g a date v fuel s) <> Pending.
Proof.
  intros HR Hfuel. unfold getPendingUsers.
  rewrite try_rethrow_outcome by apply (log_rethrows (fun err => _)).
  match goal with |- context [(log.debug v ?line;; ?m) s] =>
    destruct (debug_then v line m s) as (-> & _ & _) end.
  assert (Hin : In [] (pages ++ [[]])) by (apply in_or_app; right; left; reflexivity).
  assert (Hlen : length (pages ++ [[]]) = Datatypes.S (length pages))
    by (rewrite length_app; simpl; lia).
  destruct (pages ++ [[]]) as [|first rest]; [destruct Hin|].
  inversion HR as [|? ? s1 ? ? Hfirst HR']; subst.
  destruct (getPendingUsersFromAppServices_run host tok g a v None s)
    as (Ho & Hf & _).
  rewrite Hfirst in Ho, Hf. simpl in Ho, Hf.
  match goal with |- context [bind ?m ?k s] =>
    destruct (bind_obs m k s first Ho) as (-> & _ & _) end.
  rewrite Hf.
  destruct (getPendingUsers_loop_terminates tok g a v rest first
              ([] ++ first) s1 s' fuel HR' Hin) as [all Hall];
    [simpl in Hlen; lia|].
  match goal with |- context [bind ?m ?k s1] =>
    destruct (bind_obs m k s1 all Hall) as (-> & _ & _) end.
  match goal with |- context [(log.debug v ?line;; ?m) ?s2] =>
    destruct (debug_then v line m s2) as (-> & _ & _) end.
  match goal with |- context [(log.debug v ?line;; ?m) ?s2] =>
    destruct (debug_then v line m s2) as (-> & _ & _) end.
  destruct (pendingUserData host date all); discriminate.
Qed.

Lemma getUsers_loop_unbounded tok g a v :
  never_empty (get_users host) ->
  forall fuel users returned s,
    returned <> [] ->
    let r := getUsers_loop host tok g a v fuel users returned s in
    outcome r = Pending /\ length (requests (trace r)) = fuel.
Proof.
  intros Hnever. induction fuel as [|fuel IH]; intros users returned s Hne r;
    subst r; destruct returned as [|first others]; try contradiction.
  - split; reflexivity.
  - cbn [getUsers_loop].
    set (arg := Some (RawUser._id (List.last others first))).
    destruct (Hnever s (users_request tok g a (default (IdNum 0) arg)))
      as (page & s1 & Hpage & Hanswer).
    destruct (getUsersFromAppServices_run host tok g a v arg s)
      as (Ho & Hf & Hq).
    rewrite Hanswer in Ho, Hf. simpl in Ho, Hf.
    match goal with |- context [bind ?m ?k s] =>
      destruct (bind_obs m k s page Ho) as (-> & _ & ->) end.
    rewrite Hf, Hq.
    destruct (IH (users ++ page) page s1 Hpage) as [IHo IHq].
    rewrite IHo. simpl. rewrite IHq. auto.
Qed.

Lemma getPendingUsers_loop_unbounded tok g a v :
  never_empty (get_pending_users host) ->
  forall fuel users returned s,
    returned <> [] ->
    let r := getPendingUsers_loop host tok g a v fuel users returned s in
    outcome r = Pending /\ length (requests (trace r)) = fuel.
Proof.
  intros Hnever. induction fuel as [|fuel IH]; intros users returned s Hne r;
    subst r; destruct returned as [|first others]; try contradiction.
  - split; reflexivity.
  - cbn [getPendingUsers_loop].
    match goal with |- context [(log.debug v ?line;; ?m) s] =>
      destruct (debug_then v line m s) as (-> & _ & ->) end.
    set (arg := Some (PendingUser._id (List.last others first))).
    destruct (Hnever s (pending_users_request tok g a
                          (default (IdNum 0) arg)))
      as (page & s1 & Hpage & Hanswer).
    destruct (getPendingUsersFromAppServices_run host tok g a v arg s)
      as (Ho & Hf & Hq).
    rewrite Hanswer in Ho, Hf. simpl in Ho, Hf.
    match goal with |- context [bind ?m ?k s] =>
      destruct (bind_obs m k s page Ho) as (-> & _ & ->) end.
    rewrite Hf, Hq.
    destruct (IH (users ++ page) page s1 Hpage) as [IHo IHq].
    rewrite IHo. simpl. rewrite IHq. auto.
Qed.

Lemma bind_Pending_obs {A B} (m : M S A) (k : A -> M S B) s :
  outcome (m s) = Pending ->
  outcome (bind m k s) = Pending
  /\ requests (trace (bind m k s)) = requests (trace (m s)).
Proof. intros H. rewrite (bind_Pending _ _ _ H). auto. Qed.

Lemma getUsers_unbounded tok g a v fuel s :
  never_empty (get_users host) ->
  let r := getUsers host tok g a v fuel s in
  outcome r = Pending
  /\ length (requests (trace r)) = Datatypes.S fuel.
Proof.
  intros Hnever r. subst r. unfold getUsers.
  rewrite try_rethrow_outcome, try_rethrow_requests
    by apply (log_rethrows (fun err => _)).
  match goal with |- context [(log.debug v ?line;; ?m) s] =>
    destruct (debug_then v line m s) as (-> & _ & ->) end.
  destruct (Hnever s (users_request tok g a (IdNum 0)))
    as (page & s1 & Hpage & Hanswer).
  destruct (getUsersFromAppServices_run host tok g a v None s)
    as (Ho & Hf & Hq).
  simpl in Ho, Hf, Hq. rewrite Hanswer in Ho, Hf. simpl in Ho, Hf.
  match goal with |- context [bind ?m ?k s] =>
    destruct (bind_obs m k s page Ho) as (-> & _ & ->) end.
  rewrite Hf, Hq.
  destruct (getUsers_loop_unbounded tok g a v Hnever fuel ([] ++ page)
              page s1 Hpage) as [Lo Lq].
  match goal with |- context [bind ?m ?k s1] =>
    destruct (bind_Pending_obs m k s1 Lo) as (-> & ->) end.
  split; [reflexivity|]. rewrite length_app, Lq. reflexivity.
Qed.

Lemma getPendingUsers_unbounded tok g a date v fuel s :
  never_empty (get_pending_users host) ->
  let r := getPendingUsers host tok g a date v fuel s in
  outcome r = Pending
  /\ length (requests (trace r)) = Datatypes.S fuel.
Proof.
  intros Hnever r. subst r. unfold getPendingUsers.
  rewrite try_rethrow_outcome, try_rethrow_requests
    by apply (log_rethrows (fun err => _)).
  match goal with |- context [(log.debug v ?line;; ?m) s] =>
    destruct (debug_then v line m s) as (-> & _ & ->) end.
  destruct (Hnever s (pending_users_request tok g a (IdNum 0)))
    as (page & s1 & Hpage & Hanswer).
  destruct (getPendingUsersFromAppServices_run host tok g a v None s)
    as (Ho & Hf & Hq).
  simpl in Ho, Hf, Hq. rewrite Hanswer in Ho, Hf. simpl in Ho, Hf.
  match goal with |- context [bind ?m ?k s] =>
    destruct (bind_obs m k s page Ho) as (-> & _ & ->) end.
  rewrite Hf, Hq.
  destruct (getPendingUsers_loop_unbounded tok g a v Hnever fuel
              ([] ++ page) page s1 Hpage) as [Lo Lq].
  match goal with |- context [bind ?m ?k s1] =>
    destruct (bind_Pending_obs m k s1 Lo) as (-> & ->) end.
  split; [reflexivity|]. rewrite length_app, Lq. reflexivity.
Qed.

End Termination.

(** The scripted host answers with its script. *)
Lemma Scripted_user_replies (st : Scripted.state)
    (pages : list (list RawUser.t)) :
  Scripted.user_pages st = List.map inr pages ->
  exists st', Replies (get_users Scripted.host) st pages st'.
Proof.
  revert st. induction pages as [|page pages IH]; intros st Hst.
  - exists st. constructor.
  - destruct st as [l u p mk wr]. simpl in Hst. subst u.
    destruct (IH {| Scripted.logins := l;
                    Scripted.user_pages := List.map inr pages;
                    Scripted.pending_pages := p;
                    Scripted.mkdir_answer := mk;
                    Scripted.writeFile_answer := wr |} eq_refl) as [st' H].
    exists st'. econstructor; [|exact H]. intros req. reflexivity.
Qed.

Lemma Scripted_pending_replies (st : Scripted.state)
    (pages : list (list PendingUser.t)) :
  Scripted.pending_pages st = List.map inr pages ->
  exists st', Replies (get_pending_users Scripted.host) st pages st'.
Proof.
  revert st. induction pages as [|page pages IH]; intros st Hst.
  - exists st. constructor.
  - destruct st as [l u p mk wr]. simpl in Hst. subst p.
    destruct (IH {| Scripted.logins := l;
                    Scripted.user_pages := u;
                    Scripted.pending_pages := List.map inr pages;
                    Scripted.mkdir_answer := mk;
                    Scripted.writeFile_answer := wr |} eq_refl) as [st' H].
    exists st'. econstructor; [|exact H]. intros req. reflexivity.
Qed.

(** C8: when the answers of the server contain an empty page, the fetch
    loops of [getUsers] and [getPendingUsers] end within as many
    iterations as there are pages before it.  On a server whose pages are
    never empty they are still running after any number of iterations,
    one more request having been sent per iteration: nothing bounds the
    number of pages and nothing stops on a repeated page. *)
Theorem C8_fetch_loop_termination {S} (host : Host S) (tok g a date : string)
    (v : bool) :
  (forall pages s s' fuel,
      Replies (get_users host) s (pages ++ [[]]) s' ->
      (length pages <= fuel)%nat ->
      outcome (getUsers host tok g a v fuel s) <> Pending)
  /\ (forall pages s s' fuel,
         Replies (get_pending_users host) s (pages ++ [[]]) s' ->
         (length pages <= fuel)%nat ->
         outcome (getPendingUsers host tok g a date v fuel s) <> Pending)
  /\ (never_empty (get_users host) ->
      forall fuel s,
        outcome (getUsers host tok g a v fuel s) = Pending
        /\ length (requests (trace (getUsers host tok g a v fuel s)))
           = Datatypes.S fuel)
  /\ (never_empty (get_pending_users host) ->
      forall fuel s,
        outcome (getPendingUsers host tok g a date v fuel s) = Pending
        /\ length (requests
                     (trace (getPendingUsers host tok g a date v fuel s)))
           = Datatypes.S fuel).
Proof.
  split; [|split; [|split]].
  - intros pages s s' fuel HR Hfuel.
    destruct (getUsers_terminates host tok g a v pages s s' fuel HR Hfuel)
      as [out ->]. discriminate.
  - intros pages s s' fuel. apply getPendingUsers_terminates.
  - intros Hnever fuel s. apply getUsers_unbounded, Hnever.
  - intros Hnever fuel s. apply getPendingUsers_unbounded, Hnever.
Qed.

(** The scripted server ends after its one page; the endless server has
    received four requests after three iterations and goes on. *)
Lemma C8_fetch_loop_termination_witness :
  outcome (getUsers Scripted.host "token" "g1" "app1" false 1
             Scripted.example) <> Pending
  /\ outcome (getPendingUsers Scripted.host "token" "g1" "app1"
                "2020-12-01" false 1 Scripted.example) <> Pending
  /\ (outcome (getUsers Endless.host "token" "g1" "app1" false 3 tt) = Pending
      /\ length (requests
                   (trace (getUsers Endless.host "token" "g1" "app1" false 3
                             tt))) = 4%nat)
  /\ (outcome (getPendingUsers Endless.host "token" "g1" "app1" "2020-12-01"
                 false 3 tt) = Pending
      /\ length (requests
                   (trace (getPendingUsers Endless.host "token" "g1" "app1"
                             "2020-12-01" false 3 tt))) = 4%nat).
Proof.
  destruct (Scripted_user_replies Scripted.example
              [[Scripted.user 1 "a@x.com" 1606857105;
                Scripted.user 2 "b@x.com" 1606857106]; []] eq_refl)
    as [st1 H1].
  destruct (Scripted_pending_replies Scripted.example
              [[Scripted.pending_user 3 ["p@x.com"]]; []] eq_refl)
    as [st2 H2].
  pose proof (C8_fetch_loop_termination Scripted.host "token" "g1" "app1"
                "2020-12-01" false) as (T1 & T2 & _ & _).
  pose proof (C8_fetch_loop_termination Endless.host "token" "g1" "app1"
                "2020-12-01" false) as (_ & _ & U1 & U2).
  split; [|split; [|split]].
  - apply (T1 [[Scripted.user 1 "a@x.com" 1606857105;
                Scripted.user 2 "b@x.com" 1606857106]] _ st1 1%nat H1).
    simpl. lia.
  - apply (T2 [[Scripted.pending_user 3 ["p@x.com"]]] _ st2 1%nat H2).
    simpl. lia.
  - apply U1. intros s req. exists Endless.page, s.
    split; [discriminate | reflexivity].
  - apply U2. intros s req. exists Endless.pending_page, s.
    split; [discriminate | reflexivity].
Defined.

(** C10: the cursor value 0 stands for "no cursor".  A call with
    [lastId] 0 builds no [after] parameter and is the call without a
    cursor; so when the last record of a fetched page has the numeric id
    0, the next iteration of either loop repeats the initial request. *)
Theorem C10_zero_cursor_is_no_cursor {S} (host : Host S) (tok g a : string)
    (v : bool) :
  userQuery (IdNum 0) = EmptyString
  /\ url (users_request tok g a (IdNum 0))
     = api +:+ "/groups/" +:+ g +:+ "/apps/" +:+ a +:+ "/users"
  /\ getUsersFromAppServices host tok g a v (Some (IdNum 0))
     = getUsersFromAppServices host tok g a v None
  /\ getPendingUsersFromAppServices host tok g a v (Some (IdNum 0))
     = getPendingUsersFromAppServices host tok g a v None
  /\ (forall fuel users first others,
         RawUser._id (List.last others first) = IdNum 0 ->
         getUsers_loop host tok g a v (Datatypes.S fuel) users
           (first :: others)
         = (returned <- getUsersFromAppServices host tok g a v None;;
            getUsers_loop host tok g a v fuel (users ++ returned) returned)
         /\ forall s,
              exists reqs,
                requests (trace (getUsers_loop host tok g a v
                                   (Datatypes.S fuel) users
                                   (first :: others) s))
                = users_request tok g a (IdNum 0) :: reqs)
  /\ (forall fuel users first others s,
         PendingUser._id (List.last others first) = IdNum 0 ->
         exists reqs,
           requests (trace (getPendingUsers_loop host tok g a v
                              (Datatypes.S fuel) users (first :: others) s))
           = pending_users_request tok g a (IdNum 0) :: reqs).
Proof.
  split; [reflexivity|]. split; [reflexivity|].
  split; [reflexivity|]. split; [reflexivity|]. split.
  - intros fuel users first others Hid.
    assert (Heq : getUsers_loop host tok g a v (Datatypes.S fuel) users
                    (first :: others)
                  = (returned <- getUsersFromAppServices host tok g a v None;;
                     getUsers_loop host tok g a v fuel (users ++ returned)
                       returned)).
    { cbn [getUsers_loop]. rewrite Hid. reflexivity. }
    split; [exact Heq|]. intros s. rewrite Heq.
    destruct (getUsersFromAppServices_run host tok g a v None s)
      as (Ho & _ & Hq).
    unfold bind.
    destruct (outcome (getUsersFromAppServices host tok g a v None s));
      simpl; rewrite ?requests_app, Hq; simpl; eauto.
  - intros fuel users first others s Hid.
    cbn [getPendingUsers_loop]. rewrite Hid.
    match goal with |- context [(log.debug v ?line;; ?m) s] =>
      destruct (debug_then v line m s) as (_ & _ & ->) end.
    destruct (getPendingUsersFromAppServices_run host tok g a v
                (Some (IdNum 0)) s) as (Ho & _ & Hq).
    unfold bind.
    destruct (outcome (getPendingUsersFromAppServices host tok g a v
                         (Some (IdNum 0)) s));
      simpl; rewrite ?requests_app, Hq; simpl; eauto.
Qed.

(** A page that ends with the record of id 0 is followed by the request
    without [after]; a record of id 2 is followed by [?after=2]. *)
Lemma C10_zero_cursor_is_no_cursor_witness :
  let zero := Scripted.user 0 "z@x.com" 1 in
  let st := {| Scripted.logins := [];
               Scripted.user_pages := [inr [zero]; inr [zero]];
               Scripted.pending_pages := [];
               Scripted.mkdir_answer := inr tt;
               Scripted.writeFile_answer := inr tt |} in
  (exists reqs,
      requests (trace (getUsers_loop Scripted.host "token" "g1" "app1" false
                         1 [zero] [zero] st))
      = users_request "token" "g1" "app1" (IdNum 0) :: reqs)
  /\ List.map url
       (requests (trace (getUsers Scripted.host "token" "g1" "app1" false 5
                           st)))
     = ["https://services.cloud.mongodb.com/api/admin/v3.0/groups/g1/apps/app1/users";
        "https://services.cloud.mongodb.com/api/admin/v3.0/groups/g1/apps/app1/users";
        "https://services.cloud.mongodb.com/api/admin/v3.0/groups/g1/apps/app1/users"]
  /\ url (users_request "token" "g1" "app1" (IdNum 2))
     = "https://services.cloud.mongodb.com/api/admin/v3.0/groups/g1/apps/app1/users?after=2".
Proof.
  intros zero st.
  split; [|split; vm_compute; reflexivity].
  apply (proj2 (proj1 (proj2 (proj2 (proj2 (proj2
           (C10_zero_cursor_is_no_cursor Scripted.host "token" "g1" "app1"
              false))))) 0%nat [zero] zero [] eq_refl) st).
Defined.

(** ** The output path *)
Section PathFacts.

Import Path.

Lemma append_cons (c : ascii) (a b : string) :
  String c a +:+ b = String c (a +:+ b).
Proof. reflexivity. Qed.

Lemma has_slash_rev_app (a x : string) :
  has_slash (String.rev_app a x) = has_slash a || has_slash x.
Proof.
  revert x. induction a as [|c a IH]; intros x; [reflexivity|].
  cbn [String.rev_app has_slash]. rewrite IH. cbn [has_slash].
  destruct (Ascii.eqb c slash), (has_slash a), (has_slash x); reflexivity.
Qed.

Lemma rev_app_rev_app (a x y : string) :
  String.rev_app (String.rev_app a x) y = String.rev_app x (a +:+ y).
Proof.
  revert x y. induction a as [|c a IH]; intros x y; [reflexivity|].
  cbn [String.rev_app]. rewrite IH. reflexivity.
Qed.

Lemma rev_app_append (a b x : string) :
  String.rev_app (a +:+ b) x = String.rev_app b (String.rev_app a x).
Proof.
  revert x. induction a as [|c a IH]; intros x; [reflexivity|].
  rewrite append_cons. cbn [String.rev_app]. apply IH.
Qed.

Lemma append_empty_r (a : string) : a +:+ EmptyString = a.
Proof.
  induction a as [|c a IH]; [reflexivity|].
  rewrite append_cons, IH. reflexivity.
Qed.

(** Every piece cut by [split] is free of separators. *)
Lemma split_aux_no_slash (s cur : string) :
  has_slash cur = false ->
  Forall (fun seg => has_slash seg = false) (split_aux cur s).
Proof.
  revert cur. induction s as [|c s IH]; intros cur Hcur; cbn [split_aux].
  - repeat constructor. unfold String.rev.
    rewrite has_slash_rev_app, Hcur. reflexivity.
  - destruct (Ascii.eqb c slash) eqn:Ec.
    + constructor; [|apply IH; reflexivity].
      unfold String.rev. rewrite has_slash_rev_app, Hcur. reflexivity.
    + apply IH. cbn [has_slash]. rewrite Ec, Hcur. reflexivity.
Qed.

Lemma basename_no_slash (p : string) : has_slash (basename p) = false.
Proof.
  unfold basename, split.
  pose proof (split_aux_no_slash p EmptyString eq_refl) as H.
  induction H as [|seg segs Hseg _ IH]; [reflexivity|].
  cbn [List.filter]. destruct (nonempty seg); [|exact IH].
  destruct (List.filter nonempty segs) as [|x l] eqn:E; [exact Hseg|].
  exact IH.
Qed.

(** A string without separator is one piece. *)
Lemma split_aux_plain (b cur : string) :
  has_slash b = false ->
  split_aux cur b = [String.rev (String.rev_app b cur)].
Proof.
  revert cur. induction b as [|c b IH]; intros cur Hb; [reflexivity|].
  cbn [has_slash] in Hb. apply orb_false_iff in Hb as [Hc Hb].
  cbn [split_aux]. rewrite Hc. apply IH, Hb.
Qed.

Lemma split_plain (b : string) : has_slash b = false -> split b = [b].
Proof.
  intros Hb. unfold split. rewrite (split_aux_plain b EmptyString Hb).
  unfold String.rev. rewrite rev_app_rev_app.
  cbn [String.rev_app]. rewrite append_empty_r. reflexivity.
Qed.

Lemma split_output (b : string) :
  has_slash b = false -> split ("output/" +:+ b) = ["output"; b].
Proof.
  intros Hb.
  change (split ("output/" +:+ b)) with ("output" :: split b).
  rewrite (split_plain b Hb). reflexivity.
Qed.

Lemma rev_app_starts (b y : string) :
  b <> EmptyString -> has_slash b = false ->
  starts_with_slash (String.rev_app b y) = false.
Proof.
  revert y. induction b as [|c b IH]; intros y Hne Hb; [contradiction|].
  cbn [has_slash] in Hb. apply orb_false_iff in Hb as [Hc Hb].
  cbn [String.rev_app]. destruct b as [|c' b'].
  - cbn [String.rev_app starts_with_slash]. exact Hc.
  - apply IH; [discriminate | exact Hb].
Qed.

Lemma ends_with_slash_output (b : string) :
  b <> EmptyString -> has_slash b = false ->
  ends_with_slash ("output/" +:+ b) = false.
Proof.
  intros Hne Hb. unfold ends_with_slash, String.rev.
  rewrite rev_app_append. apply rev_app_starts; assumption.
Qed.

(** An ordinary last component lands in [output]. *)
Lemma join_output (b : string) :
  has_slash b = false ->
  b <> EmptyString -> b <> "." -> b <> ".." ->
  join ["output"; b] = "output/" +:+ b.
Proof.
  intros Hb Hne Hdot Hdots.
  apply String.eqb_neq in Hne, Hdot, Hdots.
  unfold join. cbn [List.filter]. unfold nonempty at 2. rewrite Hne.
  change (nonempty "output") with true. cbn [negb].
  change (String.concat "/" ["output"; b]) with ("output/" +:+ b).
  unfold normalize.
  change (("output/" +:+ b =? EmptyString)%string) with false.
  change (starts_with_slash ("output/" +:+ b)) with false.
  rewrite (ends_with_slash_output b) by (try apply String.eqb_neq; assumption).
  rewrite (split_output b Hb).
  cbn [negb normalize_segments].
  change (("output" =? EmptyString)%string || ("output" =? ".")%string)
    with false.
  change (("output" =? "..")%string) with false.
  cbn [normalize_segments]. rewrite Hne, Hdot, Hdots. cbn [orb].
  cbn [normalize_segments List.rev app].
  change (String.concat "/" ["output"; b]) with ("output/" +:+ b).
  change (("output/" +:+ b =? EmptyString)%string) with false.
  reflexivity.
Qed.

(** What [resolve_outputFile] gives, by the last component of its
    argument: only an ordinary component names a file inside [output]. *)
Lemma resolve_outputFile_cases (raw : string) :
  truthy_string raw = true ->
  let b := basename raw in
  resolve_outputFile (Some raw)
  = Some (if String.eqb b EmptyString || String.eqb b "." then "output"
          else if String.eqb b ".." then "."
          else "output/" +:+ b).
Proof.
  intros Hraw b. unfold resolve_outputFile. rewrite Hraw. fold b. f_equal.
  destruct (String.eqb b EmptyString) eqn:E0.
  { apply String.eqb_eq in E0. rewrite E0. reflexivity. }
  destruct (String.eqb b ".") eqn:E1.
  { apply String.eqb_eq in E1. rewrite E1. reflexivity. }
  destruct (String.eqb b "..") eqn:E2.
  { apply String.eqb_eq in E2. rewrite E2. reflexivity. }
  cbn [orb]. apply join_output.
  - apply basename_no_slash.
  - apply String.eqb_neq, E0.
  - apply String.eqb_neq, E1.
  - apply String.eqb_neq, E2.
Qed.

(** The resolved path never holds a [..] segment, and it names an entry
    of [output] exactly when the last component is an ordinary one. *)
Lemma resolve_outputFile_inside (raw p : string) :
  resolve_outputFile (Some raw) = Some p ->
  has_parent_segment p = false
  /\ (directly_inside "output" p = true
      <-> basename raw <> EmptyString /\ basename raw <> "."
          /\ basename raw <> "..").
Proof.
  intros H.
  assert (Hraw : truthy_string raw = true).
  { unfold resolve_outputFile in H. destruct (truthy_string raw);
      [reflexivity|discriminate]. }
  rewrite (resolve_outputFile_cases raw Hraw) in H.
  pose proof (basename_no_slash raw) as Hb.
  destruct (String.eqb (basename raw) EmptyString) eqn:E0.
  { injection H as <-. apply String.eqb_eq in E0.
    split; [reflexivity|]. split; [discriminate|]. intros [Hne _].
    contradiction. }
  destruct (String.eqb (basename raw) ".") eqn:E1.
  { injection H as <-. apply String.eqb_eq in E1.
    split; [reflexivity|]. split; [discriminate|]. intros (_ & Hne & _).
    contradiction. }
  destruct (String.eqb (basename raw) "..") eqn:E2.
  { injection H as <-. apply String.eqb_eq in E2.
    split; [reflexivity|]. split; [discriminate|]. intros (_ & _ & Hne).
    contradiction. }
  cbn [orb] in H. injection H as <-.
  unfold has_parent_segment, directly_inside.
  rewrite (split_output _ Hb). cbn [List.existsb].
  rewrite (String.eqb_sym ".." (basename raw)), E2.
  change (String.eqb ".." "output") with false.
  change (String.eqb "output" "output") with true.
  unfold nonempty. rewrite ?E0, ?E1, ?E2.
  split; [reflexivity|]. split; [|reflexivity].
  intros _. repeat split; apply String.eqb_neq; assumption.
Qed.

End PathFacts.

(** C3 (defect): an [outputFile] whose last component is [..] resolves to
    the current directory, which is not inside [output]; the component
    [.] resolves to the directory [output] itself.  The example of the
    specification, [x/../y.json], resolves to [output/y.json]. *)
Theorem C3_outputFile_parent_component :
  resolve_outputFile (Some "..") = Some "."
  /\ Path.directly_inside "output" "." = false
  /\ resolve_outputFile (Some "a/..") = Some "."
  /\ resolve_outputFile (Some ".") = Some "output"
  /\ Path.directly_inside "output" "output" = false
  /\ resolve_outputFile (Some "x/../y.json") = Some "output/y.json"
  /\ Path.directly_inside "output" "output/y.json" = true
  /\ option_map (fun r => fs_paths (snd r))
       (run Scripted.host Scripted.env (Scripted.argv (Some "..")) 5
          Scripted.example)
     = Some ["."; "."].
Proof. repeat split; vm_compute; reflexivity. Qed.

(** ** Validation *)
Section Validation.

Context {S : Type} (host : Host S).

Lemma bind_pure_Ret {A B} (m : M S A) (k : A -> M S B) s a :
  m s = {| outcome := Ret a; final := s; trace := [] |} ->
  bind m k s = k a s.
Proof.
  intros H. unfold bind, after. rewrite H. simpl.
  destruct (k a s). reflexivity.
Qed.

Lemma bind_pure_Throw {A B} (m : M S A) (k : A -> M S B) s e :
  m s = {| outcome := Throw e; final := s; trace := [] |} ->
  bind m k s = {| outcome := Throw e; final := s; trace := [] |}.
Proof. intros H. unfold bind. rewrite H. reflexivity. Qed.

Lemma bind_emit_Throw {B} (ev : Event) (k : unit -> M S B) s :
  (exists message,
      k tt s = {| outcome := Throw (Error message); final := s;
                  trace := [] |}) ->
  exists message,
    bind (emit ev) k s
    = {| outcome := Throw (Error message); final := s; trace := [ev] |}.
Proof.
  intros [message Hk]. exists message.
  unfold bind, after, emit. cbn [outcome final trace].
  rewrite Hk. reflexivity.
Qed.

Lemma required_truthy value message (s : S) :
  truthy value = true ->
  exists x, value = Some x
            /\ required value message s
               = {| outcome := Ret x; final := s; trace := [] |}.
Proof.
  destruct value as [x|]; simpl; [|discriminate].
  intros ->. eauto.
Qed.

Lemma required_falsy value message (s : S) :
  truthy value = false ->
  required value message s
  = {| outcome := Throw (Error message); final := s; trace := [] |}.
Proof.
  destruct value as [x|]; simpl; [|reflexivity].
  intros ->. reflexivity.
Qed.

Lemma collect_invalid env argv outputFile dryRun fuel s :
  invalid env argv ->
  exists message,
    collect host env argv outputFile dryRun fuel s
    = {| outcome := Throw (Error message); final := s;
         trace := [Console Linfo
                     [PText "Realm users migration script started"]] |}.
Proof.
  intros Hinv. unfold collect, log.info.
  apply bind_emit_Throw.
  destruct (truthy (env !! "USERNAME")) eqn:E1;
    [|eexists; apply bind_pure_Throw, required_falsy, E1].
  destruct (required_truthy _
              "Username is required. Please set the USERNAME environment variable in your .env file."
              s E1) as (username & _ & R1).
  rewrite (bind_pure_Ret _ _ _ _ R1).
  destruct (truthy (env !! "API_KEY")) eqn:E2;
    [|eexists; apply bind_pure_Throw, required_falsy, E2].
  destruct (required_truthy _
              "API key is required. Please set the API_KEY environment variable in your .env file."
              s E2) as (apiKey & _ & R2).
  rewrite (bind_pure_Ret _ _ _ _ R2).
  destruct (truthy (env !! "GROUP_ID")) eqn:E3;
    [|eexists; apply bind_pure_Throw, required_falsy, E3].
  destruct (required_truthy _
              "Group ID is required. Please set the GROUP_ID environment variable in your .env file."
              s E3) as (groupId & _ & R3).
  rewrite (bind_pure_Ret _ _ _ _ R3).
  destruct (truthy (env !! "APP_ID")) eqn:E4;
    [|eexists; apply bind_pure_Throw, required_falsy, E4].
  destruct (required_truthy _
              "App ID is required. Please set the APP_ID environment variable in your .env file."
              s E4) as (appId & _ & R4).
  rewrite (bind_pure_Ret _ _ _ _ R4).
  destruct Hinv as [H|[H|[H|[H|[Hne Hpat]]]]]; try congruence.
  eexists. apply bind_pure_Throw.
  unfold truthy_string, Path.nonempty. rewrite Hpat.
  apply String.eqb_neq in Hne. rewrite Hne. reflexivity.
Qed.

End Validation.

(** C4, as the code has it: when one of the four environment inputs is
    missing or empty, or [pendingUserDate] is a non-empty string that does
    not match YYYY-MM-DD, the run logs one validation error and exits
    with status 1; it sends no request and touches no file. *)
Theorem C4_validation_before_network {S} (host : Host S)
    (env : gmap string string) (argv : Argv.t) (fuel : nat) (s : S) :
  invalid env argv ->
  exists message,
    run host env argv fuel s
    = Some (1, [Console Linfo [PText "Realm users migration script started"];
                Console Lerror [PText "Error in migration script:";
                                PError (Error message)];
                Exit 1])
    /\ option_map (fun r => requests (snd r)) (run host env argv fuel s)
       = Some [].
Proof.
  intros Hinv.
  destruct (collect_invalid host env argv
              (resolve_outputFile (Argv.outputFile argv))
              (Argv.dryRun argv
               || negb (truthy (resolve_outputFile (Argv.outputFile argv))))
              fuel s Hinv) as [message Hc].
  exists message.
  assert (Hrun : run host env argv fuel s
                 = Some (1, [Console Linfo
                               [PText "Realm users migration script started"];
                             Console Lerror [PText "Error in migration script:";
                                             PError (Error message)];
                             Exit 1])).
  { unfold run, main, main_try, try_catch, bind. rewrite Hc. reflexivity. }
  rewrite Hrun. split; reflexivity.
Qed.

(** Without [API_KEY] the scripted run stops at once; so it does for the
    date [12/01/2020]. *)
Lemma C4_validation_before_network_witness :
  (exists message,
      run Scripted.host (delete "API_KEY" Scripted.env) (Scripted.argv None) 5
        Scripted.example
      = Some (1, [Console Linfo [PText "Realm users migration script started"];
                  Console Lerror [PText "Error in migration script:";
                                  PError (Error message)];
                  Exit 1])
      /\ option_map (fun r => requests (snd r))
           (run Scripted.host (delete "API_KEY" Scripted.env)
              (Scripted.argv None) 5 Scripted.example) = Some [])
  /\ (exists message,
         run Scripted.host Scripted.env
           {| Argv.dryRun := false; Argv.verbose := true;
              Argv.batchSize := 100; Argv.outputFile := Some "out.json";
              Argv.pendingUserDate := "12/01/2020" |} 5 Scripted.example
         = Some (1, [Console Linfo
                       [PText "Realm users migration script started"];
                     Console Lerror [PText "Error in migration script:";
                                     PError (Error message)];
                     Exit 1])
         /\ option_map (fun r => requests (snd r))
              (run Scripted.host Scripted.env
                 {| Argv.dryRun := false; Argv.verbose := true;
                    Argv.batchSize := 100; Argv.outputFile := Some "out.json";
                    Argv.pendingUserDate := "12/01/2020" |} 5
                 Scripted.example) = Some []).
Proof.
  split.
  - apply (C4_validation_before_network Scripted.host).
    right. left. vm_compute. reflexivity.
  - apply (C4_validation_before_network Scripted.host).
    right. right. right. right. split; [discriminate | vm_compute; reflexivity].
Defined.

(** C4 as stated fails: the empty [pendingUserDate] does not match
    YYYY-MM-DD, yet it passes the validation; the run logs in, fetches
    both resources with five requests in all, and exits with status 0. *)
Lemma C4_empty_date_not_rejected :
  matches_date_pattern EmptyString = false
  /\ option_map (fun r => (fst r, length (requests (snd r))))
       (run Scripted.host Scripted.env
          {| Argv.dryRun := false; Argv.verbose := false;
             Argv.batchSize := 100; Argv.outputFile := None;
             Argv.pendingUserDate := EmptyString |} 5 Scripted.example)
     = Some (0, 5%nat).
Proof. split; vm_compute; reflexivity. Qed.


(** ** Runs that differ in debug output only *)

Section BatchSize.

Context {S : Type} (host : Host S).

Lemma visible_app (a b : list Event) :
  visible (a ++ b) = visible a ++ visible b.
Proof. apply List.filter_app. Qed.

Lemma requests_visible (tr : list Event) : requests (visible tr) = requests tr.
Proof.
  induction tr as [|e tr IH]; [reflexivity|].
  destruct e as [[] line| | | |]; simpl; rewrite ?IH; reflexivity.
Qed.

Lemma fs_calls_visible (tr : list Event) : fs_calls (visible tr) = fs_calls tr.
Proof.
  induction tr as [|e tr IH]; [reflexivity|].
  destruct e as [[] line| | | |]; simpl; rewrite ?IH; reflexivity.
Qed.

Lemma exit_code_visible (tr : list Event) :
  exit_code (visible tr) = exit_code tr.
Proof.
  induction tr as [|e tr IH]; [reflexivity|].
  destruct e as [[] line| | | |]; simpl; rewrite ?IH; reflexivity.
Qed.

Lemma sim_refl {A} (m : M S A) : sim m m.
Proof. intros s. auto. Qed.

Lemma sim_bind {A B} (m1 m2 : M S A) (k1 k2 : A -> M S B) :
  sim m1 m2 -> (forall a, sim (k1 a) (k2 a)) -> sim (bind m1 k1) (bind m2 k2).
Proof.
  intros Hm Hk s. destruct (Hm s) as (Ho & Hf & Ht).
  unfold bind. rewrite <- Ho.
  destruct (outcome (m1 s)) as [a|e|]; simpl; auto.
  rewrite <- Hf. destruct (Hk a (final (m1 s))) as (Ko & Kf & Kt).
  rewrite !visible_app, Ht, Kt. auto.
Qed.

Lemma sim_try_catch {A} (m1 m2 : M S A) (h1 h2 : JsError -> M S A) :
  sim m1 m2 -> (forall e, sim (h1 e) (h2 e)) ->
  sim (try_catch m1 h1) (try_catch m2 h2).
Proof.
  intros Hm Hh s. destruct (Hm s) as (Ho & Hf & Ht).
  unfold try_catch. rewrite <- Ho.
  destruct (outcome (m1 s)) as [a|e|] eqn:E; simpl; rewrite ?E; auto.
  rewrite <- Hf. destruct (Hh e (final (m1 s))) as (Ko & Kf & Kt).
  rewrite !visible_app, Ht, Kt. auto.
Qed.

(** Two debug lines under the same verbosity are interchangeable. *)
Lemma sim_debug v (line1 line2 : list Printed) :
  sim (@log.debug S v line1) (log.debug v line2).
Proof. intros s. destruct v; simpl; auto. Qed.

Lemma collect_batchSize env argv b outputFile dryRun fuel :
  sim (collect host env argv outputFile dryRun fuel)
      (collect host env (with_batchSize b argv) outputFile dryRun fuel).
Proof.
  unfold collect, with_batchSize.
  cbn [Argv.verbose Argv.batchSize Argv.pendingUserDate].
  repeat (apply sim_bind; [first [apply sim_refl | apply sim_debug] | intros ?]).
  apply sim_refl.
Qed.

Lemma main_batchSize env argv b fuel :
  sim (main host env argv fuel) (main host env (with_batchSize b argv) fuel).
Proof.
  unfold main, main_try.
  apply sim_try_catch; [|intros e; apply sim_refl].
  change (Argv.outputFile (with_batchSize b argv)) with (Argv.outputFile argv).
  change (Argv.dryRun (with_batchSize b argv)) with (Argv.dryRun argv).
  apply sim_bind; [apply collect_batchSize | intros ud; apply sim_refl].
Qed.

End BatchSize.

(** C6: two runs that differ only in [--batchSize] end the same way and
    leave the host in the same state; they send the same requests, build
    the same export envelope, make the same file system calls with the
    same content, and print the same lines apart from debug output (the
    one place where [batchSize] is read is a debug line). *)
Theorem C6_batchSize_has_no_effect {S} (host : Host S)
    (env : gmap string string) (argv : Argv.t) (b : Z) (fuel : nat) (s : S) :
  let argv' := with_batchSize b argv in
  let outputFile := resolve_outputFile (Argv.outputFile argv) in
  let dryRun := Argv.dryRun argv || negb (truthy outputFile) in
  let r := main host env argv fuel s in
  let r' := main host env argv' fuel s in
  outcome (collect host env argv outputFile dryRun fuel s)
  = outcome (collect host env argv' outputFile dryRun fuel s)
  /\ outcome r = outcome r'
  /\ final r = final r'
  /\ requests (trace r) = requests (trace r')
  /\ fs_calls (trace r) = fs_calls (trace r')
  /\ visible (trace r) = visible (trace r')
  /\ option_map fst (run host env argv fuel s)
     = option_map fst (run host env argv' fuel s).
Proof.
  intros argv' outputFile dryRun r r'.
  destruct (collect_batchSize host env argv b outputFile dryRun fuel s)
    as (Hc & _ & _).
  destruct (main_batchSize host env argv b fuel s) as (Ho & Hf & Ht).
  fold argv' in Ho, Hf, Ht. fold r r' in Ho, Hf, Ht.
  split; [exact Hc|]. split; [exact Ho|]. split; [exact Hf|].
  split; [rewrite <- (requests_visible (trace r)), Ht; apply requests_visible|].
  split; [rewrite <- (fs_calls_visible (trace r)), Ht; apply fs_calls_visible|].
  split; [exact Ht|].
  unfold run. fold argv' r r'. clearbody r r'. rewrite <- Ho.
  destruct (outcome r); cbn [option_map fst]; try reflexivity.
  rewrite <- (exit_code_visible (trace r)), Ht, exit_code_visible.
  reflexivity.
Qed.

(** With verbose output the two traces do differ, in the debug line. *)
Example batchSize_debug_line :
  option_map snd
    (run Scripted.host Scripted.env
       {| Argv.dryRun := false; Argv.verbose := true; Argv.batchSize := 100;
          Argv.outputFile := None; Argv.pendingUserDate := "2020-12-01" |}
       5 Scripted.example)
  <> option_map snd
       (run Scripted.host Scripted.env
          {| Argv.dryRun := false; Argv.verbose := true; Argv.batchSize := 7;
             Argv.outputFile := None; Argv.pendingUserDate := "2020-12-01" |}
          5 Scripted.example).
Proof. vm_compute. discriminate. Qed.


(** ** The export decision *)

Section ExportDecision.

Context {S : Type} (host : Host S).

Lemma bind_run_eq {A B} (m : M S A) (k : A -> M S B) s a s1 t1 o s2 t2 :
  m s = {| outcome := Ret a; final := s1; trace := t1 |} ->
  k a s1 = {| outcome := o; final := s2; trace := t2 |} ->
  bind m k s = {| outcome := o; final := s2; trace := t1 ++ t2 |}.
Proof.
  intros Hm Hk. unfold bind, after. rewrite Hm.
  cbn [outcome final trace]. rewrite Hk. reflexivity.
Qed.

Lemma log_entries_run entries (s : S) :
  log_entries entries s
  = {| outcome := Ret tt; final := s; trace := List.map entry_line entries |}.
Proof.
  induction entries as [|[key value] entries IH]; [reflexivity|].
  cbn [log_entries].
  change (List.map entry_line ((key, value) :: entries))
    with ([entry_line (key, value)] ++ List.map entry_line entries).
  eapply bind_run_eq; [reflexivity | exact IH].
Qed.

Lemma log_summary_run outputFile userData (s : S) :
  log_summary outputFile userData s
  = {| outcome := Ret tt; final := s;
       trace := summary_lines outputFile userData |}.
Proof.
  unfold log_summary, summary_lines.
  eapply bind_run_eq; [reflexivity|].
  eapply bind_run_eq; [reflexivity|].
  eapply bind_run_eq; [apply log_entries_run|].
  eapply bind_run_eq.
  { destruct (UserData.users userData);
      [reflexivity | eapply bind_run_eq; reflexivity]. }
  eapply bind_run_eq.
  { destruct (UserData.pendingUsers userData);
      [reflexivity | eapply bind_run_eq; reflexivity]. }
  destruct (negb (truthy outputFile)); reflexivity.
Qed.

Lemma summary_lines_console outputFile userData :
  all_console (summary_lines outputFile userData).
Proof.
  unfold summary_lines, all_console.
  apply Forall_app. split; [repeat constructor|].
  apply Forall_app. split; [repeat constructor|].
  apply Forall_app. split.
  { induction (metadata_entries (UserData.metadata userData));
      constructor; auto. }
  apply Forall_app. split.
  { destruct (UserData.users userData); repeat constructor. }
  apply Forall_app. split.
  { destruct (UserData.pendingUsers userData); repeat constructor. }
  repeat constructor.
Qed.

(** Without an output file, or with [--dryRun], the summary is chosen. *)
Lemma export_users_dry raw explicit userData :
  truthy raw = false \/ explicit = true ->
  export_users host (resolve_outputFile raw)
    (explicit || negb (truthy (resolve_outputFile raw))) userData
  = log_summary (resolve_outputFile raw) userData.
Proof.
  intros H. unfold export_users.
  destruct (resolve_outputFile raw) as [file|] eqn:E; [|reflexivity].
  destruct H as [H| ->].
  - unfold resolve_outputFile in E. destruct raw as [r|]; [|discriminate].
    simpl in H. rewrite H in E. discriminate.
  - rewrite orb_true_l. cbn [negb]. rewrite andb_false_r. reflexivity.
Qed.

(** The three ways [save] can go. *)
Lemma save_cases file userData (s : S) :
  let r := save host file userData s in
  let saving := Console Linfo [PText ("Saving users to " +:+ file +:+ "...")] in
  let dir := Path.dirname file in
  (exists e, outcome r = Throw e /\ trace r = [saving; Mkdir dir false])
  \/ (exists e, outcome r = Throw e
                /\ trace r = [saving; Mkdir dir true;
                              WriteFile file userData false])
  \/ (outcome r = Ret tt
      /\ trace r = [saving; Mkdir dir true; WriteFile file userData true;
                    Console Lsuccess [PText ("Users saved to " +:+ file)]]).
Proof.
  unfold save, bind, after, fs_promises_mkdir, fs_promises_writeFile, call,
    log.info, log.success, emit.
  cbn [outcome final trace].
  destruct (fs_mkdir host s (Path.dirname file)) as [[e|[]] s1];
    cbn [outcome final trace is_ok app]; [left; eauto|].
  destruct (fs_writeFile host s1 file userData) as [[e|[]] s2];
    cbn [outcome final trace is_ok app]; [right; left; eauto|].
  right. right. auto.
Qed.

(** The end of the [try] block: the export decision and the last line.
    Either the summary is printed, or [save] goes one of its three ways. *)
Lemma finish_cases outputFile dryRun userData (s : S) :
  let r := (export_users host outputFile dryRun userData;;
            log.success [PText "Migration script completed successfully"]) s in
  (outcome r = Ret tt
   /\ trace r = summary_lines outputFile userData ++ [completed])
  \/ exists file saving,
       outputFile = Some file /\ dryRun = false
       /\ saving = Console Linfo [PText ("Saving users to " +:+ file +:+ "...")]
       /\ ((exists e, outcome r = Throw e
                      /\ trace r = [saving; Mkdir (Path.dirname file) false])
           \/ (exists e, outcome r = Throw e
                         /\ trace r = [saving; Mkdir (Path.dirname file) true;
                                       WriteFile file userData false])
           \/ (outcome r = Ret tt
               /\ trace r = [saving; Mkdir (Path.dirname file) true;
                             WriteFile file userData true;
                             Console Lsuccess
                               [PText ("Users saved to " +:+ file)];
                             completed])).
Proof.
  intros r. subst r.
  assert (Hsummary :
            forall o,
              outcome ((log_summary o userData;;
                        log.success
                          [PText "Migration script completed successfully"]) s)
              = Ret tt
              /\ trace ((log_summary o userData;;
                         log.success
                           [PText "Migration script completed successfully"]) s)
                 = summary_lines o userData ++ [completed]).
  { intros o.
    rewrite (bind_run_eq _ _ s tt s (summary_lines o userData) (Ret tt) s
               [completed] (log_summary_run o userData s) eq_refl).
    split; reflexivity. }
  unfold export_users.
  destruct outputFile as [file|]; [|left; apply Hsummary].
  destruct (truthy_string file && negb dryRun) eqn:E; [|left; apply Hsummary].
  apply andb_true_iff in E as [_ E]. apply negb_true_iff in E.
  right. exists file, (Console Linfo [PText ("Saving users to " +:+ file +:+ "...")]).
  split; [reflexivity|]. split; [exact E|]. split; [reflexivity|].
  destruct (save_cases file userData s)
    as [(e & Ho & Ht)|[(e & Ho & Ht)|(Ho & Ht)]].
  - left. exists e. rewrite (bind_Throw _ _ _ _ Ho). cbn [outcome trace].
    auto.
  - right. left. exists e. rewrite (bind_Throw _ _ _ _ Ho).
    cbn [outcome trace]. auto.
  - right. right. rewrite (bind_Ret _ _ _ _ Ho). unfold after.
    cbn [outcome trace]. rewrite Ht. split; reflexivity.
Qed.

Lemma finish_exit_free outputFile dryRun userData (s : S) :
  Forall exit_free
    (trace ((export_users host outputFile dryRun userData;;
             log.success [PText "Migration script completed successfully"]) s)).
Proof.
  destruct (finish_cases outputFile dryRun userData s)
    as [[_ ->]|(file & saving & _ & _ & -> & [(e & _ & ->)|[(e & _ & ->)|[_ ->]]])];
    try (repeat constructor; fail).
  apply Forall_app. split; [|repeat constructor].
  eapply Forall_impl; [apply summary_lines_console|].
  intros [] H; simpl in *; [exact I|discriminate..].
Qed.

Lemma finish_tidy outputFile dryRun userData (s : S) :
  tidy ((export_users host outputFile dryRun userData;;
         log.success [PText "Migration script completed successfully"]) s).
Proof.
  unfold tidy.
  destruct (finish_cases outputFile dryRun userData s)
    as [[-> ->]|(file & saving & _ & _ & Hs
                 & [(e & -> & ->)|[(e & -> & ->)|[-> ->]]])]; try subst saving.
  - apply console_not_failed, Forall_app.
    split; [apply summary_lines_console | repeat constructor].
  - exists [Console Linfo [PText ("Saving users to " +:+ file +:+ "...")]],
      [Mkdir (Path.dirname file) false].
    repeat split; repeat constructor.
  - exists [Console Linfo [PText ("Saving users to " +:+ file +:+ "...")];
            Mkdir (Path.dirname file) true],
      [WriteFile file userData false].
    repeat split; repeat constructor.
  - repeat constructor.
Qed.

(** A throw at this stage leaves no written file behind. *)
Lemma finish_no_partial_file outputFile dryRun userData (s : S) e :
  let r := (export_users host outputFile dryRun userData;;
            log.success [PText "Migration script completed successfully"]) s in
  outcome r = Throw e -> files_written (trace r) = [].
Proof.
  intros r. subst r.
  destruct (finish_cases outputFile dryRun userData s)
    as [[-> _]|(file & saving & _ & _ & Hs
                & [(e' & _ & ->)|[(e' & _ & ->)|[-> _]]])]; subst;
    try discriminate; intros _; reflexivity.
Qed.

End ExportDecision.


(** ** Whole runs *)
Section WholeRun.

Context {S : Type} (host : Host S).

Lemma exit_free_Invariant :
  Invariant (fun A (r : Run S A) => Forall exit_free (trace r)).
Proof.
  apply emits_Invariant; [intros [] H; simpl in *; try discriminate|]; constructor.
Qed.

Lemma fs_free_Invariant :
  Invariant (fun A (r : Run S A) => Forall fs_free (trace r)).
Proof.
  apply emits_Invariant; [intros [] H; simpl in *; try discriminate|]; constructor.
Qed.

Lemma exit_code_free (tr rest : list Event) :
  Forall exit_free tr -> exit_code (tr ++ rest) = exit_code rest.
Proof.
  induction 1 as [|e tr He _ IH]; [reflexivity|].
  destruct e; simpl in *; try exact IH. contradiction.
Qed.

Lemma fs_free_fs_calls (tr : list Event) :
  Forall fs_free tr -> fs_calls tr = [] /\ files_written tr = [].
Proof.
  induction 1 as [|e tr He _ [IH1 IH2]]; [split; reflexivity|].
  destruct e; simpl in *; try contradiction; auto.
Qed.

Lemma files_written_fs_calls (tr : list Event) :
  fs_calls tr = [] -> files_written tr = [].
Proof.
  induction tr as [|e tr IH]; [reflexivity|].
  destruct e as [| | |f c [|]|]; simpl; try discriminate; auto.
Qed.

Lemma main_try_exit_free env argv fuel s :
  Forall exit_free (trace (main_try host env argv fuel s)).
Proof.
  unfold main_try.
  apply (inv_bind _ exit_free_Invariant).
  - apply (collect_inv host _ exit_free_Invariant).
  - intros ud s'. apply finish_exit_free.
Qed.

Lemma main_try_tidy env argv fuel s : tidy (main_try host env argv fuel s).
Proof.
  unfold main_try. apply tidy_bind.
  - apply (collect_inv host _ tidy_Invariant).
  - intros ud s'. apply finish_tidy.
Qed.

(** No partial export: a run whose [try] block throws has written no file. *)
Lemma main_try_no_partial_file env argv fuel s e :
  outcome (main_try host env argv fuel s) = Throw e ->
  files_written (trace (main_try host env argv fuel s)) = [].
Proof.
  unfold main_try.
  set (outputFile := resolve_outputFile (Argv.outputFile argv)).
  set (dryRun := Argv.dryRun argv || negb (truthy outputFile)).
  pose proof (collect_inv host _ fs_free_Invariant env argv outputFile dryRun
                fuel s) as Hc.
  apply fs_free_fs_calls in Hc as [_ Hc].
  set (c := collect host env argv outputFile dryRun fuel s) in *.
  unfold bind. fold c. clearbody c.
  destruct (outcome c) as [ud|e'|]; cbn [outcome trace after];
    try (intros _; exact Hc).
  intros H. rewrite files_written_app, Hc.
  apply (finish_no_partial_file host outputFile dryRun ud (final c) e H).
Qed.

(** Without an output file, or with [--dryRun], the [try] block makes no
    file system call. *)
Lemma main_try_dry env argv fuel s :
  truthy (Argv.outputFile argv) = false \/ Argv.dryRun argv = true ->
  Forall fs_free (trace (main_try host env argv fuel s)).
Proof.
  intros Hdry. unfold main_try.
  apply (inv_bind _ fs_free_Invariant).
  - apply (collect_inv host _ fs_free_Invariant).
  - intros ud s'. rewrite (export_users_dry host _ _ ud Hdry).
    rewrite (bind_run_eq _ _ s' tt s' _ (Ret tt) s' [completed]
               (log_summary_run _ ud s') eq_refl).
    cbn [trace]. apply Forall_app. split; [|repeat constructor].
    eapply Forall_impl; [apply summary_lines_console|].
    intros [] H; simpl in *; [exact I|discriminate..].
Qed.

(** The two ways a run ends: the [try] block returns and the status is
    0, or it throws and the handler logs the error and exits with 1. *)
Lemma run_cases env argv fuel s code tr :
  run host env argv fuel s = Some (code, tr) ->
  let body := main_try host env argv fuel s in
  (outcome body = Ret tt /\ code = 0 /\ tr = trace body)
  \/ (exists e,
         outcome body = Throw e /\ code = 1
         /\ tr = trace body
                 ++ [Console Lerror [PText "Error in migration script:";
                                     PError e];
                     Exit 1]).
Proof.
  intros Hrun body.
  pose proof (main_try_exit_free env argv fuel s) as Hfree.
  unfold run, main, try_catch in Hrun.
  fold body in Hrun, Hfree. clearbody body.
  destruct (outcome body) as [[]|e|] eqn:E.
  - rewrite E in Hrun. injection Hrun as <- <-.
    left. split; [reflexivity|]. split; [|reflexivity].
    rewrite <- (app_nil_r (trace body)). apply exit_code_free, Hfree.
  - right. exists e. unfold after in Hrun. cbn in Hrun.
    injection Hrun as <- <-.
    split; [reflexivity|]. split; [|reflexivity].
    rewrite (exit_code_free _ _ Hfree). reflexivity.
  - rewrite E in Hrun. discriminate.
Qed.

(** An error in the [try] block always ends the run, with status 1. *)
Lemma run_Throw env argv fuel s e :
  outcome (main_try host env argv fuel s) = Throw e ->
  run host env argv fuel s
  = Some (1, trace (main_try host env argv fuel s)
             ++ [Console Lerror [PText "Error in migration script:";
                                 PError e];
                 Exit 1]).
Proof.
  intros Ho.
  pose proof (main_try_exit_free env argv fuel s) as Hfree.
  unfold run, main, try_catch. rewrite Ho. unfold after.
  cbn [outcome trace log.error process_exit emit bind after final app].
  rewrite (exit_code_free _ _ Hfree). reflexivity.
Qed.

Lemma required_Ret value message (s : S) x :
  outcome (required value message s) = Ret x ->
  value = Some x /\ final (required value message s) = s.
Proof.
  destruct value as [y|]; simpl; [|discriminate].
  destruct (truthy_string y); simpl; [|discriminate].
  intros [= ->]. auto.
Qed.

Lemma debug_final v line (s : S) : final (log.debug v line s) = s.
Proof. apply debug_outcome. Qed.

(** What a successful [collect] went through: the envelope holds what
    the two fetches returned, in this run. *)
Lemma collect_Ret env argv outputFile dryRun fuel s userData :
  outcome (collect host env argv outputFile dryRun fuel s) = Ret userData ->
  let md := UserData.metadata userData in
  let verbose := Argv.verbose argv in
  let date := Argv.pendingUserDate argv in
  exists username apiKey token,
    env !! "USERNAME" = Some username
    /\ env !! "API_KEY" = Some apiKey
    /\ env !! "GROUP_ID" = Some (UserData.groupId md)
    /\ env !! "APP_ID" = Some (UserData.appId md)
    /\ outcome (getAPIToken host username apiKey verbose s) = Ret token
    /\ let s1 := final (getAPIToken host username apiKey verbose s) in
       let fetchUsers :=
         getUsers host token (UserData.groupId md) (UserData.appId md)
           verbose fuel s1 in
       let fetchPending :=
         getPendingUsers host token (UserData.groupId md) (UserData.appId md)
           date verbose fuel (final fetchUsers) in
       outcome fetchUsers = Ret (UserData.users userData)
       /\ outcome fetchPending = Ret (UserData.pendingUsers userData)
       /\ UserData.totalUsers md = length (UserData.users userData)
       /\ UserData.totalPendingUsers md
          = length (UserData.pendingUsers userData)
       /\ UserData.pendingUserDate md = date
       /\ UserData.exportDate md = now_iso host (final fetchPending).
Proof.
  unfold collect. intros H.
  apply bind_Ret_inv in H as (x0 & _ & _ & H).
  cbn [final log.info emit] in H.
  apply bind_Ret_inv in H as (username & Hu & _ & H).
  apply required_Ret in Hu as [Hu Hf]. rewrite Hf in H. clear Hf.
  apply bind_Ret_inv in H as (apiKey & Hk & _ & H).
  apply required_Ret in Hk as [Hk Hf]. rewrite Hf in H. clear Hf.
  apply bind_Ret_inv in H as (groupId & Hg & _ & H).
  apply required_Ret in Hg as [Hg Hf]. rewrite Hf in H. clear Hf.
  apply bind_Ret_inv in H as (appId & Ha & _ & H).
  apply required_Ret in Ha as [Ha Hf]. rewrite Hf in H. clear Hf.
  apply bind_Ret_inv in H as (x1 & _ & _ & H).
  match type of H with
  | context [final ((if ?c then _ else _) s)] =>
      replace (final ((if c then throw (Error "pendingUserDate must be in YYYY-MM-DD format") else ret tt) s))
        with s in H by (destruct c; reflexivity)
  end.
  do 8 (apply bind_Ret_inv in H as (? & _ & _ & H); rewrite debug_final in H).
  apply bind_Ret_inv in H as (token & Ht & _ & H).
  apply bind_Ret_inv in H as (unit2 & _ & _ & H). cbn [final log.success emit] in H.
  apply bind_Ret_inv in H as (unit3 & _ & _ & H). cbn [final log.info emit] in H.
  apply bind_Ret_inv in H as (users & Husers & _ & H).
  apply bind_Ret_inv in H as (unit4 & _ & _ & H). cbn [final log.success emit] in H.
  apply bind_Ret_inv in H as (unit5 & _ & _ & H). cbn [final log.info emit] in H.
  apply bind_Ret_inv in H as (pendingUsers & Hpending & _ & H).
  apply bind_Ret_inv in H as (unit6 & _ & _ & H). cbn [final log.success emit] in H.
  apply bind_Ret_inv in H as (exportDate & Hnow & _ & H).
  cbn [final now outcome] in Hnow, H. injection Hnow as <-.
  cbn [ret outcome] in H. injection H as <-.
  exists username, apiKey, token. cbn [UserData.metadata UserData.groupId
    UserData.appId UserData.users UserData.pendingUsers UserData.totalUsers
    UserData.totalPendingUsers UserData.pendingUserDate UserData.exportDate].
  repeat split; assumption || reflexivity.
Qed.

Lemma silent_of_console (d : list Event) :
  all_console d -> Forall (fun e => silent e = true) d.
Proof.
  intros H. eapply Forall_impl; [exact H|].
  intros [] Hc; simpl in *; congruence.
Qed.

Lemma silent_not_failed (e : Event) : silent e = true -> failed e = false.
Proof. destruct e; simpl; congruence. Qed.

(** The shape of a tidy throw, read as a property of the trace. *)
Lemma tidy_stops_at_failure (d1 d2 extra : list Event) :
  Forall (fun e => failed e = false) d1 ->
  all_console (tail d2) ->
  Forall (fun e => silent e = true) extra ->
  stops_at_failure ((d1 ++ d2) ++ extra).
Proof.
  intros H1 H2 H3 pre ev post Heq Hfail.
  rewrite <- app_assoc in Heq.
  assert (Htail : Forall (fun e => silent e = true) (tail (d2 ++ extra))).
  { destruct d2 as [|x d2]; simpl in *.
    - destruct H3; simpl; [constructor|assumption].
    - apply Forall_app. split; [apply silent_of_console, H2 | exact H3]. }
  revert pre Heq. induction H1 as [|x d1 Hx _ IH]; intros pre Heq.
  - simpl in Heq. destruct pre as [|y pre]; simpl in Heq.
    + rewrite Heq in Htail. exact Htail.
    + rewrite Heq in Htail. simpl in Htail.
      apply Forall_app in Htail as [_ Htail].
      apply Forall_cons in Htail as [Hev _].
      apply silent_not_failed in Hev. congruence.
  - destruct pre as [|y pre]; simpl in Heq; injection Heq as -> Heq.
    + congruence.
    + eapply IH. exact Heq.
Qed.

End WholeRun.

(** C7: an error that leaves the [try] block of [main], from wherever
    it was raised, always ends the run with status 1.  And a run ends in
    one of two ways.  Either the [try] block returns: the status is 0 and
    no call has failed.  Or an error reaches the [catch] of [main]: it is
    logged there, the status is 1, no file has been written, and after a
    failed call the trace holds nothing but console output and the exit,
    so nothing is tried again. *)
Theorem C7_errors_are_fatal {S} (host : Host S) (env : gmap string string)
    (argv : Argv.t) (fuel : nat) (s : S) :
  let body := main_try host env argv fuel s in
  (forall e, outcome body = Throw e ->
             exists tr, run host env argv fuel s = Some (1, tr))
  /\ forall code tr,
       run host env argv fuel s = Some (code, tr) ->
       (code = 0
        /\ outcome body = Ret tt
        /\ tr = trace body
        /\ Forall (fun e => failed e = false) tr)
       \/ (code = 1
           /\ exists e,
                outcome body = Throw e
                /\ tr = trace body
                        ++ [Console Lerror
                              [PText "Error in migration script:"; PError e];
                            Exit 1]
                /\ files_written tr = []
                /\ stops_at_failure tr).
Proof.
  intros body. split.
  { intros e Ho. eexists. apply run_Throw, Ho. }
  intros code tr Hrun.
  pose proof (main_try_tidy host env argv fuel s) as Htidy.
  pose proof (main_try_no_partial_file host env argv fuel s) as Hfiles.
  destruct (run_cases host env argv fuel s code tr Hrun)
    as [(Ho & -> & ->)|(e & Ho & -> & ->)]; subst body.
  - left. unfold tidy in Htidy. rewrite Ho in Htidy. auto.
  - right. split; [reflexivity|]. exists e.
    split; [exact Ho|]. split; [reflexivity|]. split.
    + rewrite files_written_app, (Hfiles e Ho). reflexivity.
    + unfold tidy in Htidy. rewrite Ho in Htidy.
      destruct Htidy as (d1 & d2 & -> & H1 & H2).
      apply tidy_stops_at_failure; try assumption. repeat constructor.
Qed.

(** The second page request of the scripted server fails with status
    500: the run exits with 1 after exactly that request, writes nothing,
    and the one success is the complete export of the example. *)
Lemma C7_errors_are_fatal_witness :
  let broken :=
    {| Scripted.logins := [inr "token"];
       Scripted.user_pages :=
         [inr [Scripted.user 1 "a@x.com" 1606857105];
          inl (AxiosError (Some {| status := 500;
                                   statusText := "Internal Server Error";
                                   response_data := "oops" |}))];
       Scripted.pending_pages := [];
       Scripted.mkdir_answer := inr tt;
       Scripted.writeFile_answer := inr tt |} in
  match run Scripted.host Scripted.env (Scripted.argv (Some "out.json")) 5
          broken with
  | Some (code, tr) =>
      code = 1 /\ files_written tr = [] /\ stops_at_failure tr
      /\ length (requests tr) = 3%nat
  | None => False
  end
  /\ match run Scripted.host Scripted.env (Scripted.argv (Some "out.json")) 5
             Scripted.example with
     | Some (code, tr) =>
         code = 0 /\ Forall (fun e => failed e = false) tr
         /\ List.map fst (files_written tr) = ["output/out.json"]
     | None => False
     end.
Proof.
  intros broken. split.
  - assert (Hobs : option_map (fun r => (fst r, length (requests (snd r))))
                     (run Scripted.host Scripted.env
                        (Scripted.argv (Some "out.json")) 5 broken)
                   = Some (1, 3%nat))
      by (vm_compute; reflexivity).
    destruct (run Scripted.host Scripted.env (Scripted.argv (Some "out.json"))
                5 broken) as [[code tr]|] eqn:Hrun; [|discriminate].
    injection Hobs as -> Hreqs.
    destruct (proj2 (C7_errors_are_fatal Scripted.host Scripted.env
                       (Scripted.argv (Some "out.json")) 5%nat broken)
                1 tr Hrun)
      as [(Hcode & _)|(_ & e & _ & _ & Hfiles & Hstop)]; [discriminate|].
    auto.
  - assert (Hobs : option_map
                     (fun r => (fst r, List.map fst (files_written (snd r))))
                     (run Scripted.host Scripted.env
                        (Scripted.argv (Some "out.json")) 5 Scripted.example)
                   = Some (0, ["output/out.json"]))
      by (vm_compute; reflexivity).
    destruct (run Scripted.host Scripted.env (Scripted.argv (Some "out.json"))
                5 Scripted.example) as [[code tr]|] eqn:Hrun; [|discriminate].
    injection Hobs as -> Hfiles.
    destruct (proj2 (C7_errors_are_fatal Scripted.host Scripted.env
                       (Scripted.argv (Some "out.json")) 5%nat
                       Scripted.example) 0 tr Hrun)
      as [(_ & _ & _ & Hok)|(Hcode & _)]; [|discriminate].
    auto.
Defined.


(** * Further properties of the code *)

(** ** Single requests *)

(** X1: [getAPIToken] sends exactly one request: a POST to the login
    address of the Atlas admin API, with the two JSON headers and with
    the user name and the API key as its body.  It makes no file system
    call.  Its result is the answer of the server: the token on success,
    and on failure the very error of that call, thrown again after
    logging, whatever the verbosity and the kind of error. *)
Theorem X1_getAPIToken_single_login {S} (host : Host S)
    (username apiKey : string) (v : bool) (s : S) :
  let login :=
    {| method := POST;
       url := "https://services.cloud.mongodb.com/api/admin/v3.0/auth/providers/mongodb-cloud/login";
       headers := [("Content-Type", "application/json");
                   ("Accept", "application/json")];
       body := [("username", username); ("apiKey", apiKey)] |} in
  let r := getAPIToken host username apiKey v s in
  let answer := post_login host s login in
  outcome r
  = match fst answer with inl e => Throw e | inr token => Ret token end
  /\ final r = snd answer
  /\ requests (trace r) = [login]
  /\ fs_calls (trace r) = [].
Proof.
  intros login r answer.
  destruct (guarded_call_run
              (fun s0 => post_login host s0 (login_request username apiKey))
              (login_request username apiKey) v
              [PText "Authenticating with MongoDB Atlas..."]
              (fun _ => [PText "Authentication successful"])
              "Authentication failed:" "Error getting API token:" s)
    as (Ho & Hf & Hq).
  split; [exact Ho|]. split; [exact Hf|]. split; [exact Hq|].
  apply fs_free_fs_calls. apply (getAPIToken_inv host _ fs_free_Invariant).
Qed.

(** X2: [listApps] sends exactly one request, a GET of the apps of the
    group with the bearer token as its only header, and its result is the
    answer of the server: the list on success, the error of the call
    thrown again on failure. *)
Theorem X2_listApps_single_request {S App}
    (get_apps : S -> Request -> (JsError + list App) * S)
    (tok g : string) (v : bool) (s : S) :
  let r := listApps get_apps tok g v s in
  let answer := get_apps s (apps_request tok g) in
  outcome r = match fst answer with inl e => Throw e | inr apps => Ret apps end
  /\ final r = snd answer
  /\ requests (trace r) = [apps_request tok g]
  /\ url (apps_request tok g) = api +:+ "/groups/" +:+ g +:+ "/apps"
  /\ headers (apps_request tok g) = [("Authorization", "Bearer " +:+ tok)].
Proof.
  intros r answer.
  destruct (guarded_call_run
              (fun s0 => get_apps s0 (apps_request tok g))
              (apps_request tok g) v
              [PText ("Listing apps from: " +:+ url (apps_request tok g))]
              (fun data : list App =>
                 [PText ("Retrieved " +:+ pretty (length data) +:+ " apps")])
              "Error listing apps:" "Error listing apps:" s)
    as (Ho & Hf & Hq).
  repeat split; assumption.
Qed.


(** ** The requests of a fetch *)
Section FetchRequests.

Context {S : Type} (host : Host S).

Lemma requests_bind {A B} (m : M S A) (k : A -> M S B) s :
  requests (trace (bind m k s))
  = requests (trace (m s))
    ++ match outcome (m s) with
       | Ret a => requests (trace (k a (final (m s))))
       | _ => []
       end.
Proof.
  unfold bind. destruct (outcome (m s)); cbn [trace after];
    rewrite ?requests_app, ?app_nil_r; reflexivity.
Qed.

Lemma getUsers_loop_requests tok g a v fuel :
  forall users returned s,
    let reqs :=
      requests (trace (getUsers_loop host tok g a v fuel users returned s)) in
    Forall (is_users_request tok g a) reqs /\ (length reqs <= fuel)%nat.
Proof.
  induction fuel as [|fuel IH]; intros users [|first others] s;
    cbn [getUsers_loop]; try (split; [constructor | simpl; lia]).
  cbv zeta. rewrite requests_bind.
  destruct (getUsersFromAppServices_run host tok g a v
              (Some (RawUser._id (List.last others first))) s)
    as (_ & _ & ->).
  destruct (outcome (getUsersFromAppServices host tok g a v _ s)) as [page|e|].
  - destruct (IH (users ++ page) page
                (final (getUsersFromAppServices host tok g a v
                          (Some (RawUser._id (List.last others first))) s)))
      as [IHf IHl].
    split; [constructor; [eexists; reflexivity | exact IHf]|].
    cbn [app length]. cbv zeta in IHl. lia.
  - split; [repeat constructor; eexists; reflexivity | simpl; lia].
  - split; [repeat constructor; eexists; reflexivity | simpl; lia].
Qed.

Lemma getPendingUsers_loop_requests tok g a v fuel :
  forall users returned s,
    let reqs :=
      requests
        (trace (getPendingUsers_loop host tok g a v fuel users returned s)) in
    Forall (is_pending_users_request tok g a) reqs
    /\ (length reqs <= fuel)%nat.
Proof.
  induction fuel as [|fuel IH]; intros users [|first others] s;
    cbn [getPendingUsers_loop]; try (split; [constructor | simpl; lia]).
  cbv zeta.
  match goal with |- context [(log.debug v ?line;; ?m) s] =>
    destruct (debug_then v line m s) as (_ & _ & ->) end.
  rewrite requests_bind.
  destruct (getPendingUsersFromAppServices_run host tok g a v
              (Some (PendingUser._id (List.last others first))) s)
    as (_ & _ & ->).
  destruct (outcome (getPendingUsersFromAppServices host tok g a v _ s))
    as [page|e|].
  - destruct (IH (users ++ page) page
                (final (getPendingUsersFromAppServices host tok g a v
                          (Some (PendingUser._id (List.last others first)))
                          s)))
      as [IHf IHl].
    split; [constructor; [eexists; reflexivity | exact IHf]|].
    cbn [app length]. cbv zeta in IHl. lia.
  - split; [repeat constructor; eexists; reflexivity | simpl; lia].
  - split; [repeat constructor; eexists; reflexivity | simpl; lia].
Qed.

Lemma getUsers_requests tok g a v fuel s :
  exists rest,
    requests (trace (getUsers host tok g a v fuel s))
    = users_request tok g a (IdNum 0) :: rest
    /\ Forall (is_users_request tok g a) rest
    /\ (length rest <= fuel)%nat.
Proof.
  unfold getUsers.
  rewrite try_rethrow_requests by apply (log_rethrows (fun err => _)).
  match goal with |- context [(log.debug v ?line;; ?m) s] =>
    destruct (debug_then v line m s) as (_ & _ & ->) end.
  rewrite requests_bind.
  destruct (getUsersFromAppServices_run host tok g a v None s)
    as (_ & _ & ->).
  cbn [default from_option].
  destruct (outcome (getUsersFromAppServices host tok g a v None s))
    as [first|e|]; cbn [app];
    try (exists []; split; [reflexivity|]; split; [constructor|simpl; lia]).
  rewrite requests_bind.
  destruct (getUsers_loop_requests tok g a v fuel ([] ++ first) first
              (final (getUsersFromAppServices host tok g a v None s)))
    as [Hf Hl].
  cbv zeta in Hf, Hl.
  set (s1 := final (getUsersFromAppServices host tok g a v None s)) in *.
  cbn [app] in Hf, Hl |- *.
  destruct (outcome (getUsers_loop host tok g a v fuel first first s1))
    as [users|e|].
  - cbv beta.
    match goal with |- context [(log.debug v ?line;; ?m) ?s2] =>
      destruct (debug_then v line m s2) as (_ & _ & ->) end.
    cbn [ret trace requests]. rewrite app_nil_r. eauto.
  - rewrite app_nil_r. eauto.
  - rewrite app_nil_r. eauto.
Qed.

Lemma getPendingUsers_requests tok g a date v fuel s :
  exists rest,
    requests (trace (getPendingUsers host tok g a date v fuel s))
    = pending_users_request tok g a (IdNum 0) :: rest
    /\ Forall (is_pending_users_request tok g a) rest
    /\ (length rest <= fuel)%nat.
Proof.
  unfold getPendingUsers.
  rewrite try_rethrow_requests by apply (log_rethrows (fun err => _)).
  match goal with |- context [(log.debug v ?line;; ?m) s] =>
    destruct (debug_then v line m s) as (_ & _ & ->) end.
  rewrite requests_bind.
  destruct (getPendingUsersFromAppServices_run host tok g a v None s)
    as (_ & _ & ->).
  cbn [default from_option].
  destruct (outcome (getPendingUsersFromAppServices host tok g a v None s))
    as [first|e|]; cbn [app];
    try (exists []; split; [reflexivity|]; split; [constructor|simpl; lia]).
  rewrite requests_bind.
  destruct (getPendingUsers_loop_requests tok g a v fuel ([] ++ first) first
              (final (getPendingUsersFromAppServices host tok g a v None s)))
    as [Hf Hl].
  cbv zeta in Hf, Hl.
  set (s1 := final (getPendingUsersFromAppServices host tok g a v None s)) in *.
  cbn [app] in Hf, Hl |- *.
  destruct (outcome (getPendingUsers_loop host tok g a v fuel first first s1))
    as [users|e|].
  - cbv beta.
    match goal with |- context [(log.debug v ?line;; ?m) ?s2] =>
      destruct (debug_then v line m s2) as (_ & _ & ->) end.
    match goal with |- context [(log.debug v ?line;; ?m) ?s2] =>
      destruct (debug_then v line m s2) as (_ & _ & ->) end.
    rewrite (console_requests _ (lift_console _ _)), app_nil_r. eauto.
  - rewrite app_nil_r. eauto.
  - rewrite app_nil_r. eauto.
Qed.

End FetchRequests.

(** What a page request looks like on the wire. *)
Lemma users_request_wire tok g a req :
  is_users_request tok g a req ->
  method req = GET
  /\ headers req = [("Authorization", "Bearer " +:+ tok);
                    ("Accept", "application/json")]
  /\ body req = []
  /\ (url req
      = "https://services.cloud.mongodb.com/api/admin/v3.0/groups/" +:+ g
        +:+ "/apps/" +:+ a +:+ "/users"
      \/ exists cursor,
           url req
           = "https://services.cloud.mongodb.com/api/admin/v3.0/groups/"
             +:+ g +:+ "/apps/" +:+ a +:+ "/users" +:+ "?after="
             +:+ cursor).
Proof.
  intros [lastId ->]. repeat (split; [reflexivity|]).
  unfold users_request, userQuery. cbn [url].
  destruct (Id_is_zero lastId); [left | right; eexists]; reflexivity.
Qed.

Lemma pending_users_request_wire tok g a req :
  is_pending_users_request tok g a req ->
  method req = GET
  /\ headers req = [("Authorization", "Bearer " +:+ tok)]
  /\ body req = []
  /\ (url req
      = "https://services.cloud.mongodb.com/api/admin/v3.0/groups/" +:+ g
        +:+ "/apps/" +:+ a +:+ "/user_registrations/pending_users"
      \/ exists cursor,
           url req
           = "https://services.cloud.mongodb.com/api/admin/v3.0/groups/"
             +:+ g +:+ "/apps/" +:+ a
             +:+ "/user_registrations/pending_users" +:+ "?after="
             +:+ cursor).
Proof.
  intros [lastId ->]. repeat (split; [reflexivity|]).
  unfold pending_users_request, userQuery. cbn [url].
  destruct (Id_is_zero lastId); [left | right; eexists]; reflexivity.
Qed.

(** X5: on every host and however the fetch ends, every request sent by
    [getUsers] is a GET without body of the users address of the given
    group and app, [.../groups/g/apps/a/users], alone or followed by
    [?after=] and a cursor, with the given token as bearer and the JSON
    [Accept] header: first the one without cursor, then at most one per
    loop iteration.  The same holds of [getPendingUsers] and the address
    [.../user_registrations/pending_users], whose requests carry the
    bearer token as their only header.  Neither sends anything else. *)
Theorem X5_fetch_requests_stay_on_endpoint {S} (host : Host S)
    (tok g a date : string) (v : bool) (fuel : nat) (s : S) :
  let address (resource : string) :=
    "https://services.cloud.mongodb.com/api/admin/v3.0/groups/" +:+ g
    +:+ "/apps/" +:+ a +:+ resource in
  let page_request (resource : string) (extra : list (string * string))
      (req : Request) : Prop :=
    method req = GET
    /\ headers req = ("Authorization", "Bearer " +:+ tok) :: extra
    /\ body req = []
    /\ (url req = address resource
        \/ exists cursor,
             url req = address (resource +:+ "?after=" +:+ cursor)) in
  (exists rest,
      requests (trace (getUsers host tok g a v fuel s))
      = {| method := GET;
           url := address "/users";
           headers := [("Authorization", "Bearer " +:+ tok);
                       ("Accept", "application/json")];
           body := [] |} :: rest
      /\ Forall (page_request "/users" [("Accept", "application/json")]) rest
      /\ (length rest <= fuel)%nat)
  /\ (exists rest,
         requests (trace (getPendingUsers host tok g a date v fuel s))
         = {| method := GET;
              url := address "/user_registrations/pending_users";
              headers := [("Authorization", "Bearer " +:+ tok)];
              body := [] |} :: rest
         /\ Forall (page_request "/user_registrations/pending_users" []) rest
         /\ (length rest <= fuel)%nat).
Proof.
  intros address page_request. split.
  - destruct (getUsers_requests host tok g a v fuel s)
      as (rest & Hq & Hrest & Hlen).
    exists rest. split; [exact Hq|]. split; [|exact Hlen].
    eapply Forall_impl; [exact Hrest|].
    intros req Hreq. exact (users_request_wire tok g a req Hreq).
  - destruct (getPendingUsers_requests host tok g a date v fuel s)
      as (rest & Hq & Hrest & Hlen).
    exists rest. split; [exact Hq|]. split; [|exact Hlen].
    eapply Forall_impl; [exact Hrest|].
    intros req Hreq. exact (pending_users_request_wire tok g a req Hreq).
Qed.


(** ** A fetch that fails on the way *)
Section FetchFailure.

Context {S : Type} (host : Host S).

Lemma bind_Throw_obs {A B} (m : M S A) (k : A -> M S B) s e :
  outcome (m s) = Throw e ->
  outcome (bind m k s) = Throw e
  /\ final (bind m k s) = final (m s)
  /\ requests (trace (bind m k s)) = requests (trace (m s)).
Proof. intros H. rewrite (bind_Throw _ _ _ _ H). auto. Qed.

Lemma try_catch_Throw_trace {A} (m : M S A) (h : JsError -> M S A) s e :
  outcome (m s) = Throw e ->
  trace (try_catch m h s) = trace (m s) ++ trace (h e (final (m s))).
Proof. intros H. rewrite (try_catch_Throw _ _ _ _ H). reflexivity. Qed.

Lemma getUsers_loop_fails tok g a v pages :
  forall returned users s s' fuel e,
    returned <> [] ->
    Forall (fun page => page <> []) pages ->
    Answers (get_users host) s (List.map inr pages ++ [inl e]) s' ->
    (length pages < fuel)%nat ->
    let r := getUsers_loop host tok g a v fuel users returned s in
    outcome r = Throw e /\ final r = s'
    /\ length (requests (trace r)) = Datatypes.S (length pages).
Proof.
  induction pages as [|page pages IH];
    intros returned users s s' fuel e Hret Hne HA Hfuel r; subst r;
    (destruct returned as [|first others]; [contradiction|]);
    (destruct fuel as [|fuel]; [simpl in Hfuel; lia|]);
    cbn [getUsers_loop];
    destruct (getUsersFromAppServices_run host tok g a v
                (Some (RawUser._id (List.last others first))) s)
      as (Ho & Hf & Hq);
    inversion HA as [|? ? s1 ? ? Hnext HA']; subst;
    rewrite Hnext in Ho, Hf; cbn [fst snd] in Ho, Hf.
  - assert (Hs : s1 = s') by (inversion HA'; subst; reflexivity).
    subst s'.
    match goal with |- context [bind ?m ?k s] =>
      destruct (bind_Throw_obs m k s e Ho) as (-> & -> & ->) end.
    rewrite Hf, Hq. auto.
  - apply Forall_cons in Hne as [Hpage Hne].
    match goal with |- context [bind ?m ?k s] =>
      destruct (bind_obs m k s page Ho) as (-> & -> & ->) end.
    rewrite Hf, Hq.
    destruct (IH page (users ++ page) s1 s' fuel e Hpage Hne HA')
      as (IHo & IHf & IHq); [simpl in Hfuel; lia|].
    rewrite IHo, IHf. cbn [app length]. rewrite IHq. auto.
Qed.

Lemma getPendingUsers_loop_fails tok g a v pages :
  forall returned users s s' fuel e,
    returned <> [] ->
    Forall (fun page => page <> []) pages ->
    Answers (get_pending_users host) s (List.map inr pages ++ [inl e]) s' ->
    (length pages < fuel)%nat ->
    let r := getPendingUsers_loop host tok g a v fuel users returned s in
    outcome r = Throw e /\ final r = s'
    /\ length (requests (trace r)) = Datatypes.S (length pages).
Proof.
  induction pages as [|page pages IH];
    intros returned users s s' fuel e Hret Hne HA Hfuel r; subst r;
    (destruct returned as [|first others]; [contradiction|]);
    (destruct fuel as [|fuel]; [simpl in Hfuel; lia|]);
    cbn [getPendingUsers_loop];
    match goal with |- context [(log.debug v ?line;; ?m) s] =>
      destruct (debug_then v line m s) as (-> & -> & ->) end;
    destruct (getPendingUsersFromAppServices_run host tok g a v
                (Some (PendingUser._id (List.last others first))) s)
      as (Ho & Hf & Hq);
    inversion HA as [|? ? s1 ? ? Hnext HA']; subst;
    rewrite Hnext in Ho, Hf; cbn [fst snd] in Ho, Hf.
  - assert (Hs : s1 = s') by (inversion HA'; subst; reflexivity).
    subst s'.
    match goal with |- context [bind ?m ?k s] =>
      destruct (bind_Throw_obs m k s e Ho) as (-> & -> & ->) end.
    rewrite Hf, Hq. auto.
  - apply Forall_cons in Hne as [Hpage Hne].
    match goal with |- context [bind ?m ?k s] =>
      destruct (bind_obs m k s page Ho) as (-> & -> & ->) end.
    rewrite Hf, Hq.
    destruct (IH page (users ++ page) s1 s' fuel e Hpage Hne HA')
      as (IHo & IHf & IHq); [simpl in Hfuel; lia|].
    rewrite IHo, IHf. cbn [app length]. rewrite IHq. auto.
Qed.

Lemma getUsers_fails tok g a v pages s s' fuel e :
  Forall (fun page => page <> []) pages ->
  Answers (get_users host) s (List.map inr pages ++ [inl e]) s' ->
  (length pages <= fuel)%nat ->
  let r := getUsers host tok g a v fuel s in
  outcome r = Throw e /\ final r = s'
  /\ length (requests (trace r)) = Datatypes.S (length pages)
  /\ In (Console Lerror [PText "Error getting all users:"; PError e])
       (trace r).
Proof.
  intros Hne HA Hfuel r. subst r. unfold getUsers.
  match goal with |- context [try_catch ?m ?h s] =>
    assert (Hbody : outcome (m s) = Throw e /\ final (m s) = s'
                    /\ length (requests (trace (m s)))
                       = Datatypes.S (length pages));
    [|destruct Hbody as (Bo & Bf & Bq);
      rewrite try_rethrow_outcome, try_rethrow_final, try_rethrow_requests
        by apply (log_rethrows (fun err => _));
      repeat split; try assumption;
      rewrite (try_catch_Throw_trace m h s e Bo);
      apply in_or_app; right; left; reflexivity]
  end.
  match goal with |- context [(log.debug v ?line;; ?m) s] =>
    destruct (debug_then v line m s) as (-> & -> & ->) end.
  destruct (getUsersFromAppServices_run host tok g a v None s)
    as (Ho & Hf & Hq).
  destruct pages as [|page pages];
    inversion HA as [|? ? s1 ? ? Hfirst HA']; subst;
    rewrite Hfirst in Ho, Hf; cbn [fst snd] in Ho, Hf.
  - assert (Hs : s1 = s') by (inversion HA'; subst; reflexivity).
    subst s'.
    match goal with |- context [bind ?m ?k s] =>
      destruct (bind_Throw_obs m k s e Ho) as (-> & -> & ->) end.
    rewrite Hf, Hq. auto.
  - apply Forall_cons in Hne as [Hpage Hne].
    match goal with |- context [bind ?m ?k s] =>
      destruct (bind_obs m k s page Ho) as (-> & -> & ->) end.
    rewrite Hf, Hq.
    destruct (getUsers_loop_fails tok g a v pages page ([] ++ page) s1 s'
                fuel e Hpage Hne HA') as (Lo & Lf & Lq);
      [simpl in Hfuel; lia|].
    match goal with |- context [bind ?m ?k s1] =>
      destruct (bind_Throw_obs m k s1 e Lo) as (-> & -> & ->) end.
    rewrite Lf, length_app, Lq. auto.
Qed.

Lemma getPendingUsers_fails tok g a date v pages s s' fuel e :
  Forall (fun page => page <> []) pages ->
  Answers (get_pending_users host) s (List.map inr pages ++ [inl e]) s' ->
  (length pages <= fuel)%nat ->
  let r := getPendingUsers host tok g a date v fuel s in
  outcome r = Throw e /\ final r = s'
  /\ length (requests (trace r)) = Datatypes.S (length pages)
  /\ In (Console Lerror [PText "Error getting all pending users:"; PError e])
       (trace r).
Proof.
  intros Hne HA Hfuel r. subst r. unfold getPendingUsers.
  match goal with |- context [try_catch ?m ?h s] =>
    assert (Hbody : outcome (m s) = Throw e /\ final (m s) = s'
                    /\ length (requests (trace (m s)))
                       = Datatypes.S (length pages));
    [|destruct Hbody as (Bo & Bf & Bq);
      rewrite try_rethrow_outcome, try_rethrow_final, try_rethrow_requests
        by apply (log_rethrows (fun err => _));
      repeat split; try assumption;
      rewrite (try_catch_Throw_trace m h s e Bo);
      apply in_or_app; right; left; reflexivity]
  end.
  match goal with |- context [(log.debug v ?line;; ?m) s] =>
    destruct (debug_then v line m s) as (-> & -> & ->) end.
  destruct (getPendingUsersFromAppServices_run host tok g a v None s)
    as (Ho & Hf & Hq).
  destruct pages as [|page pages];
    inversion HA as [|? ? s1 ? ? Hfirst HA']; subst;
    rewrite Hfirst in Ho, Hf; cbn [fst snd] in Ho, Hf.
  - assert (Hs : s1 = s') by (inversion HA'; subst; reflexivity).
    subst s'.
    match goal with |- context [bind ?m ?k s] =>
      destruct (bind_Throw_obs m k s e Ho) as (-> & -> & ->) end.
    rewrite Hf, Hq. auto.
  - apply Forall_cons in Hne as [Hpage Hne].
    match goal with |- context [bind ?m ?k s] =>
      destruct (bind_obs m k s page Ho) as (-> & -> & ->) end.
    rewrite Hf, Hq.
    destruct (getPendingUsers_loop_fails tok g a v pages page ([] ++ page)
                s1 s' fuel e Hpage Hne HA') as (Lo & Lf & Lq);
      [simpl in Hfuel; lia|].
    match goal with |- context [bind ?m ?k s1] =>
      destruct (bind_Throw_obs m k s1 e Lo) as (-> & -> & ->) end.
    rewrite Lf, length_app, Lq. auto.
Qed.

End FetchFailure.

(** X10: when the server answers some non-empty pages and then fails, the
    fetch throws the error of the failed call, unchanged through both
    [catch] blocks; the pages fetched before are dropped with it.  One
    request was sent per answer, none after the failure, and the error is
    logged once more by the outer [catch].  So for [getUsers], so for
    [getPendingUsers]. *)
Theorem X10_fetch_error_aborts {S} (host : Host S) (tok g a date : string)
    (v : bool) (fuel : nat) (s s' : S) (e : JsError) :
  (forall pages : list (list RawUser.t),
      Forall (fun page => page <> []) pages ->
      Answers (get_users host) s (List.map inr pages ++ [inl e]) s' ->
      (length pages <= fuel)%nat ->
      let r := getUsers host tok g a v fuel s in
      outcome r = Throw e /\ final r = s'
      /\ length (requests (trace r)) = Datatypes.S (length pages)
      /\ In (Console Lerror [PText "Error getting all users:"; PError e])
           (trace r))
  /\ (forall pages : list (list PendingUser.t),
         Forall (fun page => page <> []) pages ->
         Answers (get_pending_users host) s (List.map inr pages ++ [inl e]) s' ->
         (length pages <= fuel)%nat ->
         let r := getPendingUsers host tok g a date v fuel s in
         outcome r = Throw e /\ final r = s'
         /\ length (requests (trace r)) = Datatypes.S (length pages)
         /\ In (Console Lerror
                  [PText "Error getting all pending users:"; PError e])
              (trace r)).
Proof.
  split.
  - intros pages. apply getUsers_fails.
  - intros pages. apply getPendingUsers_fails.
Qed.

Lemma Scripted_user_answers (st : Scripted.state)
    (answers : list (JsError + list RawUser.t)) :
  Scripted.user_pages st = answers ->
  exists st', Answers (get_users Scripted.host) st answers st'.
Proof.
  revert st. induction answers as [|answer answers IH]; intros st Hst.
  - exists st. constructor.
  - destruct st as [l u p mk wr]. simpl in Hst. subst u.
    destruct (IH {| Scripted.logins := l;
                    Scripted.user_pages := answers;
                    Scripted.pending_pages := p;
                    Scripted.mkdir_answer := mk;
                    Scripted.writeFile_answer := wr |} eq_refl) as [st' H].
    exists st'. econstructor; [|exact H]. intros req. reflexivity.
Qed.

Lemma Scripted_pending_answers (st : Scripted.state)
    (answers : list (JsError + list PendingUser.t)) :
  Scripted.pending_pages st = answers ->
  exists st', Answers (get_pending_users Scripted.host) st answers st'.
Proof.
  revert st. induction answers as [|answer answers IH]; intros st Hst.
  - exists st. constructor.
  - destruct st as [l u p mk wr]. simpl in Hst. subst p.
    destruct (IH {| Scripted.logins := l;
                    Scripted.user_pages := u;
                    Scripted.pending_pages := answers;
                    Scripted.mkdir_answer := mk;
                    Scripted.writeFile_answer := wr |} eq_refl) as [st' H].
    exists st'. econstructor; [|exact H]. intros req. reflexivity.
Qed.

(** One page of one user, then a network error: two requests, and the
    network error is what [getUsers] throws. *)
Lemma X10_fetch_error_aborts_witness :
  let e := AxiosError None in
  let st := {| Scripted.logins := [];
               Scripted.user_pages :=
                 [inr [Scripted.user 1 "a@x.com" 1]; inl e];
               Scripted.pending_pages :=
                 [inr [Scripted.pending_user 3 ["p@x.com"]]; inl e];
               Scripted.mkdir_answer := inr tt;
               Scripted.writeFile_answer := inr tt |} in
  (outcome (getUsers Scripted.host "token" "g1" "app1" true 1 st) = Throw e
   /\ length (requests (trace (getUsers Scripted.host "token" "g1" "app1"
                                 true 1 st))) = 2%nat)
  /\ (outcome (getPendingUsers Scripted.host "token" "g1" "app1" "2020-12-01"
                 true 1 st) = Throw e
      /\ length (requests (trace (getPendingUsers Scripted.host "token" "g1"
                                    "app1" "2020-12-01" true 1 st))) = 2%nat).
Proof.
  intros e st.
  destruct (Scripted_user_answers st
              (List.map inr [[Scripted.user 1 "a@x.com" 1]] ++ [inl e])
              eq_refl) as [st1 H1].
  destruct (Scripted_pending_answers st
              (List.map inr [[Scripted.pending_user 3 ["p@x.com"]]]
               ++ [inl e]) eq_refl) as [st2 H2].
  split.
  - destruct (proj1 (X10_fetch_error_aborts Scripted.host "token" "g1" "app1"
                       "2020-12-01" true 1%nat st st1 e)
                [[Scripted.user 1 "a@x.com" 1]]) as (Ho & _ & Hq & _).
    + repeat constructor. discriminate.
    + exact H1.
    + simpl. lia.
    + split; [exact Ho | exact Hq].
  - destruct (proj2 (X10_fetch_error_aborts Scripted.host "token" "g1" "app1"
                       "2020-12-01" true 1%nat st st2 e)
                [[Scripted.pending_user 3 ["p@x.com"]]]) as (Ho & _ & Hq & _).
    + repeat constructor. discriminate.
    + exact H2.
    + simpl. lia.
    + split; [exact Ho | exact Hq].
Defined.


(** ** Verbosity *)
Section Verbosity.

Context {S : Type} (host : Host S).

Lemma sim_debug_any v1 v2 (line1 line2 : list Printed) :
  sim (@log.debug S v1 line1) (log.debug v2 line2).
Proof. intros s. destruct v1, v2; simpl; auto. Qed.

Lemma sim_report v1 v2 t1 t2 e : sim (@report S v1 t1 t2 e) (report v2 t1 t2 e).
Proof.
  destruct e as [m|m|[r|]|c]; try apply sim_refl.
  apply sim_bind; [apply sim_refl | intros ?; apply sim_debug_any].
Qed.

Ltac sim_step :=
  first [ apply sim_refl
        | apply sim_debug_any
        | apply sim_report
        | apply sim_bind; [| intros ?]
        | apply sim_try_catch; [| intros ?] ].

Lemma getAPIToken_verbose u k v1 v2 :
  sim (getAPIToken host u k v1) (getAPIToken host u k v2).
Proof. unfold getAPIToken. repeat sim_step. Qed.

Lemma getUsersFromAppServices_verbose tok g a v1 v2 arg :
  sim (getUsersFromAppServices host tok g a v1 arg)
      (getUsersFromAppServices host tok g a v2 arg).
Proof. unfold getUsersFromAppServices. repeat sim_step. Qed.

Lemma getPendingUsersFromAppServices_verbose tok g a v1 v2 arg :
  sim (getPendingUsersFromAppServices host tok g a v1 arg)
      (getPendingUsersFromAppServices host tok g a v2 arg).
Proof. unfold getPendingUsersFromAppServices. repeat sim_step. Qed.

Lemma getUsers_loop_verbose tok g a v1 v2 fuel :
  forall users returned,
    sim (getUsers_loop host tok g a v1 fuel users returned)
        (getUsers_loop host tok g a v2 fuel users returned).
Proof.
  induction fuel as [|fuel IH]; intros users [|first others];
    cbn [getUsers_loop]; try apply sim_refl.
  apply sim_bind; [apply getUsersFromAppServices_verbose|].
  intros page. apply IH.
Qed.

Lemma getPendingUsers_loop_verbose tok g a v1 v2 fuel :
  forall users returned,
    sim (getPendingUsers_loop host tok g a v1 fuel users returned)
        (getPendingUsers_loop host tok g a v2 fuel users returned).
Proof.
  induction fuel as [|fuel IH]; intros users [|first others];
    cbn [getPendingUsers_loop]; try apply sim_refl.
  apply sim_bind; [apply sim_debug_any | intros ?].
  apply sim_bind; [apply getPendingUsersFromAppServices_verbose|].
  intros page. apply IH.
Qed.

Lemma getUsers_verbose tok g a v1 v2 fuel :
  sim (getUsers host tok g a v1 fuel) (getUsers host tok g a v2 fuel).
Proof.
  unfold getUsers.
  apply sim_try_catch; [|intros e; apply sim_refl].
  apply sim_bind; [apply sim_debug_any | intros ?].
  apply sim_bind; [apply getUsersFromAppServices_verbose | intros first].
  apply sim_bind; [apply getUsers_loop_verbose | intros users].
  repeat sim_step.
Qed.

Lemma getPendingUsers_verbose tok g a date v1 v2 fuel :
  sim (getPendingUsers host tok g a date v1 fuel)
      (getPendingUsers host tok g a date v2 fuel).
Proof.
  unfold getPendingUsers.
  apply sim_try_catch; [|intros e; apply sim_refl].
  apply sim_bind; [apply sim_debug_any | intros ?].
  apply sim_bind;
    [apply getPendingUsersFromAppServices_verbose | intros first].
  apply sim_bind; [apply getPendingUsers_loop_verbose | intros users].
  repeat sim_step.
Qed.

Lemma collect_verbose env argv v outputFile dryRun fuel :
  sim (collect host env argv outputFile dryRun fuel)
      (collect host env (with_verbose v argv) outputFile dryRun fuel).
Proof.
  unfold collect, with_verbose.
  cbn [Argv.verbose Argv.batchSize Argv.pendingUserDate].
  repeat first
    [ apply getAPIToken_verbose
    | apply getUsers_verbose
    | apply getPendingUsers_verbose
    | apply sim_debug_any
    | apply sim_bind; [| intros ?]
    | apply sim_refl ].
Qed.

Lemma main_verbose env argv v fuel :
  sim (main host env argv fuel) (main host env (with_verbose v argv) fuel).
Proof.
  unfold main, main_try.
  apply sim_try_catch; [|intros e; apply sim_refl].
  change (Argv.outputFile (with_verbose v argv)) with (Argv.outputFile argv).
  change (Argv.dryRun (with_verbose v argv)) with (Argv.dryRun argv).
  apply sim_bind; [apply collect_verbose | intros ud; apply sim_refl].
Qed.

End Verbosity.

(** X3: [--verbose] changes debug output and nothing else.  Two runs
    from the same host state that differ only in the flag end the same
    way and leave the host in the same state; they send the same
    requests, build the same envelope, make the same file system calls
    with the same content, exit with the same status, and print the same
    lines apart from debug lines. *)
Theorem X3_verbose_changes_debug_output_only {S} (host : Host S)
    (env : gmap string string) (argv : Argv.t) (v : bool) (fuel : nat)
    (s : S) :
  let argv' := with_verbose v argv in
  let outputFile := resolve_outputFile (Argv.outputFile argv) in
  let dryRun := Argv.dryRun argv || negb (truthy outputFile) in
  let r := main host env argv fuel s in
  let r' := main host env argv' fuel s in
  outcome (collect host env argv outputFile dryRun fuel s)
  = outcome (collect host env argv' outputFile dryRun fuel s)
  /\ outcome r = outcome r'
  /\ final r = final r'
  /\ requests (trace r) = requests (trace r')
  /\ fs_calls (trace r) = fs_calls (trace r')
  /\ visible (trace r) = visible (trace r')
  /\ option_map fst (run host env argv fuel s)
     = option_map fst (run host env argv' fuel s).
Proof.
  intros argv' outputFile dryRun r r'.
  destruct (collect_verbose host env argv v outputFile dryRun fuel s)
    as (Hc & _ & _).
  destruct (main_verbose host env argv v fuel s) as (Ho & Hf & Ht).
  fold argv' in Ho, Hf, Ht. fold r r' in Ho, Hf, Ht.
  split; [exact Hc|]. split; [exact Ho|]. split; [exact Hf|].
  split; [rewrite <- (requests_visible (trace r)), Ht; apply requests_visible|].
  split; [rewrite <- (fs_calls_visible (trace r)), Ht; apply fs_calls_visible|].
  split; [exact Ht|].
  unfold run. fold argv' r r'. clearbody r r'. rewrite <- Ho.
  destruct (outcome r); cbn [option_map fst]; try reflexivity.
  rewrite <- (exit_code_visible (trace r)), Ht, exit_code_visible.
  reflexivity.
Qed.


Section Quiet.

Context {S : Type} (host : Host S).

Variable P : Event -> Prop.

Lemma trace_bind_Forall {A B} (m : M S A) (k : A -> M S B) s :
  Forall P (trace (m s)) ->
  (forall a s', Forall P (trace (k a s'))) ->
  Forall P (trace (bind m k s)).
Proof.
  intros Hm Hk. unfold bind.
  destruct (outcome (m s)); cbn [trace after]; auto.
  apply Forall_app. auto.
Qed.

Lemma trace_try_Forall {A} (m : M S A) (h : JsError -> M S A) s :
  Forall P (trace (m s)) ->
  (forall e s', Forall P (trace (h e s'))) ->
  Forall P (trace (try_catch m h s)).
Proof.
  intros Hm Hh. unfold try_catch.
  destruct (outcome (m s)); cbn [trace after]; auto.
  apply Forall_app. auto.
Qed.

Lemma trace_call_Forall {A} (oracle : S -> (JsError + A) * S)
    (ev : bool -> Event) s :
  (forall ok, P (ev ok)) -> Forall P (trace (call oracle ev s)).
Proof.
  intros H. unfold call. destruct (oracle s) as [answer s'].
  repeat constructor. apply H.
Qed.

End Quiet.

Section NoDebug.

Context {S : Type} (host : Host S).

Lemma report_off t1 t2 e (s : S) :
  Forall (fun ev => is_debug ev = false) (trace (report false t1 t2 e s)).
Proof. destruct e as [m|m|[r|]|c]; repeat constructor. Qed.

Lemma required_trace value message (s : S) :
  trace (required value message s) = [].
Proof.
  destruct value as [x|]; simpl; [destruct (truthy_string x)|]; reflexivity.
Qed.

Ltac off :=
  repeat match goal with
    | |- Forall _ (trace (bind _ _ _)) =>
        apply trace_bind_Forall; [| intros ? ?]
    | |- Forall _ (trace (try_catch _ _ _)) =>
        apply trace_try_Forall; [| intros ? ?]
    | |- Forall _ (trace (call _ _ _)) =>
        apply trace_call_Forall; intros ?; reflexivity
    | |- Forall _ (trace (report false _ _ _ _)) => apply report_off
    | |- Forall _ (trace (required _ _ _)) =>
        rewrite required_trace; constructor
    | |- Forall _ (trace ((if ?c then _ else _) _)) => destruct c; constructor
    | |- Forall _ (trace (lift ?x _)) => destruct x; constructor
    | |- Forall _ (trace (log.debug false _ _)) => constructor
    | |- Forall _ (trace (ret _ _)) => constructor
    | |- Forall _ (trace (throw _ _)) => constructor
    | |- Forall _ (trace (now _ _)) => constructor
    | |- Forall _ (trace (log.info _ _)) => repeat constructor
    | |- Forall _ (trace (log.success _ _)) => repeat constructor
    | |- Forall _ (trace (log.error _ _)) => repeat constructor
    end.

Lemma getAPIToken_off u k s :
  Forall (fun ev => is_debug ev = false) (trace (getAPIToken host u k false s)).
Proof. unfold getAPIToken, axios_post_login. off. Qed.

Lemma getUsersFromAppServices_off tok g a arg s :
  Forall (fun ev => is_debug ev = false)
    (trace (getUsersFromAppServices host tok g a false arg s)).
Proof. unfold getUsersFromAppServices, axios_get_users. off. Qed.

Lemma getPendingUsersFromAppServices_off tok g a arg s :
  Forall (fun ev => is_debug ev = false)
    (trace (getPendingUsersFromAppServices host tok g a false arg s)).
Proof.
  unfold getPendingUsersFromAppServices, axios_get_pending_users. off.
Qed.

Lemma getUsers_loop_off tok g a fuel :
  forall users returned s,
    Forall (fun ev => is_debug ev = false)
      (trace (getUsers_loop host tok g a false fuel users returned s)).
Proof.
  induction fuel as [|fuel IH]; intros users [|first others] s;
    cbn [getUsers_loop]; try constructor.
  apply trace_bind_Forall; [apply getUsersFromAppServices_off|].
  intros page s'. apply IH.
Qed.

Lemma getPendingUsers_loop_off tok g a fuel :
  forall users returned s,
    Forall (fun ev => is_debug ev = false)
      (trace (getPendingUsers_loop host tok g a false fuel users returned s)).
Proof.
  induction fuel as [|fuel IH]; intros users [|first others] s;
    cbn [getPendingUsers_loop]; try constructor.
  apply trace_bind_Forall; [constructor|intros ? ?].
  apply trace_bind_Forall; [apply getPendingUsersFromAppServices_off|].
  intros page s2. apply IH.
Qed.

Lemma getUsers_off tok g a fuel s :
  Forall (fun ev => is_debug ev = false)
    (trace (getUsers host tok g a false fuel s)).
Proof.
  unfold getUsers.
  apply trace_try_Forall; [|intros ? ?; off].
  apply trace_bind_Forall; [constructor|intros ? ?].
  apply trace_bind_Forall; [apply getUsersFromAppServices_off|intros ? ?].
  apply trace_bind_Forall; [apply getUsers_loop_off|intros ? ?].
  off.
Qed.

Lemma getPendingUsers_off tok g a date fuel s :
  Forall (fun ev => is_debug ev = false)
    (trace (getPendingUsers host tok g a date false fuel s)).
Proof.
  unfold getPendingUsers.
  apply trace_try_Forall; [|intros ? ?; off].
  apply trace_bind_Forall; [constructor|intros ? ?].
  apply trace_bind_Forall;
    [apply getPendingUsersFromAppServices_off|intros ? ?].
  apply trace_bind_Forall; [apply getPendingUsers_loop_off|intros ? ?].
  off.
Qed.

Lemma collect_off env argv outputFile dryRun fuel s :
  Argv.verbose argv = false ->
  Forall (fun ev => is_debug ev = false)
    (trace (collect host env argv outputFile dryRun fuel s)).
Proof.
  intros Hv. unfold collect. rewrite Hv.
  repeat first
    [ apply getAPIToken_off
    | apply getUsers_off
    | apply getPendingUsers_off
    | progress off ].
Qed.

Lemma summary_lines_no_debug outputFile userData :
  Forall (fun ev => is_debug ev = false) (summary_lines outputFile userData).
Proof.
  unfold summary_lines.
  apply Forall_app. split; [repeat constructor|].
  apply Forall_app. split; [repeat constructor|].
  apply Forall_app. split.
  { induction (metadata_entries (UserData.metadata userData));
      constructor; auto. }
  apply Forall_app. split.
  { destruct (UserData.users userData); repeat constructor. }
  apply Forall_app. split.
  { destruct (UserData.pendingUsers userData); repeat constructor. }
  repeat constructor.
Qed.

Lemma finish_off outputFile dryRun userData (s : S) :
  Forall (fun ev => is_debug ev = false)
    (trace ((export_users host outputFile dryRun userData;;
             log.success [PText "Migration script completed successfully"]) s)).
Proof.
  destruct (finish_cases host outputFile dryRun userData s)
    as [[_ ->]|(file & saving & _ & _ & -> & [(e & _ & ->)|[(e & _ & ->)|[_ ->]]])];
    try (repeat constructor; fail).
  apply Forall_app. split; [apply summary_lines_no_debug | repeat constructor].
Qed.

Lemma main_off env argv fuel s :
  Argv.verbose argv = false ->
  Forall (fun ev => is_debug ev = false) (trace (main host env argv fuel s)).
Proof.
  intros Hv. unfold main, main_try.
  apply trace_try_Forall; [|intros e s'; repeat constructor].
  apply trace_bind_Forall; [apply collect_off, Hv|].
  intros ud s'. apply finish_off.
Qed.

End NoDebug.

(** X4: without [--verbose] no debug line is printed: not by the login,
    not by either fetch on any page, not when a call fails (the response
    body of a failed call is debug output), and so not by the whole run,
    however it ends and whatever fuel it is given. *)
Theorem X4_no_debug_line_unless_verbose {S} (host : Host S)
    (env : gmap string string) (argv : Argv.t) (fuel : nat) (s : S) :
  Argv.verbose argv = false ->
  Forall (fun ev => is_debug ev = false) (trace (main host env argv fuel s))
  /\ visible (trace (main host env argv fuel s))
     = trace (main host env argv fuel s).
Proof.
  intros Hv. pose proof (main_off host env argv fuel s Hv) as H.
  split; [exact H|].
  unfold visible. induction H as [|ev tr Hev _ IH]; [reflexivity|].
  cbn [List.filter]. rewrite Hev. cbn [negb]. rewrite IH. reflexivity.
Qed.

(** The example run without [--verbose] has no debug line, and a failed
    login with [--verbose] has one. *)
Lemma X4_no_debug_line_unless_verbose_witness :
  Forall (fun ev => is_debug ev = false)
    (trace (main Scripted.host Scripted.env (Scripted.argv None) 5
              Scripted.example))
  /\ Exists (fun ev => is_debug ev = true)
       (trace (main Scripted.host Scripted.env
                 (with_verbose true (Scripted.argv None)) 5 Scripted.example)).
Proof.
  split.
  - apply (X4_no_debug_line_unless_verbose Scripted.host Scripted.env
             (Scripted.argv None) 5%nat Scripted.example eq_refl).
  - vm_compute. right. left. reflexivity.
Defined.


(** ** Where the export goes *)
Section OutputPath.

Import Path.

Lemma resolve_outputFile_truthy (raw : option string) :
  truthy (resolve_outputFile raw) = truthy raw.
Proof.
  destruct raw as [r|]; [|reflexivity].
  cbn [truthy]. destruct (truthy_string r) eqn:Hr.
  - rewrite (resolve_outputFile_cases r Hr). cbn [truthy].
    destruct (String.eqb (basename r) EmptyString || String.eqb (basename r) ".");
      [reflexivity|].
    destruct (String.eqb (basename r) ".."); reflexivity.
  - unfold resolve_outputFile. rewrite Hr. reflexivity.
Qed.

Lemma has_slash_chars (b : string) :
  has_slash b = false ->
  Forall (fun c => Ascii.eqb c slash = false) (list_ascii_of_string b).
Proof.
  induction b as [|c b IH]; intros H; [constructor|].
  cbn [has_slash] in H. apply orb_false_iff in H as [Hc Hb].
  cbn [list_ascii_of_string]. constructor; auto.
Qed.

Lemma drop_while_all (f : ascii -> bool) (l t : list ascii) :
  Forall (fun c => f c = true) l -> drop_while f (l ++ t) = drop_while f t.
Proof.
  induction 1 as [|c l Hc _ IH]; [reflexivity|].
  cbn [app drop_while]. rewrite Hc. exact IH.
Qed.

Lemma drop_while_none (f : ascii -> bool) (l t : list ascii) :
  l <> [] -> Forall (fun c => f c = false) l ->
  drop_while f (l ++ t) = l ++ t.
Proof.
  intros Hne H. destruct H as [|c l Hc _]; [contradiction|].
  cbn [app drop_while]. rewrite Hc. reflexivity.
Qed.

(** The directory of an ordinary resolved path is [output]. *)
Lemma dirname_output (b : string) :
  has_slash b = false -> b <> EmptyString ->
  dirname ("output/" +:+ b) = "output".
Proof.
  intros Hb Hne. unfold dirname.
  change (list_ascii_of_string ("output/" +:+ b))
    with ("o"%char
          :: (["u"; "t"; "p"; "u"; "t"; "/"]%char ++ list_ascii_of_string b)).
  cbv beta iota zeta. rewrite List.rev_app_distr.
  change (List.rev ["u"; "t"; "p"; "u"; "t"; "/"]%char)
    with ["/"; "t"; "u"; "p"; "t"; "u"]%char.
  pose proof (has_slash_chars b Hb) as Hchars.
  apply List.Forall_rev in Hchars.
  assert (Hrev : List.rev (list_ascii_of_string b) <> []).
  { destruct b as [|c b]; [contradiction|].
    cbn [list_ascii_of_string List.rev]. intros H.
    apply app_eq_nil in H as [_ H]. discriminate. }
  rewrite (drop_while_none _ _ _ Hrev Hchars).
  rewrite drop_while_all.
  - reflexivity.
  - eapply Forall_impl; [exact Hchars|]. intros c Hc. simpl. rewrite Hc.
    reflexivity.
Qed.

End OutputPath.

(** X9: the resolved output file is set exactly when a non-empty
    [--outputFile] was given.  It never has a [..] segment; it names an
    entry of [output], namely [output/] followed by the last component of
    what was given, exactly when that component is neither empty, [.] nor
    [..], and the directory then created for it is [output]. *)
Theorem X9_resolved_output_path (raw : option string) :
  truthy (resolve_outputFile raw) = truthy raw
  /\ forall r p,
       raw = Some r ->
       resolve_outputFile raw = Some p ->
       Path.has_parent_segment p = false
       /\ (Path.directly_inside "output" p = true
           <-> Path.basename r <> EmptyString /\ Path.basename r <> "."
               /\ Path.basename r <> "..")
       /\ (Path.directly_inside "output" p = true ->
           p = "output/" +:+ Path.basename r
           /\ Path.dirname p = "output").
Proof.
  split; [apply resolve_outputFile_truthy|].
  intros r p -> Hp.
  destruct (resolve_outputFile_inside r p Hp) as [Hparent Hinside].
  split; [exact Hparent|]. split; [exact Hinside|].
  intros Hin. apply Hinside in Hin as (H0 & H1 & H2).
  assert (Hraw : truthy_string r = true).
  { unfold resolve_outputFile in Hp. destruct (truthy_string r);
      [reflexivity|discriminate]. }
  rewrite (resolve_outputFile_cases r Hraw) in Hp.
  apply String.eqb_neq in H0, H1, H2. rewrite H0, H1, H2 in Hp.
  cbn [orb] in Hp. injection Hp as <-.
  split; [reflexivity|].
  apply dirname_output; [apply basename_no_slash | apply String.eqb_neq, H0].
Qed.

(** A path with directories keeps its last component only. *)
Lemma X9_resolved_output_path_witness :
  resolve_outputFile (Some "/tmp/exports/users.json")
  = Some "output/users.json"
  /\ Path.has_parent_segment "output/users.json" = false
  /\ Path.dirname "output/users.json" = "output".
Proof.
  destruct (X9_resolved_output_path (Some "/tmp/exports/users.json"))
    as [_ H].
  destruct (H "/tmp/exports/users.json" "output/users.json" eq_refl eq_refl)
    as (Hparent & Hinside & Hpath).
  split; [reflexivity|]. split; [exact Hparent|].
  apply Hpath. reflexivity.
Defined.


(** ** The export, end to end *)
Section EndToEnd.

Context {S : Type} (host : Host S).

Lemma trace_bind_eq {A B} (m : M S A) (k : A -> M S B) s :
  trace (bind m k s)
  = trace (m s) ++ match outcome (m s) with
                   | Ret a => trace (k a (final (m s)))
                   | _ => []
                   end.
Proof.
  unfold bind. destruct (outcome (m s)); cbn [trace after];
    rewrite ?app_nil_r; reflexivity.
Qed.

Lemma fs_free_no_write (tr : list Event) file content ok :
  Forall fs_free tr -> ~ In (WriteFile file content ok) tr.
Proof.
  induction 1 as [|e tr He _ IH]; intros Hin; [destruct Hin|].
  destruct Hin as [->|Hin]; [exact He | auto].
Qed.

Lemma getUsers_Ret tok g a v fuel s out :
  outcome (getUsers host tok g a v fuel s) = Ret out ->
  exists raw, out = List.map active_record raw.
Proof.
  unfold getUsers.
  rewrite try_rethrow_outcome by apply (log_rethrows (fun err => _)).
  intros H.
  apply bind_Ret_inv in H as (x1 & _ & _ & H).
  apply bind_Ret_inv in H as (first_page & _ & _ & H).
  apply bind_Ret_inv in H as (users & _ & _ & H).
  apply bind_Ret_inv in H as (unit2 & _ & _ & H).
  exists users. cbn [ret outcome] in H. congruence.
Qed.

Lemma pendingUserData_status date users out :
  pendingUserData host date users = inr out ->
  Forall (fun u => NormalizedUser.status u = pending) out.
Proof.
  intros H. apply map_throwing_inr in H.
  induction H as [|u o us os Huo _ IH]; constructor; auto.
  unfold pending_record in Huo.
  destruct (PendingUser.login_ids u); [discriminate|].
  injection Huo as <-. reflexivity.
Qed.

(** The run as [collect] followed by the end of the [try] block. *)
Lemma main_try_eq env argv fuel s :
  let outputFile := resolve_outputFile (Argv.outputFile argv) in
  let dryRun := Argv.dryRun argv || negb (truthy outputFile) in
  main_try host env argv fuel s
  = bind (collect host env argv outputFile dryRun fuel)
      (fun userData =>
         export_users host outputFile dryRun userData;;
         log.success [PText "Migration script completed successfully"]) s.
Proof. reflexivity. Qed.

Lemma main_trace env argv fuel s :
  let body := main_try host env argv fuel s in
  trace (main host env argv fuel s)
  = trace body
    ++ match outcome body with
       | Throw e => [Console Lerror [PText "Error in migration script:";
                                     PError e];
                     Exit 1]
       | _ => []
       end.
Proof.
  intros body. unfold main, try_catch. fold body. clearbody body.
  destruct (outcome body); rewrite ?app_nil_r; reflexivity.
Qed.

(** A file is written by the end of the [try] block only, and what is
    written there is what [collect] returned. *)
Lemma main_write env argv fuel s file content ok :
  In (WriteFile file content ok) (trace (main host env argv fuel s)) ->
  let outputFile := resolve_outputFile (Argv.outputFile argv) in
  let dryRun := Argv.dryRun argv || negb (truthy outputFile) in
  outcome (collect host env argv outputFile dryRun fuel s) = Ret content
  /\ outputFile = Some file /\ dryRun = false.
Proof.
  intros Hin outputFile dryRun.
  rewrite main_trace in Hin. cbv zeta in Hin.
  apply in_app_or in Hin as [Hin|Hin].
  2:{ destruct (outcome (main_try host env argv fuel s)); simpl in Hin;
        intuition discriminate. }
  rewrite main_try_eq in Hin. cbv zeta in Hin.
  fold outputFile in Hin. fold dryRun in Hin.
  rewrite trace_bind_eq in Hin.
  pose proof (collect_inv host _ fs_free_Invariant env argv outputFile dryRun
                fuel s) as Hfree.
  set (c := collect host env argv outputFile dryRun fuel s) in *.
  clearbody c.
  apply in_app_or in Hin as [Hin|Hin];
    [destruct (fs_free_no_write _ _ _ _ Hfree Hin)|].
  destruct (outcome c) as [ud|e|]; [|destruct Hin..].
  cbv beta in Hin.
  destruct (finish_cases host outputFile dryRun ud (final c))
    as [[_ Ht]|(f & saving & Hof & Hd & Hs
                & [(e & _ & Ht)|[(e & _ & Ht)|(_ & Ht)]])];
    rewrite Ht in Hin.
  - exfalso. apply in_app_or in Hin as [Hin|Hin].
    + pose proof (summary_lines_console outputFile ud) as Hc.
      unfold all_console in Hc. rewrite List.Forall_forall in Hc.
      apply Hc in Hin. discriminate.
    + simpl in Hin. intuition discriminate.
  - subst saving. simpl in Hin. intuition discriminate.
  - subst saving. simpl in Hin.
    destruct Hin as [Hin|[Hin|[Hin|[]]]]; try discriminate.
    injection Hin as -> -> _. auto.
  - subst saving. simpl in Hin.
    destruct Hin as [Hin|[Hin|[Hin|[Hin|[Hin|[]]]]]]; try discriminate.
    injection Hin as -> -> _. auto.
Qed.

(** [save], by the answers of the file system. *)
Lemma save_run file userData (s : S) :
  let saving := Console Linfo [PText ("Saving users to " +:+ file +:+ "...")] in
  let dir := Path.dirname file in
  save host file userData s
  = match fs_mkdir host s dir with
    | (inl e, s1) =>
        {| outcome := Throw e; final := s1;
           trace := [saving; Mkdir dir false] |}
    | (inr _, s1) =>
        match fs_writeFile host s1 file userData with
        | (inl e, s2) =>
            {| outcome := Throw e; final := s2;
               trace := [saving; Mkdir dir true;
                         WriteFile file userData false] |}
        | (inr _, s2) =>
            {| outcome := Ret tt; final := s2;
               trace := [saving; Mkdir dir true; WriteFile file userData true;
                         Console Lsuccess
                           [PText ("Users saved to " +:+ file)]] |}
        end
    end.
Proof.
  unfold save, bind, after, fs_promises_mkdir, fs_promises_writeFile, call,
    log.info, log.success, emit.
  cbn [outcome final trace].
  destruct (fs_mkdir host s (Path.dirname file)) as [[e|[]] s1];
    cbn [outcome final trace is_ok app]; [reflexivity|].
  destruct (fs_writeFile host s1 file userData) as [[e|[]] s2];
    cbn [outcome final trace is_ok app]; reflexivity.
Qed.

Lemma run_Ret env argv fuel s :
  outcome (main_try host env argv fuel s) = Ret tt ->
  run host env argv fuel s = Some (0, trace (main_try host env argv fuel s)).
Proof.
  intros Ho.
  pose proof (main_try_exit_free host env argv fuel s) as Hfree.
  unfold run, main, try_catch. rewrite Ho. cbv zeta. rewrite Ho.
  rewrite <- (app_nil_r (trace (main_try host env argv fuel s))) at 1.
  rewrite (exit_code_free _ _ Hfree). reflexivity.
Qed.

(** When the save branch is taken, the [try] block is [collect], then
    [save], then the last line. *)
Lemma main_try_save env argv fuel s file content :
  let outputFile := resolve_outputFile (Argv.outputFile argv) in
  let fetched :=
    collect host env argv outputFile
      (Argv.dryRun argv || negb (truthy outputFile)) fuel s in
  Argv.dryRun argv = false ->
  outputFile = Some file ->
  outcome fetched = Ret content ->
  let rest :=
    (save host file content;;
     log.success [PText "Migration script completed successfully"])
      (final fetched) in
  outcome (main_try host env argv fuel s) = outcome rest
  /\ final (main_try host env argv fuel s) = final rest
  /\ trace (main_try host env argv fuel s) = trace fetched ++ trace rest.
Proof.
  intros outputFile fetched Hdry Hfile Hc rest.
  assert (Htruthy : truthy_string file = true).
  { pose proof (resolve_outputFile_truthy (Argv.outputFile argv)) as Ht.
    fold outputFile in Ht. rewrite Hfile in Ht. cbn [truthy] in Ht.
    rewrite Ht. unfold outputFile, resolve_outputFile in Hfile.
    destruct (Argv.outputFile argv) as [r|]; [|discriminate].
    cbn [truthy]. destruct (truthy_string r); [reflexivity|discriminate]. }
  assert (He : export_users host outputFile
                 (Argv.dryRun argv || negb (truthy outputFile)) content
               = save host file content).
  { rewrite Hfile, Hdry. unfold export_users. cbn [truthy orb].
    rewrite Htruthy. reflexivity. }
  rewrite main_try_eq. cbv zeta. fold outputFile. subst rest fetched.
  rewrite (bind_Ret _ _ _ _ Hc). unfold after. cbn [outcome final trace].
  rewrite He. repeat split; reflexivity.
Qed.

End EndToEnd.

(** X7: whatever a run hands to [writeFile] is the envelope that
    [collect] returned in this run, written to the resolved output path,
    and only when [--dryRun] is off.  Its two lists are what [getUsers]
    and [getPendingUsers] returned in this run, after the login of this
    run and with its token; the two counts are the lengths of the two
    lists, every user is [active], every pending user is [pending], the
    export date is the time read after the fetches, and group,
    application and pending-user date are those of the environment and
    the command line. *)
Theorem X7_written_file_is_the_envelope {S} (host : Host S)
    (env : gmap string string) (argv : Argv.t) (fuel : nat) (s : S)
    (file : string) (content : UserData.t) (ok : bool) :
  In (WriteFile file content ok) (trace (main host env argv fuel s)) ->
  let md := UserData.metadata content in
  let outputFile := resolve_outputFile (Argv.outputFile argv) in
  let dryRun := Argv.dryRun argv || negb (truthy outputFile) in
  let v := Argv.verbose argv in
  outputFile = Some file
  /\ Argv.dryRun argv = false
  /\ outcome (collect host env argv outputFile dryRun fuel s) = Ret content
  /\ (exists username apiKey token,
        env !! "USERNAME" = Some username
        /\ env !! "API_KEY" = Some apiKey
        /\ let login := getAPIToken host username apiKey v s in
           let fetchUsers :=
             getUsers host token (UserData.groupId md) (UserData.appId md)
               v fuel (final login) in
           let fetchPending :=
             getPendingUsers host token (UserData.groupId md)
               (UserData.appId md) (Argv.pendingUserDate argv) v fuel
               (final fetchUsers) in
           outcome login = Ret token
           /\ outcome fetchUsers = Ret (UserData.users content)
           /\ outcome fetchPending = Ret (UserData.pendingUsers content)
           /\ UserData.exportDate md = now_iso host (final fetchPending))
  /\ env !! "GROUP_ID" = Some (UserData.groupId md)
  /\ env !! "APP_ID" = Some (UserData.appId md)
  /\ UserData.pendingUserDate md = Argv.pendingUserDate argv
  /\ UserData.totalUsers md = length (UserData.users content)
  /\ UserData.totalPendingUsers md = length (UserData.pendingUsers content)
  /\ Forall (fun u => NormalizedUser.status u = active)
       (UserData.users content)
  /\ Forall (fun u => NormalizedUser.status u = pending)
       (UserData.pendingUsers content).
Proof.
  intros Hin md outputFile dryRun v.
  destruct (main_write host env argv fuel s file content ok Hin)
    as (Hc & Hfile & Hdry).
  apply orb_false_iff in Hdry as [Hdry _].
  destruct (collect_Ret host env argv _ _ fuel s content Hc)
    as (username & apiKey & token & Hu & Hk & Hg & Ha & Ht
        & Husers & Hpending & Hn & Hp & Hd & He).
  split; [exact Hfile|]. split; [exact Hdry|]. split; [exact Hc|].
  split.
  { exists username, apiKey, token.
    split; [exact Hu|]. split; [exact Hk|].
    split; [exact Ht|]. split; [exact Husers|].
    split; [exact Hpending | exact He]. }
  apply getUsers_Ret in Husers as [raw Husers].
  apply getPendingUsers_Ret in Hpending as [rawp Hpending].
  apply pendingUserData_status in Hpending.
  repeat split; try assumption.
  rewrite Husers. clear. induction raw; constructor; auto.
Qed.

(** The export of the example is written once, with two users and one
    pending user. *)
Lemma X7_written_file_is_the_envelope_witness :
  let content :=
    {| UserData.metadata :=
         {| UserData.exportDate := "2025-03-30T12:15:00.000Z";
            UserData.groupId := "g1";
            UserData.appId := "app1";
            UserData.totalUsers := 2;
            UserData.totalPendingUsers := 1;
            UserData.pendingUserDate := "2020-12-01" |};
       UserData.users :=
         List.map active_record
           [Scripted.user 1 "a@x.com" 1606857105;
            Scripted.user 2 "b@x.com" 1606857106];
       UserData.pendingUsers :=
         [{| NormalizedUser.id := IdNum 3;
             NormalizedUser.email := "p@x.com";
             NormalizedUser.createdAt := num 1606780800;
             NormalizedUser.status := pending |}] |} in
  let tr :=
    trace (main Scripted.host Scripted.env
             (Scripted.argv (Some "/tmp/users.json")) 5 Scripted.example) in
  In (WriteFile "output/users.json" content true) tr
  /\ resolve_outputFile (Some "/tmp/users.json") = Some "output/users.json"
  /\ Forall (fun u => NormalizedUser.status u = active)
       (UserData.users content).
Proof.
  intros content tr.
  assert (Hin : In (WriteFile "output/users.json" content true) tr).
  { vm_compute. repeat (first [left; reflexivity | right]). }
  split; [exact Hin|].
  destruct (X7_written_file_is_the_envelope Scripted.host Scripted.env
              (Scripted.argv (Some "/tmp/users.json")) 5 Scripted.example
              "output/users.json" content true Hin)
    as (Hfile & _ & _ & _ & _ & _ & _ & _ & _ & Hactive & _).
  split; [exact Hfile | exact Hactive].
Defined.

(** X8: when [collect] has returned, an output file is set and
    [--dryRun] is off, the run makes the directory of the output path and
    then writes the envelope there, and how it ends follows the answers of
    the file system.  If [mkdir] fails, [writeFile] is never called and
    the status is 1; if [writeFile] fails the status is 1 and no file
    counts as written; if both succeed the status is 0, exactly that one
    file was written and the last line is the success line. *)
Theorem X8_save_path {S} (host : Host S) (env : gmap string string)
    (argv : Argv.t) (fuel : nat) (s : S) (file : string)
    (content : UserData.t) :
  let outputFile := resolve_outputFile (Argv.outputFile argv) in
  let fetched :=
    collect host env argv outputFile
      (Argv.dryRun argv || negb (truthy outputFile)) fuel s in
  Argv.dryRun argv = false ->
  outputFile = Some file ->
  outcome fetched = Ret content ->
  let dir := Path.dirname file in
  let made := fs_mkdir host (final fetched) dir in
  let written := fs_writeFile host (snd made) file content in
  let caught e :=
    Console Lerror [PText "Error in migration script:"; PError e] in
  exists tr,
    match fst made, fst written with
    | inl e, _ =>
        run host env argv fuel s = Some (1, tr)
        /\ fs_calls tr = [Mkdir dir false]
        /\ files_written tr = []
        /\ In (caught e) tr
        /\ final (main host env argv fuel s) = snd made
    | inr _, inl e =>
        run host env argv fuel s = Some (1, tr)
        /\ fs_calls tr = [Mkdir dir true; WriteFile file content false]
        /\ files_written tr = []
        /\ In (caught e) tr
        /\ final (main host env argv fuel s) = snd written
    | inr _, inr _ =>
        run host env argv fuel s = Some (0, tr)
        /\ fs_calls tr = [Mkdir dir true; WriteFile file content true]
        /\ files_written tr = [(file, content)]
        /\ last tr = Some completed
        /\ final (main host env argv fuel s) = snd written
    end.
Proof.
  intros outputFile fetched Hdry Hfile Hc dir made written caught.
  destruct (main_try_save host env argv fuel s file content Hdry Hfile Hc)
    as (Ho & Hf & Ht).
  fold outputFile in Ho, Hf, Ht. fold fetched in Ho, Hf, Ht.
  pose proof (collect_inv host _ fs_free_Invariant env argv outputFile
                (Argv.dryRun argv || negb (truthy outputFile)) fuel s)
    as Hfree.
  fold fetched in Hfree. apply fs_free_fs_calls in Hfree as [Hfs Hfw].
  subst made written. clearbody fetched.
  unfold bind in Ho, Hf, Ht.
  rewrite (save_run host file content (final fetched)) in Ho, Hf, Ht.
  cbv zeta in Ho, Hf, Ht. fold dir in Ho, Hf, Ht.
  destruct (fs_mkdir host (final fetched) dir) as [[e|[]] s1];
    cbn [fst snd outcome final trace after] in *.
  - eexists. rewrite (run_Throw host env argv fuel s e Ho), Ht.
    split; [reflexivity|].
    rewrite !fs_calls_app, !files_written_app, Hfs, Hfw.
    split; [reflexivity|]. split; [reflexivity|].
    split; [apply in_or_app; right; left; reflexivity|].
    unfold main, try_catch. rewrite Ho. cbn [after final]. exact Hf.
  - destruct (fs_writeFile host s1 file content) as [[e|[]] s2];
      cbn [fst snd outcome final trace after app] in *.
    + eexists. rewrite (run_Throw host env argv fuel s e Ho), Ht.
      split; [reflexivity|].
      rewrite !fs_calls_app, !files_written_app, Hfs, Hfw.
      split; [reflexivity|]. split; [reflexivity|].
      split; [apply in_or_app; right; left; reflexivity|].
      unfold main, try_catch. rewrite Ho. cbn [after final]. exact Hf.
    + eexists. rewrite (run_Ret host env argv fuel s Ho), Ht.
      split; [reflexivity|].
      rewrite !fs_calls_app, !files_written_app, Hfs, Hfw.
      split; [reflexivity|]. split; [reflexivity|].
      split.
      * rewrite last_app. reflexivity.
      * unfold main, try_catch. rewrite Ho. exact Hf.
Qed.

(** The export of the example: [output] is made, then the file is
    written into it, and the run ends with status 0. *)
Lemma X8_save_path_witness :
  exists tr content,
    run Scripted.host Scripted.env (Scripted.argv (Some "/tmp/users.json")) 5
      Scripted.example = Some (0, tr)
    /\ fs_calls tr = [Mkdir "output" true;
                      WriteFile "output/users.json" content true]
    /\ files_written tr = [("output/users.json", content)]
    /\ last tr = Some completed.
Proof.
  set (argv := Scripted.argv (Some "/tmp/users.json")).
  set (outputFile := resolve_outputFile (Argv.outputFile argv)).
  set (fetched :=
         collect Scripted.host Scripted.env argv outputFile
           (Argv.dryRun argv || negb (truthy outputFile)) 5 Scripted.example).
  assert (Hc : exists content, outcome fetched = Ret content)
    by (vm_compute; eexists; reflexivity).
  destruct Hc as [content Hc].
  assert (Hfile : outputFile = Some "output/users.json")
    by (vm_compute; reflexivity).
  assert (Hm : Scripted.mkdir_answer (final fetched) = inr tt)
    by (vm_compute; reflexivity).
  assert (Hw : Scripted.writeFile_answer (final fetched) = inr tt)
    by (vm_compute; reflexivity).
  destruct (X8_save_path Scripted.host Scripted.env argv 5 Scripted.example
              "output/users.json" content eq_refl Hfile Hc) as [tr H].
  fold outputFile in H. fold fetched in H.
  cbn [fst snd fs_mkdir fs_writeFile Scripted.host] in H.
  rewrite Hm, Hw in H. destruct H as (Hrun & Hfs & Hfw & Hlast & _).
  exists tr, content. repeat split; assumption.
Defined.

(** ** The requests of a whole run *)
Section RunRequests.

Context {S : Type} (host : Host S).

Lemma requests_info_then {A} line (m : M S A) s :
  requests (trace ((log.info line;; m) s)) = requests (trace (m s)).
Proof. reflexivity. Qed.

Lemma requests_success_then {A} line (m : M S A) s :
  requests (trace ((log.success line;; m) s)) = requests (trace (m s)).
Proof. reflexivity. Qed.

Lemma requests_required_then {A} value message (k : string -> M S A) s :
  requests (trace (bind (required value message) k s))
  = match value with
    | Some x => if truthy_string x then requests (trace (k x s)) else []
    | None => []
    end.
Proof.
  destruct value as [x|]; [|reflexivity].
  unfold required. destruct (truthy_string x); reflexivity.
Qed.

Lemma requests_guard_then {A} (c : bool) e (m : M S A) s :
  requests (trace (((if c then throw e else ret tt);; m) s))
  = if c then [] else requests (trace (m s)).
Proof. destruct c; reflexivity. Qed.

Lemma getAPIToken_requests username apiKey v s :
  requests (trace (getAPIToken host username apiKey v s))
  = [login_request username apiKey].
Proof.
  exact (proj2 (proj2
           (guarded_call_run
              (fun s0 => post_login host s0 (login_request username apiKey))
              (login_request username apiKey) v
              [PText "Authenticating with MongoDB Atlas..."]
              (fun _ => [PText "Authentication successful"])
              "Authentication failed:" "Error getting API token:" s))).
Qed.

Lemma finish_requests outputFile dryRun userData (s : S) :
  requests
    (trace ((export_users host outputFile dryRun userData;;
             log.success [PText "Migration script completed successfully"]) s))
  = [].
Proof.
  destruct (finish_cases host outputFile dryRun userData s)
    as [[_ Ht]|(f & saving & Hof & Hd & Hs
                & [(e & _ & Ht)|[(e & _ & Ht)|(_ & Ht)]])];
    rewrite Ht; try (subst saving; reflexivity).
  rewrite requests_app, (console_requests _ (summary_lines_console _ _)).
  reflexivity.
Qed.

(** Every request of a run is made by [collect]. *)
Lemma main_requests env argv fuel s :
  let outputFile := resolve_outputFile (Argv.outputFile argv) in
  let dryRun := Argv.dryRun argv || negb (truthy outputFile) in
  requests (trace (main host env argv fuel s))
  = requests (trace (collect host env argv outputFile dryRun fuel s)).
Proof.
  intros outputFile dryRun.
  rewrite main_trace. cbv zeta. rewrite requests_app.
  replace (requests
             match outcome (main_try host env argv fuel s) with
             | Throw e =>
                 [Console Lerror [PText "Error in migration script:";
                                  PError e];
                  Exit 1]
             | _ => []
             end) with (@nil Request)
    by (destruct (outcome (main_try host env argv fuel s)); reflexivity).
  rewrite app_nil_r, main_try_eq. cbv zeta.
  fold outputFile. fold dryRun. rewrite requests_bind.
  destruct (outcome (collect host env argv outputFile dryRun fuel s));
    rewrite ?finish_requests, app_nil_r; reflexivity.
Qed.

Lemma collect_requests env argv outputFile dryRun fuel s :
  let reqs :=
    requests (trace (collect host env argv outputFile dryRun fuel s)) in
  let v := Argv.verbose argv in
  (invalid env argv /\ reqs = [])
  \/ ~ invalid env argv
     /\ exists username apiKey groupId appId,
       env !! "USERNAME" = Some username
       /\ env !! "API_KEY" = Some apiKey
       /\ env !! "GROUP_ID" = Some groupId
       /\ env !! "APP_ID" = Some appId
       /\ let login := getAPIToken host username apiKey v s in
          match outcome login with
          | Ret token =>
              exists us ps,
                reqs = login_request username apiKey :: us ++ ps
                /\ us <> []
                /\ Forall (is_users_request token groupId appId) us
                /\ Forall (is_pending_users_request token groupId appId) ps
                /\ (ps <> [] ->
                    exists users,
                      outcome (getUsers host token groupId appId v fuel
                                 (final login)) = Ret users)
          | _ => reqs = [login_request username apiKey]
          end.
Proof.
  intros reqs v. subst reqs. unfold collect. cbv zeta. fold v.
  rewrite requests_info_then.
  rewrite requests_required_then.
  destruct (env !! "USERNAME") as [username|] eqn:Hu;
    [|left; split; [left; rewrite Hu|]; reflexivity].
  destruct (truthy_string username) eqn:Tu;
    [|left; split; [left; rewrite Hu; exact Tu | reflexivity]].
  rewrite requests_required_then.
  destruct (env !! "API_KEY") as [apiKey|] eqn:Hk;
    [|left; split; [right; left; rewrite Hk|]; reflexivity].
  destruct (truthy_string apiKey) eqn:Tk;
    [|left; split; [right; left; rewrite Hk; exact Tk | reflexivity]].
  rewrite requests_required_then.
  destruct (env !! "GROUP_ID") as [groupId|] eqn:Hg;
    [|left; split; [right; right; left; rewrite Hg|]; reflexivity].
  destruct (truthy_string groupId) eqn:Tg;
    [|left; split; [right; right; left; rewrite Hg; exact Tg | reflexivity]].
  rewrite requests_required_then.
  destruct (env !! "APP_ID") as [appId|] eqn:Ha;
    [|left; split; [right; right; right; left; rewrite Ha|]; reflexivity].
  destruct (truthy_string appId) eqn:Ta;
    [|left; split;
      [right; right; right; left; rewrite Ha; exact Ta | reflexivity]].
  rewrite requests_guard_then.
  destruct (truthy_string (Argv.pendingUserDate argv)
            && negb (matches_date_pattern (Argv.pendingUserDate argv)))
    eqn:Td.
  { left. split; [|reflexivity]. do 4 right.
    apply andb_true_iff in Td as [Tne Tpat].
    apply negb_true_iff in Tpat. split; [|exact Tpat].
    intros Hempty. rewrite Hempty in Tne. discriminate. }
  do 8 match goal with |- context [(log.debug ?b ?line;; ?m) s] =>
         destruct (debug_then b line m s) as (_ & _ & ->) end.
  right. split.
  { intros [H|[H|[H|[H|[Hne Hpat]]]]];
      [rewrite Hu in H | rewrite Hk in H | rewrite Hg in H | rewrite Ha in H
      |]; cbn [truthy] in *; try congruence.
    unfold truthy_string, Path.nonempty in Td. rewrite Hpat in Td.
    apply String.eqb_neq in Hne. rewrite Hne in Td. discriminate. }
  exists username, apiKey, groupId, appId.
  repeat (split; [reflexivity|]).
  cbv zeta. rewrite requests_bind, getAPIToken_requests.
  destruct (outcome (getAPIToken host username apiKey v s)) as [token|e|];
    [|reflexivity..].
  cbv beta. set (s1 := final (getAPIToken host username apiKey v s)).
  rewrite requests_success_then, requests_info_then, requests_bind.
  destruct (getUsers_requests host token groupId appId v fuel s1)
    as (rest & -> & Hrest & _).
  exists (users_request token groupId appId (IdNum 0) :: rest).
  assert (Hus : Forall (is_users_request token groupId appId)
                  (users_request token groupId appId (IdNum 0) :: rest))
    by (constructor; [eexists; reflexivity | exact Hrest]).
  destruct (outcome (getUsers host token groupId appId v fuel s1))
    as [users|e|] eqn:Eu.
  - cbv beta. set (s2 := final (getUsers host token groupId appId v fuel s1)).
    rewrite requests_success_then, requests_info_then, requests_bind.
    destruct (getPendingUsers_requests host token groupId appId
                (Argv.pendingUserDate argv) v fuel s2)
      as (prest & -> & Hprest & _).
    exists (pending_users_request token groupId appId (IdNum 0) :: prest).
    replace (match
                outcome (getPendingUsers host token groupId appId
                           (Argv.pendingUserDate argv) v fuel s2)
              with
              | Ret a =>
                  requests
                    (trace
                       ((fun pendingUsers =>
                           log.success
                             [PText ("Total pending users: "
                                     +:+ pretty (length pendingUsers))];;
                           exportDate <- now host;;
                           ret {| UserData.metadata :=
                                    {| UserData.exportDate := exportDate;
                                       UserData.groupId := groupId;
                                       UserData.appId := appId;
                                       UserData.totalUsers := length users;
                                       UserData.totalPendingUsers :=
                                         length pendingUsers;
                                       UserData.pendingUserDate :=
                                         Argv.pendingUserDate argv |};
                                  UserData.users := users;
                                  UserData.pendingUsers := pendingUsers |})
                          a
                          (final (getPendingUsers host token groupId appId
                                    (Argv.pendingUserDate argv) v fuel s2))))
              | _ => []
              end) with (@nil Request)
      by (destruct (outcome (getPendingUsers host token groupId appId
                               (Argv.pendingUserDate argv) v fuel s2));
          reflexivity).
    rewrite app_nil_r.
    split; [reflexivity|]. split; [discriminate|]. split; [exact Hus|].
    split; [constructor; [eexists; reflexivity | exact Hprest]|].
    intros _. eauto.
  - exists []. rewrite !app_nil_r.
    split; [reflexivity|]. split; [discriminate|]. split; [exact Hus|].
    split; [constructor|]. intros H. contradiction.
  - exists []. rewrite !app_nil_r.
    split; [reflexivity|]. split; [discriminate|]. split; [exact Hus|].
    split; [constructor|]. intros H. contradiction.
Qed.

End RunRequests.

(** X6: the requests of a run, in order.  A run sends nothing exactly
    when it fails validation.  Otherwise the first request is the login:
    a POST to the login address with the user name and the key of the
    environment as its body.  If the login call throws, it is the only
    request.  If it returns a token, the login is followed by one or more
    page requests for active users and then by the page requests for
    pending users: GETs of the users address and of the pending-users
    address of the group and application of the environment, each with
    the token that the login returned as its bearer; a pending-user page
    is asked for only after the user fetch returned. *)
Theorem X6_request_order {S} (host : Host S) (env : gmap string string)
    (argv : Argv.t) (fuel : nat) (s : S) :
  let reqs := requests (trace (main host env argv fuel s)) in
  let v := Argv.verbose argv in
  let login_post (username apiKey : string) :=
    {| method := POST;
       url := "https://services.cloud.mongodb.com/api/admin/v3.0/auth/providers/mongodb-cloud/login";
       headers := [("Content-Type", "application/json");
                   ("Accept", "application/json")];
       body := [("username", username); ("apiKey", apiKey)] |} in
  let address (groupId appId resource : string) :=
    "https://services.cloud.mongodb.com/api/admin/v3.0/groups/" +:+ groupId
    +:+ "/apps/" +:+ appId +:+ resource in
  let page_request (token groupId appId resource : string)
      (extra : list (string * string)) (req : Request) : Prop :=
    method req = GET
    /\ headers req = ("Authorization", "Bearer " +:+ token) :: extra
    /\ body req = []
    /\ (url req = address groupId appId resource
        \/ exists cursor,
             url req
             = address groupId appId (resource +:+ "?after=" +:+ cursor)) in
  (invalid env argv /\ reqs = [])
  \/ ~ invalid env argv
     /\ exists username apiKey groupId appId,
       env !! "USERNAME" = Some username
       /\ env !! "API_KEY" = Some apiKey
       /\ env !! "GROUP_ID" = Some groupId
       /\ env !! "APP_ID" = Some appId
       /\ let login := getAPIToken host username apiKey v s in
          match outcome login with
          | Ret token =>
              exists us ps,
                reqs = login_post username apiKey :: us ++ ps
                /\ us <> []
                /\ Forall (page_request token groupId appId "/users"
                             [("Accept", "application/json")]) us
                /\ Forall (page_request token groupId appId
                             "/user_registrations/pending_users" []) ps
                /\ (ps <> [] ->
                    exists users,
                      outcome (getUsers host token groupId appId v fuel
                                 (final login)) = Ret users)
          | _ => reqs = [login_post username apiKey]
          end.
Proof.
  intros reqs v login_post address page_request. subst reqs.
  rewrite main_requests. cbv zeta.
  destruct (collect_requests host env argv
              (resolve_outputFile (Argv.outputFile argv))
              (Argv.dryRun argv
               || negb (truthy (resolve_outputFile (Argv.outputFile argv))))
              fuel s)
    as [Hinv|(Hvalid & username & apiKey & groupId & appId
              & Hu & Hk & Hg & Ha & H)]; [left; exact Hinv|].
  right. split; [exact Hvalid|].
  exists username, apiKey, groupId, appId.
  repeat (split; [assumption|]).
  cbv zeta in H. fold v in H.
  destruct (outcome (getAPIToken host username apiKey v s)) as [token|e|];
    [|exact H..].
  destruct H as (us & ps & Hreqs & Hne & Hus & Hps & Hafter).
  exists us, ps. split; [exact Hreqs|]. split; [exact Hne|].
  split; [|split; [|exact Hafter]].
  - eapply Forall_impl; [exact Hus|]. intros req Hreq.
    exact (users_request_wire token groupId appId req Hreq).
  - eapply Forall_impl; [exact Hps|]. intros req Hreq.
    exact (pending_users_request_wire token groupId appId req Hreq).
Qed.


(** ** Which validation error is reported *)
Section FirstError.

Context {S : Type} (host : Host S).

Lemma bind_emit_Error {B} (ev : Event) (k : unit -> M S B) s message :
  k tt s = {| outcome := Throw (Error message); final := s; trace := [] |} ->
  bind (emit ev) k s
  = {| outcome := Throw (Error message); final := s; trace := [ev] |}.
Proof.
  intros Hk. unfold bind, after, emit. cbn [outcome final trace].
  rewrite Hk. reflexivity.
Qed.

Lemma run_stops env argv fuel s message :
  collect host env argv (resolve_outputFile (Argv.outputFile argv))
    (Argv.dryRun argv
     || negb (truthy (resolve_outputFile (Argv.outputFile argv)))) fuel s
  = {| outcome := Throw (Error message); final := s;
       trace := [Console Linfo
                   [PText "Realm users migration script started"]] |} ->
  run host env argv fuel s
  = Some (1, [Console Linfo [PText "Realm users migration script started"];
              Console Lerror [PText "Error in migration script:";
                              PError (Error message)];
              Exit 1]).
Proof.
  intros Hc. unfold run, main, main_try, try_catch, bind. rewrite Hc.
  reflexivity.
Qed.

End FirstError.

Ltac pass_required E :=
  match goal with
  | |- context [bind (required ?v ?msg) _ ?s] =>
      let R := fresh "R" in
      destruct (required_truthy v msg s E) as (? & _ & R);
      rewrite (bind_pure_Ret _ _ _ _ R); clear R
  end.

(** X12: the checks of [main] run in the order of the source, and the
    first one that fails gives the error the run reports before it exits
    with status 1: user name, API key, group, application, and last the
    shape of [pendingUserDate]. *)
Theorem X12_first_failed_check {S} (host : Host S)
    (env : gmap string string) (argv : Argv.t) (fuel : nat) (s : S) :
  let stops message :=
    run host env argv fuel s
    = Some (1, [Console Linfo [PText "Realm users migration script started"];
                Console Lerror [PText "Error in migration script:";
                                PError (Error message)];
                Exit 1]) in
  let set key := truthy (env !! key) = true in
  (truthy (env !! "USERNAME") = false ->
   stops "Username is required. Please set the USERNAME environment variable in your .env file.")
  /\ (set "USERNAME" -> truthy (env !! "API_KEY") = false ->
      stops "API key is required. Please set the API_KEY environment variable in your .env file.")
  /\ (set "USERNAME" -> set "API_KEY" ->
      truthy (env !! "GROUP_ID") = false ->
      stops "Group ID is required. Please set the GROUP_ID environment variable in your .env file.")
  /\ (set "USERNAME" -> set "API_KEY" -> set "GROUP_ID" ->
      truthy (env !! "APP_ID") = false ->
      stops "App ID is required. Please set the APP_ID environment variable in your .env file.")
  /\ (set "USERNAME" -> set "API_KEY" -> set "GROUP_ID" -> set "APP_ID" ->
      Argv.pendingUserDate argv <> EmptyString ->
      matches_date_pattern (Argv.pendingUserDate argv) = false ->
      stops "pendingUserDate must be in YYYY-MM-DD format").
Proof.
  intros stops set. subst stops set. cbv beta.
  repeat split; intros; apply run_stops; unfold collect, log.info;
    apply bind_emit_Error; cbv beta zeta.
  - apply bind_pure_Throw, required_falsy. assumption.
  - pass_required H. apply bind_pure_Throw, required_falsy. assumption.
  - pass_required H. pass_required H0.
    apply bind_pure_Throw, required_falsy. assumption.
  - pass_required H. pass_required H0. pass_required H1.
    apply bind_pure_Throw, required_falsy. assumption.
  - pass_required H. pass_required H0. pass_required H1. pass_required H2.
    apply bind_pure_Throw.
    unfold truthy_string, Path.nonempty. rewrite H4.
    apply String.eqb_neq in H3. rewrite H3. reflexivity.
Qed.

(** With neither [API_KEY] nor [APP_ID] it is the API key that is
    reported. *)
Lemma X12_first_failed_check_witness :
  run Scripted.host (<["USERNAME" := "alice"]> (<["GROUP_ID" := "g1"]> ∅))
    (Scripted.argv None) 5 Scripted.example
  = Some (1, [Console Linfo [PText "Realm users migration script started"];
              Console Lerror
                [PText "Error in migration script:";
                 PError (Error "API key is required. Please set the API_KEY environment variable in your .env file.")];
              Exit 1]).
Proof.
  apply (proj1 (proj2 (X12_first_failed_check Scripted.host
                         (<["USERNAME" := "alice"]> (<["GROUP_ID" := "g1"]> ∅))
                         (Scripted.argv None) 5 Scripted.example)));
    vm_compute; reflexivity.
Defined.

(** ** Validated dates *)
Section ValidatedDate.

Import JsDate.

Lemma is_digit_Some (c : ascii) :
  is_digit c = true -> exists n, digit_of c = Some n /\ 0 <= n <= 9.
Proof.
  unfold is_digit, digit_of. cbv zeta.
  destruct ((48 <=? Z.of_nat (nat_of_ascii c))
            && (Z.of_nat (nat_of_ascii c) <=? 57)) eqn:E; [|discriminate].
  intros _. eexists. split; [reflexivity|].
  apply andb_true_iff in E as [E1 E2].
  apply Z.leb_le in E1, E2. lia.
Qed.

(** The three fields of a string that the pattern of [main] admits. *)
Lemma matches_date_pattern_fields (date : string) :
  matches_date_pattern date = true ->
  exists y m d,
    parse_ymd date = Some (y, m, d)
    /\ 0 <= y <= 9999 /\ 0 <= m <= 99 /\ 0 <= d <= 99.
Proof.
  unfold matches_date_pattern, parse_ymd.
  destruct (list_ascii_of_string date)
    as [|y1 [|y2 [|y3 [|y4 [|s1 [|m1 [|m2 [|s2 [|d1 [|d2 [|x l]]]]]]]]]]];
    try discriminate.
  intros H. repeat (apply andb_true_iff in H as [H ?]).
  repeat match goal with
         | Hd : is_digit _ = true |- _ =>
             apply is_digit_Some in Hd as (? & ? & ?)
         end.
  repeat match goal with
         | Hd : is_dash _ = true |- _ => rewrite Hd; clear Hd
         end.
  cbn [andb number_of_digits].
  repeat match goal with
         | Hd : digit_of _ = Some _ |- _ => rewrite Hd; clear Hd
         end.
  do 3 eexists. split; [reflexivity|]. lia.
Qed.

End ValidatedDate.

(** X11: the pattern check of [main] does not ensure a day of the
    calendar.  A [pendingUserDate] that passes it has a year, a month and
    a day field; when these name a calendar day, [createdAt] is the UTC
    midnight of that day in seconds, and otherwise, as for [2020-13-45],
    it is whatever the engine makes of the string, divided by 1000. *)
Theorem X11_validated_date_timestamp {S} (host : Host S) (date : string) :
  matches_date_pattern date = true ->
  exists y m d,
    JsDate.parse_ymd date = Some (y, m, d)
    /\ 0 <= y <= 9999 /\ 0 <= m <= 99 /\ 0 <= d <= 99
    /\ createdAtTimestamp host date
       = if JsDate.valid_date y m d
         then num (JsDate.utc_midnight_epoch_seconds y m d)
         else Number_div (date_impl host date) 1000.
Proof.
  intros H.
  destruct (matches_date_pattern_fields date H) as (y & m & d & Hp & Hy & Hm & Hd).
  exists y, m, d. repeat (split; [assumption|]).
  destruct (JsDate.valid_date y m d) eqn:Hv.
  - apply createdAtTimestamp_calendar; assumption.
  - unfold createdAtTimestamp, JsDate.getTime. rewrite Hp, Hv. reflexivity.
Qed.

(** [2020-13-45] passes the check, and the engine of the example makes
    [NaN] of it. *)
Lemma X11_validated_date_timestamp_witness :
  matches_date_pattern "2020-13-45" = true
  /\ JsDate.valid_date 2020 13 45 = false
  /\ createdAtTimestamp Scripted.host "2020-13-45" = NaN.
Proof.
  split; [reflexivity|]. split; [reflexivity|].
  destruct (X11_validated_date_timestamp Scripted.host "2020-13-45" eq_refl)
    as (y & m & d & Hp & _ & _ & _ & Ht).
  vm_compute in Hp. injection Hp as <- <- <-. exact Ht.
Defined.


(** ** A pending user without a login identifier *)
Section BadRecord.

Context {S : Type} (host : Host S).

Lemma pendingUserData_TypeError date users :
  Exists (fun u => PendingUser.login_ids u = []) users ->
  exists msg, pendingUserData host date users = inl (TypeError msg).
Proof.
  intros H.
  destruct (map_throwing_inl
              (pending_record (createdAtTimestamp host date)) users
              (fun e => exists msg, e = TypeError msg)) as (e & He & msg & ->).
  - intros u e. unfold pending_record.
    destruct (PendingUser.login_ids u); [|discriminate].
    intros [= <-]. eauto.
  - eapply Exists_impl; [exact H|]. intros u Hu. simpl in Hu.
    unfold pending_record. rewrite Hu. eauto.
  - exists msg. exact He.
Qed.

Lemma getPendingUsers_caught tok g a date v fuel s e :
  outcome (getPendingUsers host tok g a date v fuel s) = Throw e ->
  In (Console Lerror [PText "Error getting all pending users:"; PError e])
    (trace (getPendingUsers host tok g a date v fuel s)).
Proof.
  unfold getPendingUsers. intros Ho.
  rewrite try_rethrow_outcome in Ho by apply (log_rethrows (fun err => _)).
  match goal with |- context [try_catch ?m ?h s] =>
    rewrite (try_catch_Throw_trace m h s e Ho) end.
  apply in_or_app. right. left. reflexivity.
Qed.

End BadRecord.

(** X13: one pending user without a login identifier costs the whole
    pending fetch, and only at its end.  Over non-empty pages closed by
    an empty one, [getPendingUsers] still asks for every page; then the
    transform throws a [TypeError], which the [catch] of [getPendingUsers]
    logs and throws again, so that no pending user is returned. *)
Theorem X13_bad_pending_record_fails_fetch {S} (host : Host S)
    (tok g a date : string) (v : bool) (fuel : nat) (s s' : S)
    (pages : list (list PendingUser.t)) :
  Forall (fun page => page <> []) pages ->
  Replies (get_pending_users host) s (pages ++ [[]]) s' ->
  (length pages <= fuel)%nat ->
  Exists (fun u => PendingUser.login_ids u = []) (concat pages) ->
  let r := getPendingUsers host tok g a date v fuel s in
  exists msg,
    outcome r = Throw (TypeError msg)
    /\ final r = s'
    /\ length (requests (trace r)) = Datatypes.S (length pages)
    /\ In (Console Lerror [PText "Error getting all pending users:";
                           PError (TypeError msg)]) (trace r).
Proof.
  intros Hne HR Hfuel Hbad r. subst r.
  destruct (getPendingUsers_pages host tok g a date v pages s s' fuel
              Hne HR Hfuel) as (Ho & Hf & reqs & Hq & Hfollow).
  destruct (pendingUserData_TypeError host date (concat pages) Hbad)
    as [msg Hmsg].
  rewrite Hmsg in Ho. exists msg.
  split; [exact Ho|]. split; [exact Hf|]. split.
  - rewrite Hq. cbn [length]. f_equal. symmetry.
    clear -Hfollow. induction Hfollow; simpl; congruence.
  - apply getPendingUsers_caught, Ho.
Qed.

(** A page of two pending users, the second without a login identifier:
    both requests are sent and nothing is returned. *)
Lemma X13_bad_pending_record_fails_fetch_witness :
  let st :=
    {| Scripted.logins := [];
       Scripted.user_pages := [];
       Scripted.pending_pages :=
         [inr [Scripted.pending_user 3 ["p@x.com"];
               Scripted.pending_user 4 []];
          inr []];
       Scripted.mkdir_answer := inr tt;
       Scripted.writeFile_answer := inr tt |} in
  let r := getPendingUsers Scripted.host "token" "g1" "app1" "2020-12-01"
             false 1 st in
  exists msg,
    outcome r = Throw (TypeError msg)
    /\ length (requests (trace r)) = 2%nat.
Proof.
  intros st r.
  destruct (Scripted_pending_replies st
              [[Scripted.pending_user 3 ["p@x.com"];
                Scripted.pending_user 4 []]; []] eq_refl) as [st' HR].
  destruct (X13_bad_pending_record_fails_fetch Scripted.host "token" "g1"
              "app1" "2020-12-01" false 1 st st'
              [[Scripted.pending_user 3 ["p@x.com"];
                Scripted.pending_user 4 []]])
    as (msg & Ho & _ & Hq & _).
  - repeat constructor. discriminate.
  - exact HR.
  - simpl. lia.
  - simpl. right. left. reflexivity.
  - exists msg. split; [exact Ho | exact Hq].
Defined.

(** ** The output options *)
Section OutputOptions.

Context {S : Type} (host : Host S).

(** [collect] reads [outputFile] and [dryRun] in debug lines only. *)
Lemma collect_options env argv argv' o d o' d' fuel :
  Argv.verbose argv' = Argv.verbose argv ->
  Argv.pendingUserDate argv' = Argv.pendingUserDate argv ->
  sim (collect host env argv o d fuel) (collect host env argv' o' d' fuel).
Proof.
  intros Hv Hd. unfold collect. cbv zeta. rewrite Hv, Hd.
  repeat (apply sim_bind; [first [apply sim_refl | apply sim_debug] | intros ?]).
  apply sim_refl.
Qed.

End OutputOptions.

(** X14: [--outputFile] and [--dryRun] decide how the data is exported
    and nothing before that.  Two runs from the same host state that
    differ only in these two options validate, log in and fetch alike:
    [collect] ends the same way with the same envelope, leaves the host in
    the same state and prints the same lines apart from debug lines, and
    the two runs send the same requests. *)
Theorem X14_output_options_do_not_change_fetch {S} (host : Host S)
    (env : gmap string string) (argv : Argv.t) (out : option string)
    (dry : bool) (fuel : nat) (s : S) :
  let argv' :=
    {| Argv.dryRun := dry;
       Argv.verbose := Argv.verbose argv;
       Argv.batchSize := Argv.batchSize argv;
       Argv.outputFile := out;
       Argv.pendingUserDate := Argv.pendingUserDate argv |} in
  let fetch argv0 :=
    collect host env argv0 (resolve_outputFile (Argv.outputFile argv0))
      (Argv.dryRun argv0
       || negb (truthy (resolve_outputFile (Argv.outputFile argv0))))
      fuel s in
  outcome (fetch argv) = outcome (fetch argv')
  /\ final (fetch argv) = final (fetch argv')
  /\ visible (trace (fetch argv)) = visible (trace (fetch argv'))
  /\ requests (trace (main host env argv fuel s))
     = requests (trace (main host env argv' fuel s)).
Proof.
  intros argv' fetch.
  destruct (collect_options host env argv argv'
              (resolve_outputFile (Argv.outputFile argv))
              (Argv.dryRun argv
               || negb (truthy (resolve_outputFile (Argv.outputFile argv))))
              (resolve_outputFile (Argv.outputFile argv'))
              (Argv.dryRun argv'
               || negb (truthy (resolve_outputFile (Argv.outputFile argv'))))
              fuel eq_refl eq_refl s) as (Ho & Hf & Ht).
  subst fetch. cbv beta.
  split; [exact Ho|]. split; [exact Hf|]. split; [exact Ht|].
  rewrite !main_requests. cbv zeta.
  rewrite <- (requests_visible (trace (collect host env argv _ _ fuel s))).
  rewrite Ht. apply requests_visible.
Qed.

(** ** The paginated fetch, as sent and as returned *)




(** ** What a dry run does *)

(** C5: a run without an output file, or with the dry-run flag, makes
    no file system call at all, so it writes no file, whatever was
    fetched, however it ends and also while it is still fetching;
    conversely a written file means that an output file was given and the
    flag was off.  And when in such a run the fetches have returned an
    envelope, the run ends with status 0 and what it prints after the
    fetches is the summary: the two headings, the six metadata lines
    [exportDate], [groupId], [appId], [totalUsers], [totalPendingUsers]
    and [pendingUserDate] with the values of this run, the first record
    of each non-empty set under its heading, the warning that says why
    nothing was saved, and the closing line.  The sets are what the two
    fetches of this run returned. *)
Theorem C5_no_file_unless_requested {S} (host : Host S)
    (env : gmap string string) (argv : Argv.t) (fuel : nat) (s : S) :
  let dry := truthy (Argv.outputFile argv) = false \/ Argv.dryRun argv = true in
  let outputFile := resolve_outputFile (Argv.outputFile argv) in
  let dryRun := Argv.dryRun argv || negb (truthy outputFile) in
  let r := main host env argv fuel s in
  let fetched := collect host env argv outputFile dryRun fuel s in
  (dry -> fs_calls (trace r) = [] /\ files_written (trace r) = [])
  /\ (files_written (trace r) <> [] ->
      truthy (Argv.outputFile argv) = true /\ Argv.dryRun argv = false)
  /\ (dry ->
      forall userData,
        outcome fetched = Ret userData ->
        let md := UserData.metadata userData in
        let users := UserData.users userData in
        let pendingUsers := UserData.pendingUsers userData in
        run host env argv fuel s
        = Some (0,
                trace fetched
                ++ [Console Linfo
                      [PText "Dry run mode or no output file specified. Logging summary data:"];
                    Console Linfo [PText "Metadata:"];
                    Console Linfo
                      [PText ("  exportDate: " +:+ UserData.exportDate md)];
                    Console Linfo
                      [PText ("  groupId: " +:+ UserData.groupId md)];
                    Console Linfo [PText ("  appId: " +:+ UserData.appId md)];
                    Console Linfo
                      [PText ("  totalUsers: " +:+ pretty (length users))];
                    Console Linfo
                      [PText ("  totalPendingUsers: "
                              +:+ pretty (length pendingUsers))];
                    Console Linfo
                      [PText ("  pendingUserDate: "
                              +:+ Argv.pendingUserDate argv)]]
                ++ match users with
                   | first :: _ =>
                       [Console Linfo [PText "Sample user data (first user):"];
                        Console Linfo [PJson first]]
                   | [] => []
                   end
                ++ match pendingUsers with
                   | first :: _ =>
                       [Console Linfo
                          [PText "Sample pending user data (first pending user):"];
                        Console Linfo [PJson first]]
                   | [] => []
                   end
                ++ [Console Lwarning
                      [PText (if truthy (Argv.outputFile argv)
                              then "Dry run mode enabled. Users not saved to file."
                              else "No output file specified. Use --outputFile to save data to a file.")];
                    Console Lsuccess
                      [PText "Migration script completed successfully"]])
        /\ exists token s1 s2,
             outcome (getUsers host token (UserData.groupId md)
                        (UserData.appId md) (Argv.verbose argv) fuel s1)
             = Ret users
             /\ outcome (getPendingUsers host token (UserData.groupId md)
                           (UserData.appId md) (Argv.pendingUserDate argv)
                           (Argv.verbose argv) fuel s2)
                = Ret pendingUsers).
Proof.
  intros dry outputFile dryRun r fetched.
  assert (Hdry : dry -> fs_calls (trace r) = [] /\ files_written (trace r) = []).
  { intros Hd. apply fs_free_fs_calls. subst r. rewrite main_trace.
    cbv zeta. apply Forall_app. split.
    - apply (main_try_dry host env argv fuel s Hd).
    - destruct (outcome (main_try host env argv fuel s)); repeat constructor. }
  split; [exact Hdry|]. split.
  - intros Hw.
    destruct (truthy (Argv.outputFile argv)) eqn:Et;
      destruct (Argv.dryRun argv) eqn:Ed; auto;
      exfalso; apply Hw, Hdry; unfold dry; auto.
  - intros Hd userData Hc md users pendingUsers.
    destruct (collect_Ret host env argv outputFile dryRun fuel s userData Hc)
      as (username & apiKey & token & _ & _ & _ & _ & _
          & Hu & Hp & Hn & Hnp & Hdate & _).
    split; [|eauto].
    assert (Hbody :
              main_try host env argv fuel s
              = {| outcome := Ret tt; final := final fetched;
                   trace := trace fetched
                            ++ summary_lines outputFile userData
                            ++ [completed] |}).
    { assert (He : export_users host outputFile dryRun userData
                   = log_summary outputFile userData)
        by exact (export_users_dry host _ _ userData Hd).
      rewrite main_try_eq. cbv zeta. fold outputFile dryRun.
      rewrite (bind_Ret _ _ _ _ Hc). fold fetched. unfold after.
      rewrite He.
      rewrite (bind_run_eq _ _ (final fetched) tt (final fetched) _ (Ret tt)
                 (final fetched) [completed]
                 (log_summary_run outputFile userData (final fetched))
                 eq_refl).
      reflexivity. }
    rewrite (run_Ret host env argv fuel s)
      by (rewrite Hbody; reflexivity).
    rewrite Hbody. cbn [trace]. do 2 f_equal.
    unfold summary_lines, metadata_entries, entry_line, completed.
    fold md users pendingUsers. fold md in Hn, Hnp, Hdate.
    fold users in Hn. fold pendingUsers in Hnp.
    rewrite Hn, Hnp, Hdate.
    unfold outputFile. rewrite resolve_outputFile_truthy.
    destruct users, pendingUsers, (truthy (Argv.outputFile argv));
      reflexivity.
Qed.

(** A dry run of the scripted example: status 0, no file system call,
    and the counts and the first active user among the printed lines. *)
Lemma C5_no_file_unless_requested_witness :
  let r := main Scripted.host Scripted.env (Scripted.argv None) 5
             Scripted.example in
  fs_calls (trace r) = [] /\ files_written (trace r) = []
  /\ exists tr,
       run Scripted.host Scripted.env (Scripted.argv None) 5 Scripted.example
       = Some (0, tr)
       /\ In (Console Linfo [PText "  totalUsers: 2"]) tr
       /\ In (Console Linfo
                [PJson (active_record (Scripted.user 1 "a@x.com" 1606857105))])
            tr.
Proof.
  intros r.
  destruct (C5_no_file_unless_requested Scripted.host Scripted.env
              (Scripted.argv None) 5%nat Scripted.example)
    as (Hdry & _ & Hsummary).
  destruct (Hdry (or_introl eq_refl)) as [Hfs Hfiles].
  split; [exact Hfs|]. split; [exact Hfiles|].
  assert (Hc : exists userData,
             outcome (collect Scripted.host Scripted.env (Scripted.argv None)
                        (resolve_outputFile
                           (Argv.outputFile (Scripted.argv None)))
                        (Argv.dryRun (Scripted.argv None)
                         || negb (truthy
                                    (resolve_outputFile
                                       (Argv.outputFile (Scripted.argv None)))))
                        5 Scripted.example) = Ret userData)
    by (vm_compute; eexists; reflexivity).
  destruct Hc as [userData Hc].
  destruct (Hsummary (or_introl eq_refl) userData Hc) as [Hrun _].
  eexists. split; [exact Hrun|].
  vm_compute in Hc. injection Hc as <-.
  split; apply in_or_app; right; vm_compute;
    repeat (first [left; reflexivity | right]).
Defined.
